(** * Chunked file transfer over a publish/subscribe bus

    A shallow embedding of [file_transfer.py]: the sender
    ([ChunkedFilePublisher.send_file]) and the receiver
    ([ChunkedFileSubscriber]: [_on_message], [_handle_meta], [_handle_chunk],
    [_emit_status], [_emit_ack]) together with the parts of the Python
    runtime they rely on (file reads and positional writes, list indexing,
    [str.split], [hashlib.sha256]).

    Modelling conventions.
    - Python integers are [Z], byte strings are [list byte], [str] is
      [string] (its UTF-8 bytes); a value that may be [None] is an
      [option].
    - JSON payloads are the typed records of [Payload]; the [data] field of
      a chunk holds the decoded bytes (the wire carries their hex form).
    - The receiver's storage directory is a [World]: the directories made
      below the storage root, the [state.json] of each of them and their
      data files, looked up by the file id and the name as they are
      written.  This is what [pathlib] and a case-sensitive POSIX file
      system do with a file id and a name that are one path segment each
      ([plain]), the name not being [state.json]; for other ids and names
      several keys of the model are one file on disk, or the file system
      refuses them.  Statements over arbitrary deliveries are therefore
      made for deliveries that are [tame] and file ids that are [plain].
    - The runtime is a 64-bit CPython.  Memory and disk space do not run
      out: a read or a write fails only where the runtime refuses its
      argument, as [read] does a length no [bytes] object can have.  The
      statements that need a read to be granted are made for lengths up
      to [max_chunk], which need little memory.
    - The sender reads a file that does not change during the call, and
      the client accepts every publication once it is connected.
    - An exception that leaves a handler is an [Outcome]; a handler returns
      the storage and the publications made up to that point. *)

From Stdlib Require Import String Ascii ZArith List Bool Lia Arith.
From Stdlib Require Import Strings.Byte Sorting.Sorted DecimalString.
Import ListNotations.

Local Open Scope Z_scope.

(* ================================================================== *)
(** ** [hashlib.sha256] (FIPS 180-4) *)

Module SHA256.

Definition mask32 : Z := 4294967295.
Definition add32 (x y : Z) : Z := Z.land (x + y) mask32.
Definition rotr (n x : Z) : Z :=
  Z.lor (Z.shiftr x n) (Z.land (Z.shiftl x (32 - n)) mask32).
Definition not32 (x : Z) : Z := Z.lxor x mask32.

Definition Ch (x y z : Z) : Z := Z.lxor (Z.land x y) (Z.land (not32 x) z).
Definition Maj (x y z : Z) : Z :=
  Z.lxor (Z.lxor (Z.land x y) (Z.land x z)) (Z.land y z).
Definition bsig0 (x : Z) : Z := Z.lxor (Z.lxor (rotr 2 x) (rotr 13 x)) (rotr 22 x).
Definition bsig1 (x : Z) : Z := Z.lxor (Z.lxor (rotr 6 x) (rotr 11 x)) (rotr 25 x).
Definition ssig0 (x : Z) : Z := Z.lxor (Z.lxor (rotr 7 x) (rotr 18 x)) (Z.shiftr x 3).
Definition ssig1 (x : Z) : Z := Z.lxor (Z.lxor (rotr 17 x) (rotr 19 x)) (Z.shiftr x 10).

Definition K : list Z :=
  [ 1116352408; 1899447441; 3049323471; 3921009573; 961987163; 1508970993; 2453635748; 2870763221;
    3624381080; 310598401; 607225278; 1426881987; 1925078388; 2162078206; 2614888103; 3248222580;
    3835390401; 4022224774; 264347078; 604807628; 770255983; 1249150122; 1555081692; 1996064986;
    2554220882; 2821834349; 2952996808; 3210313671; 3336571891; 3584528711; 113926993; 338241895;
    666307205; 773529912; 1294757372; 1396182291; 1695183700; 1986661051; 2177026350; 2456956037;
    2730485921; 2820302411; 3259730800; 3345764771; 3516065817; 3600352804; 4094571909; 275423344;
    430227734; 506948616; 659060556; 883997877; 958139571; 1322822218; 1537002063; 1747873779;
    1955562222; 2024104815; 2227730452; 2361852424; 2428436474; 2756734187; 3204031479; 3329325298 ].

Definition H0 : list Z :=
  [ 1779033703; 3144134277; 1013904242; 2773480762;
    1359893119; 2600822924; 528734635; 1541459225 ].

Definition byteZ (b : byte) : Z := Z.of_N (Byte.to_N b).

(** Padding: a one bit, zero bits up to 56 modulo 64, the bit length on
    eight bytes. *)
Definition be_bytes (n : nat) (x : Z) : list Z :=
  map (fun i => Z.land (Z.shiftr x (8 * Z.of_nat i)) 255) (rev (seq 0 n)).

Definition pad (msg : list byte) : list Z :=
  let len := Z.of_nat (length msg) in
  let zeros := Z.to_nat ((55 - len) mod 64) in
  map byteZ msg ++ [128] ++ repeat 0 zeros ++ be_bytes 8 (8 * len).

Fixpoint words (fuel : nat) (bs : list Z) : list Z :=
  match fuel, bs with
  | S k, b0 :: b1 :: b2 :: b3 :: rest =>
      (b0 * 16777216 + b1 * 65536 + b2 * 256 + b3) :: words k rest
  | _, _ => []
  end.

Fixpoint blocks (fuel : nat) (ws : list Z) : list (list Z) :=
  match fuel, ws with
  | S k, _ :: _ => firstn 16 ws :: blocks k (skipn 16 ws)
  | _, _ => []
  end.

(** Message schedule: [w] holds the words computed so far, newest first. *)
Fixpoint schedule (n : nat) (w : list Z) : list Z :=
  match n with
  | O => w
  | S k =>
      let wt := add32 (add32 (ssig1 (nth 1 w 0)) (nth 6 w 0))
                      (add32 (ssig0 (nth 14 w 0)) (nth 15 w 0)) in
      schedule k (wt :: w)
  end.

Definition round (st : list Z) (kw : Z * Z) : list Z :=
  match st with
  | [a; b; c; d; e; f; g; h] =>
      let t1 := add32 (add32 (add32 h (bsig1 e)) (add32 (Ch e f g) (fst kw))) (snd kw) in
      let t2 := add32 (bsig0 a) (Maj a b c) in
      [add32 t1 t2; a; b; c; add32 d t1; e; f; g]
  | _ => st
  end.

Definition compress (h : list Z) (block : list Z) : list Z :=
  let w := rev (schedule 48 (rev block)) in
  let st := fold_left round (combine K w) h in
  map (fun p => add32 (fst p) (snd p)) (combine h st).

Definition digest (msg : list byte) : list Z :=
  let bs := pad msg in
  let ws := words (length bs) bs in
  let h := fold_left compress (blocks (length ws) ws) H0 in
  flat_map (be_bytes 4) h.

Definition hexdigit (n : Z) : ascii :=
  if n <? 10 then ascii_of_N (Z.to_N (48 + n)) else ascii_of_N (Z.to_N (87 + n)).

Fixpoint hex (bs : list Z) : string :=
  match bs with
  | [] => EmptyString
  | b :: rest => String (hexdigit (b / 16)) (String (hexdigit (b mod 16)) (hex rest))
  end.

(** [hashlib.sha256(msg).hexdigest()] *)
Definition hexdigest (msg : list byte) : string := hex (digest msg).

End SHA256.

(* ================================================================== *)
(** ** The Python runtime pieces the code uses *)

Inductive Exn :=
| FileNotFoundError | RuntimeError | ZeroDivisionError | ValueError
| TypeError | OSError | IndexError | KeyError | OverflowError.

Definition bytes_of (s : string) : list byte := list_byte_of_string s.

Definition is_empty {A} (l : list A) : bool :=
  match l with [] => true | _ :: _ => false end.

(** [l[i]] with Python's negative indices; [None] is [IndexError]. *)
Definition py_index {A} (l : list A) (i : Z) : option A :=
  let n := Z.of_nat (length l) in
  if 0 <=? i then nth_error l (Z.to_nat i)
  else if - n <=? i then nth_error l (Z.to_nat (n + i))
  else None.

(** [s.split(sep)] for a one-character separator. *)
Fixpoint split (sep : ascii) (s : string) : list string :=
  match s with
  | EmptyString => [EmptyString]
  | String c rest =>
      if Ascii.eqb c sep then EmptyString :: split sep rest
      else match split sep rest with
           | [] => [String c EmptyString]
           | hd :: tl => String c hd :: tl
           end
  end.

(** [os.path.basename]: what follows the last slash. *)
Definition basename (path : string) : string := last (split "/" path) EmptyString.

(** [str(n)] for a natural number. *)
Definition str_of_nat (n : nat) : string := NilZero.string_of_uint (Nat.to_uint n).

(** [range(n)] *)
Definition range (n : Z) : list Z := map Z.of_nat (seq 0 (Z.to_nat n)).

(** [i in l] for a list of integers *)
Definition mem (i : Z) (l : list Z) : bool := existsb (Z.eqb i) l.

(** The longest [bytes] object there is: [sys.maxsize] less the 33 bytes
    of the object's header. *)
Definition max_read : Z := 9223372036854775774.

(** Chunk sizes of use: up to 64 MiB, so that a chunk, hex-encoded in its
    JSON message, fits an MQTT packet (at most 268 435 455 bytes). *)
Definition max_chunk : Z := 67108864.

(** [fp.read(n)] on a buffered binary file whose unread bytes are [rest]:
    the bytes read and the bytes left.  The buffer of [n] bytes is made
    before anything is read: a length that is no [ssize_t], or above
    [max_read], ends in [OverflowError] whatever the file holds.  Another
    length below -1 is refused with [ValueError]; -1 reads to the end of
    the file. *)
Definition fread (n : Z) (rest : list byte) : Exn + (list byte * list byte) :=
  if n <? -9223372036854775808 then inl OverflowError
  else if n <? -1 then inl ValueError
  else if n =? -1 then inr (rest, [])
  else if max_read <? n then inl OverflowError
  else inr (firstn (Z.to_nat n) rest, skipn (Z.to_nat n) rest).

(** [c in s] for a character. *)
Fixpoint has_char (c : ascii) (s : string) : bool :=
  match s with
  | EmptyString => false
  | String c' rest => Ascii.eqb c' c || has_char c rest
  end.

(** A string that is one segment of a path, so that [pathlib] joins it to
    a directory as it is and the file system takes it: not empty, not [.]
    or [..], without slash and without NUL, of at most 255 bytes. *)
Definition plain (s : string) : bool :=
  negb (String.eqb s "") && negb (String.eqb s ".") && negb (String.eqb s "..")
  && negb (has_char "/" s) && negb (has_char "000" s)
  && (String.length s <=? 255)%nat.

(** The loop
[[
    while True:
        data = f.read(n)
        if not data: break
        body(data)
]]
    over the loop's variables [s]; the result is their final value and the
    exception that ended the loop, if any.  Every turn but the last
    consumes at least one byte, so [S (length rest)] turns are enough
    ([read_loop_unfold]). *)
Fixpoint read_loop_fuel {S : Type} (body : S -> list byte -> S * option Exn)
    (fuel : nat) (n : Z) (rest : list byte) (s : S) : S * option Exn :=
  match fuel with
  | O => (s, None)
  | Datatypes.S k =>
      match fread n rest with
      | inl e => (s, Some e)
      | inr (data, rest') =>
          if is_empty data then (s, None)
          else match body s data with
               | (s', Some e) => (s', Some e)
               | (s', None) => read_loop_fuel body k n rest' s'
               end
      end
  end.

Definition read_loop {S : Type} (body : S -> list byte -> S * option Exn)
    (n : Z) (rest : list byte) (s : S) : S * option Exn :=
  read_loop_fuel body (Datatypes.S (length rest)) n rest s.

(** [fp.seek(off); fp.write(blob)] on a file opened ["r+b"]: a write past
    the end fills the gap with zero bytes; writing nothing leaves the file
    as it is. *)
Definition write_at (file : list byte) (off : nat) (blob : list byte) : list byte :=
  if is_empty blob then file
  else firstn off file ++ repeat x00 (off - length file) ++ blob
       ++ skipn (off + length blob) file.

(** The largest offset [fp.seek] takes (a 64-bit file offset); a larger
    one is refused with [ValueError], a negative one with [OSError]. *)
Definition max_offset : Z := 9223372036854775807.

(** Truth value of an optional string: [None] and [""] are false. *)
Definition truthy (s : option string) : bool :=
  match s with
  | Some s' => negb (String.eqb s' EmptyString)
  | None => false
  end.

(** [x or d] for an optional integer. *)
Definition or_int (x : option Z) (d : Z) : Z :=
  match x with
  | Some v => if v =? 0 then d else v
  | None => d
  end.

(* ================================================================== *)
(** ** Messages *)

Record MQTTConfig := {
  TOPIC_PREFIX : string;
  QOS : Z;
}.

Record FileTransferTopics := {
  base : string;
  meta : string;
  chunk : string;
  ack : string;
  retry : string;
  status : string;
}.

Definition mk_topics (prefix file_id : string) : FileTransferTopics :=
  let b := (prefix ++ "/file/" ++ file_id)%string in
  {| base := b;
     meta := (b ++ "/meta")%string;
     chunk := (b ++ "/chunk")%string;
     ack := (b ++ "/ack")%string;
     retry := (b ++ "/retry")%string;
     status := (b ++ "/status")%string |}.

Record Manifest := {
  m_schema : string;
  m_file_id : string;
  m_name : string;
  m_size : Z;
  m_chunk_size : Z;
  m_total_chunks : Z;
  m_file_sha256 : option string;
  m_chunk_sha256 : option (list (option string));
  m_content_type : string;
  m_timestamp : Z;
}.

Record ChunkMsg := {
  c_file_id : string;
  c_chunk_index : Z;
  c_sha256 : string;
  c_data : list byte;
}.

Inductive Payload :=
| PManifest (m : Manifest)
| PChunk (c : ChunkMsg)
| PStatusRequest
| PStatus (file_id : string) (received : Z) (total : option Z)
          (missing : list Z) (complete : bool)
| PRetry (file_id : string) (missing : list Z)
| PAck (file_id : string) (status_ : string) (timestamp : Z).

(** The file id a payload names in its [file_id] key. *)
Definition payload_file_id (p : Payload) : option string :=
  match p with
  | PManifest m => Some (m_file_id m)
  | PChunk c => Some (c_file_id c)
  | PStatusRequest => None
  | PStatus f _ _ _ _ => Some f
  | PRetry f _ => Some f
  | PAck f _ _ => Some f
  end.

(** One call of the client's [publish(topic, payload, qos)]. *)
Record Pub := {
  topic : string;
  payload : Payload;
  qos : Z;
}.

(* ================================================================== *)
(** ** The sender: [ChunkedFilePublisher] *)

Record SenderEnv := {
  fs : string -> option (list byte);
  is_connected : bool;
  connect_result : bool;
  uuid4_hex : string;
  guess_type : string -> option string;
  sender_clock : Z;
}.

Definition generate_file_id (env : SenderEnv) (file_path : string)
    (content : list byte) : string :=
  let name := basename file_path in
  let size := length content in
  (name ++ "-" ++ str_of_nat size ++ "-" ++ substring 0 8 (uuid4_hex env))%string.

(** Variables of the first pass: the bytes fed to [file_hasher], and
    [chunk_hashes]. *)
Definition first_pass_body (s : list byte * list string) (data : list byte)
    : (list byte * list string) * option Exn :=
  ((fst s ++ data, snd s ++ [SHA256.hexdigest data]), None).

(** Variables of the second pass: [index], and what was published. *)
Definition second_pass_body (topics : FileTransferTopics) (file_id : string)
    (chunk_sha256 : list string) (q : Z)
    (s : Z * list Pub) (data : list byte) : (Z * list Pub) * option Exn :=
  let index := fst s in
  match py_index chunk_sha256 index with
  | None => (s, Some IndexError)
  | Some h =>
      let payload := {| c_file_id := file_id; c_chunk_index := index;
                        c_sha256 := h; c_data := data |} in
      ((index + 1,
        snd s ++ [{| topic := chunk topics; payload := PChunk payload; qos := q |}]),
       None)
  end.

(** [send_file]: the value returned or the exception raised, and the
    publications made. *)
Definition send_file (config : MQTTConfig) (env : SenderEnv) (file_path : string)
    (chunk_size : Z) (qos_arg : option Z) : (Exn + string) * list Pub :=
  match fs env file_path with
  | None => (inl FileNotFoundError, [])
  | Some content =>
      let file_id := generate_file_id env file_path content in
      let topics := mk_topics (TOPIC_PREFIX config) file_id in
      let q := match qos_arg with Some q => q | None => QOS config end in
      if negb (is_connected env) && negb (connect_result env) then (inl RuntimeError, [])
      else
        let total_size := Z.of_nat (length content) in
        if chunk_size =? 0 then (inl ZeroDivisionError, [])
        else
          let total_chunks := (total_size + chunk_size - 1) / chunk_size in
          match read_loop first_pass_body chunk_size content ([], []) with
          | (_, Some e) => (inl e, [])
          | ((hashed, chunk_hashes), None) =>
              let content_type :=
                match guess_type env file_path with
                | Some t => t
                | None => "application/octet-stream"%string
                end in
              let manifest :=
                {| m_schema := "orca.file.manifest.v1";
                   m_file_id := file_id;
                   m_name := basename file_path;
                   m_size := total_size;
                   m_chunk_size := chunk_size;
                   m_total_chunks := total_chunks;
                   m_file_sha256 := Some (SHA256.hexdigest hashed);
                   m_chunk_sha256 := Some (map Some chunk_hashes);
                   m_content_type := content_type;
                   m_timestamp := sender_clock env |} in
              let bus := [{| topic := meta topics; payload := PManifest manifest; qos := q |}] in
              match read_loop (second_pass_body topics file_id chunk_hashes q)
                              chunk_size content (0, bus) with
              | ((_, bus'), Some e) => (inl e, bus')
              | ((_, bus'), None) =>
                  (inr file_id,
                   bus' ++ [{| topic := status topics; payload := PStatusRequest; qos := q |}])
              end
          end
  end.

(* ================================================================== *)
(** ** The receiver: [ChunkedFileSubscriber] *)

(** The dictionary kept in [state.json]. *)
Record State := {
  file_id : string;
  name : option string;
  size : option Z;
  chunk_size : option Z;
  total_chunks : option Z;
  file_sha256 : option string;
  chunk_sha256 : option (list (option string));
  received : list Z;
  complete : bool;
  ack_sent : bool;
}.

Definition set_received (r : list Z) (s : State) : State :=
  {| file_id := file_id s; name := name s; size := size s;
     chunk_size := chunk_size s; total_chunks := total_chunks s;
     file_sha256 := file_sha256 s; chunk_sha256 := chunk_sha256 s;
     received := r; complete := complete s; ack_sent := ack_sent s |}.

Definition set_complete (b : bool) (s : State) : State :=
  {| file_id := file_id s; name := name s; size := size s;
     chunk_size := chunk_size s; total_chunks := total_chunks s;
     file_sha256 := file_sha256 s; chunk_sha256 := chunk_sha256 s;
     received := received s; complete := b; ack_sent := ack_sent s |}.

Definition set_ack_sent (b : bool) (s : State) : State :=
  {| file_id := file_id s; name := name s; size := size s;
     chunk_size := chunk_size s; total_chunks := total_chunks s;
     file_sha256 := file_sha256 s; chunk_sha256 := chunk_sha256 s;
     received := received s; complete := complete s; ack_sent := b |}.

(** [state.update({...})] of [_handle_meta] *)
Definition update_meta (m : Manifest) (s : State) : State :=
  {| file_id := file_id s;
     name := Some (m_name m);
     size := Some (m_size m);
     chunk_size := Some (m_chunk_size m);
     total_chunks := Some (m_total_chunks m);
     file_sha256 := m_file_sha256 m;
     chunk_sha256 := m_chunk_sha256 m;
     received := received s; complete := complete s; ack_sent := ack_sent s |}.

(** The storage root: the directories made in it, in the order they were
    made, the [state.json] of each file id ([None] when the file does not
    exist) and the data files, by file id and name. *)
Record World := {
  states : string -> option State;
  files : string -> string -> option (list byte);
  dirs : list string;
}.

Definition empty_world : World :=
  {| states := fun _ => None; files := fun _ _ => None; dirs := [] |}.

(** [_state_dir]: [d.mkdir(parents=True, exist_ok=True)]; the path it
    returns is the key [fid]. *)
Definition _state_dir (fid : string) (w : World) : World :=
  {| states := states w;
     files := files w;
     dirs := if existsb (String.eqb fid) (dirs w) then dirs w else dirs w ++ [fid] |}.

(** What [state.json] of [fid] holds, or the dictionary of a transfer
    not heard of. *)
Definition state_of (fid : string) (w : World) : State :=
  match states w fid with
  | Some s => s
  | None =>
      {| file_id := fid; name := None; size := None; chunk_size := None;
         total_chunks := None; file_sha256 := None; chunk_sha256 := None;
         received := []; complete := false; ack_sent := false |}
  end.

(** [_load_state]: the dictionary, and the storage with the directory
    that [_state_path] has made on the way. *)
Definition _load_state (fid : string) (w : World) : State * World :=
  (state_of fid w, _state_dir fid w).

(** [_save_state]: the directory is that of the dictionary's own
    [file_id]. *)
Definition _save_state (s : State) (w : World) : World :=
  {| states := fun f => if String.eqb f (file_id s) then Some s else states w f;
     files := files w;
     dirs := dirs (_state_dir (file_id s) w) |}.

(** [_data_path]: the directory is made, then joined with the name;
    joining with [None] raises [TypeError].  The path is the key
    [(fid, name)]. *)
Definition _data_path (fid : string) (nm : option string) (w : World)
    : World * (Exn + string) :=
  (_state_dir fid w,
   match nm with
   | Some n => inr n
   | None => inl TypeError
   end).

(** [data_path.write_bytes], and [fp.write] once the file is there. *)
Definition write_file (fid nm : string) (content : list byte) (w : World) : World :=
  {| states := states w;
     files := fun f n =>
       if String.eqb f fid && String.eqb n nm then Some content else files w f n;
     dirs := dirs w |}.

Inductive Outcome := Returned | Raised (e : Exn).

(** What a handler leaves behind: the storage, the publications made, and
    how it ended. *)
Record Result := {
  world : World;
  pubs : list Pub;
  outcome : Outcome;
}.

(** [missing] of [_emit_status]: the indices of [range(total)] that are
    not in [received], none while [total] is [None]. *)
Definition missing_of (state : State) : list Z :=
  match total_chunks state with
  | Some total => filter (fun i => negb (mem i (received state))) (range total)
  | None => []
  end.

(** The publications of [_emit_status] for the dictionary [state]. *)
Definition status_pubs (config : MQTTConfig) (fid : string) (state : State) : list Pub :=
  let topics := mk_topics (TOPIC_PREFIX config) fid in
  let total := total_chunks state in
  let missing := missing_of state in
  let payload := PStatus fid (Z.of_nat (length (received state))) total
                         (firstn 500 missing) (complete state) in
  {| topic := status topics; payload := payload; qos := QOS config |}
  :: (if is_empty missing then []
      else [{| topic := retry topics; payload := PRetry fid (firstn 500 missing);
               qos := QOS config |}]).

Definition _emit_status (config : MQTTConfig) (fid : string) (w : World)
    : World * list Pub :=
  let state := fst (_load_state fid w) in
  let w0 := snd (_load_state fid w) in
  (w0, status_pubs config fid state).

Definition _emit_ack (config : MQTTConfig) (now : Z) (fid : string) (w : World)
    : World * list Pub :=
  let topics := mk_topics (TOPIC_PREFIX config) fid in
  let state := fst (_load_state fid w) in
  let w0 := snd (_load_state fid w) in
  if ack_sent state then (w0, [])
  else
    (_save_state (set_ack_sent true state) w0,
     [{| topic := ack topics; payload := PAck fid "ok" now; qos := QOS config |}]).

Definition _handle_meta (config : MQTTConfig) (m : Manifest) (w : World) : Result :=
  let state := update_meta m (fst (_load_state (m_file_id m) w)) in
  let w0 := snd (_load_state (m_file_id m) w) in
  let w1 := _save_state state w0 in
  {| world := fst (_emit_status config (m_file_id m) w1);
     pubs := snd (_emit_status config (m_file_id m) w1);
     outcome := Returned |}.

(** The three ways the per-chunk verification of [_handle_chunk] ends. *)
Inductive ChunkCheck := CheckPassed | CheckMismatch | CheckRaised.

Definition check_chunk (state : State) (idx : Z) (blob : list byte) : ChunkCheck :=
  match chunk_sha256 state with
  | None => CheckPassed
  | Some expected_chunk_hashes =>
      if negb (is_empty expected_chunk_hashes)
         && (idx <? Z.of_nat (length expected_chunk_hashes))
      then
        match py_index expected_chunk_hashes idx with
        | None => CheckRaised
        | Some expected =>
            if truthy expected
               && negb (String.eqb (SHA256.hexdigest blob)
                                   (match expected with Some e => e | None => EmptyString end))
            then CheckMismatch else CheckPassed
        end
      else CheckPassed
  end.

(** The body of the whole-file loop: feed [hasher]. *)
Definition hash_body (hasher : list byte) (chunk_data : list byte)
    : list byte * option Exn :=
  (hasher ++ chunk_data, None).

(** The completion check that ends [_handle_chunk]: [state] is the
    dictionary just saved, [nm] the name of the data file. *)
Definition completion_check (config : MQTTConfig) (now : Z) (fid nm : string)
    (state : State) (w : World) : Result :=
  let emits w' :=
    {| world := fst (_emit_status config fid w');
       pubs := snd (_emit_status config fid w');
       outcome := Returned |} in
  let periodic :=
    if Z.of_nat (length (received state)) mod 50 =? 0 then emits w
    else {| world := w; pubs := []; outcome := Returned |} in
  match total_chunks state with
  | None => periodic
  | Some total =>
      if (total <=? Z.of_nat (length (received state))) && negb (complete state)
      then
        let state2 := set_complete true state in
        let w1 := _save_state state2 w in
        let w1' := fst (_data_path fid (Some nm) w1) in
        let data := match files w1' fid nm with Some d => d | None => [] end in
        match read_loop hash_body (or_int (chunk_size state2) 1048576) data [] with
        | (_, Some _) => emits w1'
        | (hasher, None) =>
            let actual_file_hash := SHA256.hexdigest hasher in
            let expected_file_hash := file_sha256 state2 in
            if truthy expected_file_hash
               && negb (String.eqb actual_file_hash
                          (match expected_file_hash with
                           | Some e => e | None => EmptyString end))
            then
              let state3 := set_complete false state2 in
              emits (_save_state state3 w1')
            else
              {| world := fst (_emit_ack config now fid w1');
                 pubs := snd (_emit_ack config now fid w1');
                 outcome := Returned |}
        end
      else periodic
  end.

(** [_handle_chunk].  The data path is built from [state.get("name", ...)]:
    the key is always there, so before a manifest its value is [None] and
    joining the directory with it raises [TypeError]; but for the
    directory, nothing has been written or saved by then.  The blob is
    written before its hash is checked, and a mismatch returns without
    saving the state. *)
Definition _handle_chunk (config : MQTTConfig) (now : Z) (c : ChunkMsg) (w : World)
    : Result :=
  let fid := c_file_id c in
  let idx := c_chunk_index c in
  let blob := c_data c in
  let state := fst (_load_state fid w) in
  let data_path := _data_path fid (name state) (snd (_load_state fid w)) in
  let w0 := fst data_path in
  match snd data_path with
  | inl e => {| world := w0; pubs := []; outcome := Raised e |}
  | inr nm =>
      let w1 := match files w0 fid nm with
                | Some _ => w0
                | None => write_file fid nm [] w0
                end in
      let old := match files w0 fid nm with Some d => d | None => [] end in
      let off := idx * or_int (chunk_size state) (Z.of_nat (length blob)) in
      if off <? 0 then {| world := w1; pubs := []; outcome := Raised OSError |}
      else if max_offset <? off
      then {| world := w1; pubs := []; outcome := Raised ValueError |}
      else
        let w2 := write_file fid nm (write_at old (Z.to_nat off) blob) w1 in
        match check_chunk state idx blob with
        | CheckRaised => {| world := w2; pubs := []; outcome := Raised IndexError |}
        | CheckMismatch =>
            {| world := fst (_emit_status config fid w2);
               pubs := snd (_emit_status config fid w2);
               outcome := Returned |}
        | CheckPassed =>
            let state1 := if mem idx (received state) then state
                          else set_received (received state ++ [idx]) state in
            let w3 := _save_state state1 w2 in
            completion_check config now fid nm state1 w3
        end
  end.

(** An inbound delivery: the topic, the decoded JSON ([None] when the
    payload is not JSON), and the clock while it is handled. *)
Record Inbound := {
  in_topic : string;
  in_payload : option Payload;
  in_time : Z;
}.

(** [_handle_meta] given a payload that is no manifest: without a
    [file_id] the first lookup raises [KeyError]; with one, the state of
    that file id is loaded, which makes its directory, before the lookup
    of [name] raises. *)
Definition meta_key_error (data : Payload) (w : World) : Result :=
  match payload_file_id data with
  | Some fid =>
      {| world := snd (_load_state fid w); pubs := []; outcome := Raised KeyError |}
  | None => {| world := w; pubs := []; outcome := Raised KeyError |}
  end.

(** [_on_message]: the kind is the last segment of the topic.  On a chunk
    topic a payload that is no chunk lacks [file_id] or [chunk_index],
    which [_handle_chunk] reads before it touches the storage
    ([KeyError]). *)
Definition _on_message (config : MQTTConfig) (msg : Inbound) (w : World) : Result :=
  match in_payload msg with
  | None => {| world := w; pubs := []; outcome := Returned |}
  | Some data =>
      let parts := split "/" (in_topic msg) in
      match py_index parts (-1), py_index parts (-2) with
      | Some kind, Some fid =>
          if String.eqb kind "meta" then
            match data with
            | PManifest m => _handle_meta config m w
            | _ => meta_key_error data w
            end
          else if String.eqb kind "chunk" then
            match data with
            | PChunk c => _handle_chunk config (in_time msg) c w
            | _ => {| world := w; pubs := []; outcome := Raised KeyError |}
            end
          else if String.eqb kind "status" then
            {| world := fst (_emit_status config fid w);
               pubs := snd (_emit_status config fid w);
               outcome := Returned |}
          else {| world := w; pubs := []; outcome := Returned |}
      | _, _ => {| world := w; pubs := []; outcome := Raised IndexError |}
      end
  end.

(** The receiver fed a sequence of deliveries: [MQTTSubscriber._on_message]
    logs an exception of the handler and goes on with the next message. *)
Fixpoint run (config : MQTTConfig) (msgs : list Inbound) (w : World)
    : World * list Pub :=
  match msgs with
  | [] => (w, [])
  | msg :: rest =>
      let r := _on_message config msg w in
      let (w', ps) := run config rest (world r) in
      (w', pubs r ++ ps)
  end.

(** A manifest whose file id and name are plain, the name not being that
    of the state file: the data file and [state.json] are two files of
    one directory below the storage root. *)
Definition well_named (m : Manifest) : bool :=
  plain (m_file_id m) && plain (m_name m) && negb (String.eqb (m_name m) "state.json").

(** A delivery that takes the handlers to the file system by plain
    strings only: a well-named manifest on a [meta] topic; the file id of
    a chunk on a [chunk] topic; the file id segment of a [status] topic.
    Other deliveries do not reach the file system. *)
Definition tame (msg : Inbound) : bool :=
  match in_payload msg with
  | None => true
  | Some data =>
      let parts := split "/" (in_topic msg) in
      match py_index parts (-1), py_index parts (-2) with
      | Some kind, Some fid =>
          if String.eqb kind "meta" then
            match data with
            | PManifest m => well_named m
            | _ => match payload_file_id data with
                   | Some g => plain g
                   | None => true
                   end
            end
          else if String.eqb kind "chunk" then
            match data with
            | PChunk c => plain (c_file_id c)
            | _ => true
            end
          else if String.eqb kind "status" then plain fid
          else true
      | _, _ => true
      end
  end.

(** A publication of the sender as the receiver gets it. *)
Definition deliver (now : Z) (p : Pub) : Inbound :=
  {| in_topic := topic p; in_payload := Some (payload p); in_time := now |}.

(* ================================================================== *)
(** ** The words of the specification, for comparison *)

(** [ceil(size / chunk_size)] *)
Definition ceil_div (size chunk_size : Z) : Z :=
  if size mod chunk_size =? 0 then size / chunk_size else size / chunk_size + 1.

(** Chunk [i] of a file: its bytes from [i * chunk_size] up to
    [min(size, (i+1) * chunk_size)]. *)
Definition source_chunk (chunk_size : nat) (content : list byte) (i : nat) : list byte :=
  firstn chunk_size (skipn (i * chunk_size) content).

(* ================================================================== *)
(** ** Notions used in the statements *)

(** Number of chunks of [len] bytes cut every [n] bytes. *)
Definition count_chunks (n len : nat) : nat := (len + n - 1) / n.

(** The chunks of a file in order. *)
Definition source_chunks (n : nat) (content : list byte) : list (list byte) :=
  map (source_chunk n content) (seq 0 (count_chunks n (length content))).

(** The publication of chunk [index] carrying [data]. *)
Definition chunk_pub (topics : FileTransferTopics) (fid : string) (q : Z)
    (index : nat) (data : list byte) : Pub :=
  {| topic := chunk topics;
     payload := PChunk {| c_file_id := fid; c_chunk_index := Z.of_nat index;
                          c_sha256 := SHA256.hexdigest data; c_data := data |};
     qos := q |}.

Definition fails_without_publishing (r : (Exn + string) * list Pub) : Prop :=
  exists e, r = (inl e, []).

(** What holds of every [state.json] the receiver has written. *)
Definition good (f : string) (s : State) : Prop :=
  file_id s = f /\ NoDup (received s) /\ (ack_sent s = true -> complete s = true).

Definition Inv (w : World) : Prop :=
  forall f s, states w f = Some s -> good f s.

Definition is_ack (p : Pub) : bool :=
  match payload p with PAck _ _ _ => true | _ => false end.

Definition is_ack_for (f : string) (p : Pub) : bool :=
  match payload p with PAck g _ _ => String.eqb g f | _ => false end.

Definition count_acks (f : string) (ps : list Pub) : nat :=
  length (filter (is_ack_for f) ps).

Definition no_ack (ps : list Pub) : Prop := Forall (fun p => is_ack p = false) ps.

Definition ack_pub (config : MQTTConfig) (now : Z) (fid : string) : Pub :=
  {| topic := ack (mk_topics (TOPIC_PREFIX config) fid);
     payload := PAck fid "ok" now; qos := QOS config |}.

Definition digest_ok (s : State) (data : list byte) : Prop :=
  truthy (file_sha256 s) = false \/ file_sha256 s = Some (SHA256.hexdigest data).

(** The dictionary on disk and the publications after the completion
    check on [state], the data file holding [data]. *)
Inductive Completed (config : MQTTConfig) (now : Z) (fid : string) (state : State)
    (data : list byte) : State -> list Pub -> Prop :=
| NotCompleted ps :
    no_ack ps -> Completed config now fid state data state ps
| VerifyRaised ps cs :
    complete state = false -> chunk_size state = Some cs ->
    cs < -1 \/ max_read < cs -> no_ack ps ->
    Completed config now fid state data (set_complete true state) ps
| Acked total :
    complete state = false -> ack_sent state = false ->
    total_chunks state = Some total -> total <= Z.of_nat (length (received state)) ->
    digest_ok state data ->
    Completed config now fid state data
              (set_ack_sent true (set_complete true state)) [ack_pub config now fid].

(** The file a data path holds, as the whole-file check reads it. *)
Definition data_of (w : World) (fid nm : string) : list byte :=
  match files w fid nm with Some d => d | None => [] end.

(** When an ack may have been published for [f]: both flags are set, and
    the manifest's [file_sha256] is absent or empty or is the sha256 of
    the data file. *)
Definition ack_allowed (f : string) (w : World) : Prop :=
  let s := state_of f w in
  complete s = true /\ ack_sent s = true /\
  exists nm, name s = Some nm /\ digest_ok s (data_of w f nm).

(** The two publications of [_emit_status]. *)
Definition status_pub (config : MQTTConfig) (fid : string) (state : State) : Pub :=
  {| topic := status (mk_topics (TOPIC_PREFIX config) fid);
     payload := PStatus fid (Z.of_nat (length (received state))) (total_chunks state)
                        (firstn 500 (missing_of state)) (complete state);
     qos := QOS config |}.

Definition retry_pub (config : MQTTConfig) (fid : string) (state : State) : Pub :=
  {| topic := retry (mk_topics (TOPIC_PREFIX config) fid);
     payload := PRetry fid (firstn 500 (missing_of state));
     qos := QOS config |}.

(** In a list of publications, each status is followed by a retry with
    the same list exactly when that list is not empty, and a retry only
    ever follows such a status. *)
Inductive well_paired : list Pub -> Prop :=
| wp_nil : well_paired []
| wp_status p rest fid n total c :
    payload p = PStatus fid n total [] c ->
    well_paired rest -> well_paired (p :: rest)
| wp_status_retry p q rest fid n total missing c :
    payload p = PStatus fid n total missing c -> missing <> [] ->
    payload q = PRetry fid missing ->
    well_paired rest -> well_paired (p :: q :: rest)
| wp_ack p rest fid st ts :
    payload p = PAck fid st ts ->
    well_paired rest -> well_paired (p :: rest).

(** A publication that is no retry for [f] and no status for [f] with a
    known total. *)
Definition quiet (f : string) (p : Pub) : Prop :=
  match payload p with
  | PRetry g _ => g <> f
  | PStatus g _ total _ _ => g = f -> total = None
  | _ => True
  end.

(* ================================================================== *)
(** ** Concrete scenarios *)

(** A configuration and a sender environment holding one file, for the
    concrete scenarios. *)
Definition example_config : MQTTConfig := {| TOPIC_PREFIX := "orca/iot"; QOS := 1 |}.

Definition example_env (content : list byte) : SenderEnv :=
  {| fs := fun p => if String.eqb p "/tmp/a.bin" then Some content else None;
     is_connected := true;
     connect_result := true;
     uuid4_hex := "0123456789abcdef0123456789abcdef";
     guess_type := fun _ => None;
     sender_clock := 1700000000 |}.

(** Deliveries for the concrete scenarios: what the sender publishes for
    the example file, and a chunk message made by hand. *)
Definition example_bus (content : string) (cs : Z) : list Inbound :=
  map (deliver 5)
      (snd (send_file example_config (example_env (bytes_of content)) "/tmp/a.bin" cs None)).

Definition example_chunk (fid : string) (idx : Z) (data : string) : Inbound :=
  {| in_topic := chunk (mk_topics (TOPIC_PREFIX example_config) fid);
     in_payload := Some (PChunk {| c_file_id := fid; c_chunk_index := idx;
                                   c_sha256 := SHA256.hexdigest (bytes_of data);
                                   c_data := bytes_of data |});
     in_time := 7 |}.

Definition example_meta (m : Manifest) : Inbound :=
  {| in_topic := meta (mk_topics (TOPIC_PREFIX example_config) (m_file_id m));
     in_payload := Some (PManifest m);
     in_time := 7 |}.

(** A manifest that carries no [file_sha256]. *)
Definition manifest_without_file_hash : Manifest :=
  {| m_schema := "orca.file.manifest.v1";
     m_file_id := "f";
     m_name := "a.bin";
     m_size := 1;
     m_chunk_size := 1;
     m_total_chunks := 1;
     m_file_sha256 := None;
     m_chunk_sha256 := Some [Some (SHA256.hexdigest (bytes_of "a"))];
     m_content_type := "application/octet-stream";
     m_timestamp := 1700000000 |}.

(* ================================================================== *)
(** ** Notions used in the further statements *)

From Stdlib Require DecimalNat.

(** The manifest [send_file] builds for a file holding [content]. *)
Definition sender_manifest (env : SenderEnv) (file_path : string) (cs : Z)
    (content : list byte) : Manifest :=
  {| m_schema := "orca.file.manifest.v1";
     m_file_id := generate_file_id env file_path content;
     m_name := basename file_path;
     m_size := Z.of_nat (length content);
     m_chunk_size := cs;
     m_total_chunks := (Z.of_nat (length content) + cs - 1) / cs;
     m_file_sha256 := Some (SHA256.hexdigest content);
     m_chunk_sha256 :=
       Some (map (fun i => Some (SHA256.hexdigest (source_chunk (Z.to_nat cs) content i)))
                 (seq 0 (count_chunks (Z.to_nat cs) (length content))));
     m_content_type := match guess_type env file_path with
                       | Some t => t
                       | None => "application/octet-stream"%string
                       end;
     m_timestamp := sender_clock env |}.

(** [qos if qos is not None else self.config.QOS] *)
Definition sender_qos (config : MQTTConfig) (qos_arg : option Z) : Z :=
  match qos_arg with Some q => q | None => QOS config end.

(** The bytes a publication carries as chunk data. *)
Definition pub_chunk_data (p : Pub) : list (list byte) :=
  match payload p with PChunk c => [c_data c] | _ => [] end.

(** What one publication of [send_file] for file id [fid] may be. *)
Definition own_publication (config : MQTTConfig) (fid : string) (q : Z) (p : Pub) : Prop :=
  qos p = q
  /\ ((topic p = meta (mk_topics (TOPIC_PREFIX config) fid)
       /\ exists m, payload p = PManifest m /\ m_file_id m = fid)
      \/ (topic p = chunk (mk_topics (TOPIC_PREFIX config) fid)
          /\ exists c, payload p = PChunk c /\ c_file_id c = fid)
      \/ (topic p = status (mk_topics (TOPIC_PREFIX config) fid)
          /\ payload p = PStatusRequest)).

(** A manifest that describes a file holding [content] the way the
    sender computes it: a [chunk_size] from 1 to [max_chunk],
    [total_chunks] chunks, the digest of the file and the digest of each
    chunk. *)
Definition describes (m : Manifest) (content : list byte) : Prop :=
  let n := Z.to_nat (m_chunk_size m) in
  let total := count_chunks n (length content) in
  1 <= m_chunk_size m <= max_chunk
  /\ m_total_chunks m = Z.of_nat total
  /\ m_file_sha256 m = Some (SHA256.hexdigest content)
  /\ m_chunk_sha256 m
     = Some (map (fun i => Some (SHA256.hexdigest (source_chunk n content i))) (seq 0 total)).

(** A chunk message for the transfer [m] describes that carries the bytes
    of the chunk of its index. *)
Definition honest_chunk (m : Manifest) (content : list byte) (c : ChunkMsg) : Prop :=
  let n := Z.to_nat (m_chunk_size m) in
  c_file_id c = m_file_id m
  /\ exists i, (i < count_chunks n (length content))%nat
               /\ c_chunk_index c = Z.of_nat i
               /\ c_data c = source_chunk n content i.

(** Deliveries on the topics of a payload's own file id. *)
Definition meta_delivery (prefix : string) (now : Z) (m : Manifest) : Inbound :=
  {| in_topic := meta (mk_topics prefix (m_file_id m));
     in_payload := Some (PManifest m); in_time := now |}.

Definition chunk_delivery (prefix : string) (now : Z) (c : ChunkMsg) : Inbound :=
  {| in_topic := chunk (mk_topics prefix (c_file_id c));
     in_payload := Some (PChunk c); in_time := now |}.

(** The [state.json] of a transfer after its manifest [m]: the manifest's
    fields, the indices received, and both flags equal. *)
Definition tracking (m : Manifest) (rcv : list Z) (cmp : bool) : State :=
  {| file_id := m_file_id m;
     name := Some (m_name m);
     size := Some (m_size m);
     chunk_size := Some (m_chunk_size m);
     total_chunks := Some (m_total_chunks m);
     file_sha256 := m_file_sha256 m;
     chunk_sha256 := m_chunk_sha256 m;
     received := rcv;
     complete := cmp;
     ack_sent := cmp |}.

(** A data file [d] that agrees with [content] on every chunk whose index
    is in [rcv], reaches the end of each such chunk and is no longer than
    [content]. *)
Definition FileOK (n : nat) (content : list byte) (rcv : list Z) (d : list byte) : Prop :=
  (length d <= length content)%nat
  /\ (forall p, (p < length d)%nat -> In (Z.of_nat (p / n)) rcv ->
                nth_error d p = nth_error content p)
  /\ (forall i, In (Z.of_nat i) rcv ->
                (Nat.min ((i + 1) * n) (length content) <= length d)%nat).

(** The storage of a transfer under way, [acks] acks having been
    published for it. *)
Definition Progress (m : Manifest) (content : list byte) (w : World) (acks : nat) : Prop :=
  let n := Z.to_nat (m_chunk_size m) in
  let total := count_chunks n (length content) in
  exists rcv cmp,
    state_of (m_file_id m) w = tracking m rcv cmp
    /\ NoDup rcv
    /\ (forall z, In z rcv -> exists i, (i < total)%nat /\ z = Z.of_nat i)
    /\ (cmp = true <-> (total <= length rcv)%nat)
    /\ FileOK n content rcv (data_of w (m_file_id m) (m_name m))
    /\ acks = (if cmp then 1 else 0)%nat.


(** The indices carried by the chunk payloads for file id [f] among some
    deliveries. *)
Definition chunk_indices (f : string) (msgs : list Inbound) : list Z :=
  flat_map (fun msg => match in_payload msg with
                       | Some (PChunk c) =>
                           if String.eqb (c_file_id c) f then [c_chunk_index c] else []
                       | _ => []
                       end) msgs.

(** What a receiver is delivered while the file [content] is transferred
    under the manifest [m]: the manifest, an honest chunk, a message on
    the status, ack or retry topic of the transfer (the sender's probe, and
    the receiver's own publications, which its subscription to every file
    topic returns to it) whose payload is no chunk, or any tame message
    whose payload does not name the transfer's file id. *)
Inductive transfer_delivery (prefix : string) (m : Manifest) (content : list byte)
    : Inbound -> Prop :=
| td_meta (t : Z) : transfer_delivery prefix m content (meta_delivery prefix t m)
| td_chunk (t : Z) (c : ChunkMsg) :
    honest_chunk m content c ->
    transfer_delivery prefix m content (chunk_delivery prefix t c)
| td_feedback (t : Z) (tp : string) (data : option Payload) :
    In tp [status (mk_topics prefix (m_file_id m));
           ack (mk_topics prefix (m_file_id m));
           retry (mk_topics prefix (m_file_id m))] ->
    (forall c, data <> Some (PChunk c)) ->
    transfer_delivery prefix m content
      {| in_topic := tp; in_payload := data; in_time := t |}
| td_foreign (msg : Inbound) :
    tame msg = true ->
    (forall data g, in_payload msg = Some data -> payload_file_id data = Some g ->
                    g <> m_file_id m) ->
    transfer_delivery prefix m content msg.

(** The manifest of the example file holding [hello], cut in chunks of
    two bytes, and deliveries of that transfer: its chunks out of order,
    one of them twice, the manifest once more, a probe, a chunk of
    another transfer, and an ack on its way back. *)
Definition example_manifest : Manifest :=
  sender_manifest (example_env (bytes_of "hello")) "/tmp/a.bin" 2 (bytes_of "hello").

Definition example_piece (t : Z) (i : Z) (d : string) : Inbound :=
  chunk_delivery "orca/iot" t
    {| c_file_id := m_file_id example_manifest; c_chunk_index := i;
       c_sha256 := SHA256.hexdigest (bytes_of d); c_data := bytes_of d |}.

Definition example_shuffled : list Inbound :=
  [example_piece 1 2 "o";
   example_piece 2 0 "he";
   meta_delivery "orca/iot" 3 example_manifest;
   example_piece 4 2 "o";
   {| in_topic := status (mk_topics "orca/iot" (m_file_id example_manifest));
      in_payload := Some PStatusRequest; in_time := 5 |};
   example_chunk "a.bin-2-01234567" 1 "zz";
   example_piece 6 1 "ll";
   {| in_topic := ack (mk_topics "orca/iot" (m_file_id example_manifest));
      in_payload := Some (PAck (m_file_id example_manifest) "ok" 6); in_time := 6 |}].

(** The manifest [send_file] builds when called with [chunk_size = -1]
    for a file holding [content]: one chunk hash, that of the whole file. *)
Definition whole_file_manifest (env : SenderEnv) (file_path : string)
    (content : list byte) : Manifest :=
  {| m_schema := "orca.file.manifest.v1";
     m_file_id := generate_file_id env file_path content;
     m_name := basename file_path;
     m_size := Z.of_nat (length content);
     m_chunk_size := -1;
     m_total_chunks := 2 - Z.of_nat (length content);
     m_file_sha256 := Some (SHA256.hexdigest content);
     m_chunk_sha256 := Some [Some (SHA256.hexdigest content)];
     m_content_type := match guess_type env file_path with
                       | Some t => t
                       | None => "application/octet-stream"%string
                       end;
     m_timestamp := sender_clock env |}.

(** A transfer whose known chunk size is positive and whose recorded
    indices are offsets [seek] takes. *)
Definition Reach (s : State) : Prop :=
  (name s = None \/ exists cs, chunk_size s = Some cs /\ 1 <= cs)
  /\ Forall (fun i => 0 <= i <= max_offset) (received s).
(* ================================================================== *)
(** ** Test vectors for [SHA256.hexdigest] *)

Example sha256_empty :
  SHA256.hexdigest [] =
  "e3b0c44298fc1c149afbf4c8996fb92427ae41e4649b934ca495991b7852b855"%string.
Proof. vm_compute. reflexivity. Qed.

Example sha256_abc :
  SHA256.hexdigest (bytes_of "abc") =
  "ba7816bf8f01cfea414140de5dae2223b00361a396177a9cb410ff61f20015ad"%string.
Proof. vm_compute. reflexivity. Qed.

Example sha256_two_blocks :
  SHA256.hexdigest (repeat "a"%byte 70) =
  "6bd5e5034855a11241f0dee8fc72850ffd9955b28347a86428b5fa19119f6ad0"%string.
Proof. vm_compute. reflexivity. Qed.

(* ================================================================== *)
(** ** The runtime pieces on small inputs *)

Example split_examples :
  split "/" "" = [""%string]
  /\ split "/" "a/b" = ["a"%string; "b"%string]
  /\ split "/" "/a//" = [""%string; "a"%string; ""%string; ""%string].
Proof. repeat split. Qed.

Example basename_examples :
  basename "/tmp/a.bin" = "a.bin"%string
  /\ basename "a.bin" = "a.bin"%string
  /\ basename "x/" = ""%string.
Proof. repeat split. Qed.

Example py_index_examples :
  py_index [1; 2; 3] (-1) = Some 3
  /\ py_index [1; 2; 3] (-3) = Some 1
  /\ py_index [1; 2; 3] (-4) = None
  /\ py_index [1; 2; 3] 3 = None.
Proof. repeat split. Qed.

Example fread_examples :
  fread (-2) (bytes_of "ab") = inl ValueError
  /\ fread (-1) (bytes_of "ab") = inr (bytes_of "ab", [])
  /\ fread 0 (bytes_of "ab") = inr ([], bytes_of "ab")
  /\ fread 1 (bytes_of "ab") = inr (bytes_of "a", bytes_of "b")
  /\ fread 5 (bytes_of "ab") = inr (bytes_of "ab", [])
  /\ fread 9223372036854775775 [] = inl OverflowError
  /\ fread 9223372036854775808 (bytes_of "ab") = inl OverflowError
  /\ fread (-9223372036854775808) (bytes_of "ab") = inl ValueError
  /\ fread (-9223372036854775809) (bytes_of "ab") = inl OverflowError.
Proof. repeat split. Qed.

Example plain_examples :
  plain "a.bin-1-01234567" = true
  /\ plain "state.json" = true
  /\ plain "" = false /\ plain "." = false /\ plain ".." = false
  /\ plain "f/" = false /\ plain "./f" = false /\ plain "/tmp/f" = false.
Proof. repeat split. Qed.

Example write_at_examples :
  write_at (bytes_of "ab") 5 [] = bytes_of "ab"
  /\ write_at (bytes_of "ab") 5 (bytes_of "z") = bytes_of "ab" ++ [x00; x00; x00] ++ bytes_of "z"
  /\ write_at (bytes_of "abc") 0 (bytes_of "X") = bytes_of "Xbc"
  /\ write_at (bytes_of "ab") 1 (bytes_of "XYZ") = bytes_of "aXYZ".
Proof. repeat split. Qed.

Example floor_division_examples :
  (2 + -1 - 1) / -1 = 0 /\ (5 + -1 - 1) / -1 = -3 /\ (0 + 4 - 1) / 4 = 0 /\ (3 + 2 - 1) / 2 = 2.
Proof. repeat split. Qed.

Example range_examples : range 3 = [0; 1; 2] /\ range 0 = [] /\ range (-3) = [].
Proof. repeat split. Qed.

Example generate_file_id_example :
  generate_file_id (example_env (bytes_of "abc")) "/tmp/a.bin" (bytes_of "abc") = "a.bin-3-01234567"%string.
Proof. reflexivity. Qed.

(* ================================================================== *)
(** ** The read loop *)

Lemma fread_shrinks (n : Z) (rest data rest' : list byte) :
  fread n rest = inr (data, rest') -> is_empty data = false ->
  (length rest' < length rest)%nat.
Proof.
  unfold fread. destruct (n <? -9223372036854775808); [discriminate|].
  destruct (n <? -1); [discriminate|].
  destruct (n =? -1); [|destruct (max_read <? n); [discriminate|]];
    intros H He; injection H as Hd Hr; subst data rest'.
  - destruct rest; simpl in *; [discriminate | lia].
  - rewrite length_skipn.
    destruct rest as [|b rest]; [now rewrite firstn_nil in He|].
    destruct (Z.to_nat n); simpl in *; [discriminate | lia].
Qed.

Lemma read_loop_fuel_enough {S : Type} (body : S -> list byte -> S * option Exn) (n : Z) :
  forall fuel1 fuel2 rest s,
    (length rest < fuel1)%nat -> (length rest < fuel2)%nat ->
    read_loop_fuel body fuel1 n rest s = read_loop_fuel body fuel2 n rest s.
Proof.
  induction fuel1 as [|k IH]; intros fuel2 rest s H1 H2; [lia|].
  destruct fuel2 as [|k2]; [lia|]. simpl.
  destruct (fread n rest) as [e|[data rest']] eqn:Hr; [reflexivity|].
  destruct (is_empty data) eqn:He; [reflexivity|].
  destruct (body s data) as [s' [e|]]; [reflexivity|].
  pose proof (fread_shrinks _ _ _ _ Hr He).
  apply IH; lia.
Qed.

(** The loop satisfies its own recursive equation: the fuel never runs out. *)
Lemma read_loop_unfold {S : Type} (body : S -> list byte -> S * option Exn)
    (n : Z) (rest : list byte) (s : S) :
  read_loop body n rest s =
  match fread n rest with
  | inl e => (s, Some e)
  | inr (data, rest') =>
      if is_empty data then (s, None)
      else match body s data with
           | (s', Some e) => (s', Some e)
           | (s', None) => read_loop body n rest' s'
           end
  end.
Proof.
  unfold read_loop at 1. simpl.
  destruct (fread n rest) as [e|[data rest']] eqn:Hr; [reflexivity|].
  destruct (is_empty data) eqn:He; [reflexivity|].
  destruct (body s data) as [s' [e|]]; [reflexivity|].
  pose proof (fread_shrinks _ _ _ _ Hr He).
  unfold read_loop. apply read_loop_fuel_enough; lia.
Qed.

Lemma max_chunk_read : max_chunk <= max_read.
Proof. unfold max_chunk, max_read. lia. Qed.

Lemma fread_refused (n : Z) (rest : list byte) :
  n < -1 \/ max_read < n -> exists e, fread n rest = inl e.
Proof.
  intros Hn. unfold fread, max_read in *.
  destruct (n <? -9223372036854775808) eqn:E0; [now exists OverflowError|].
  destruct (n <? -1) eqn:E1; [now exists ValueError|].
  destruct (n =? -1) eqn:E2; [lia|].
  destruct (_ <? n) eqn:E3; [now exists OverflowError | lia].
Qed.

Lemma fread_too_long (n : Z) (rest : list byte) :
  max_read < n -> fread n rest = inl OverflowError.
Proof.
  intros Hn. unfold fread, max_read in *.
  destruct (n <? -9223372036854775808) eqn:E0; [reflexivity|].
  destruct (n <? -1) eqn:E1; [lia|].
  destruct (n =? -1) eqn:E2; [lia|].
  destruct (_ <? n) eqn:E3; [reflexivity | lia].
Qed.

Lemma read_loop_refused {S : Type} (body : S -> list byte -> S * option Exn)
    (n : Z) (rest : list byte) (s : S) :
  n < -1 \/ max_read < n -> exists e, read_loop body n rest s = (s, Some e).
Proof.
  intros Hn. rewrite read_loop_unfold.
  destruct (fread_refused n rest Hn) as [e ->]. now exists e.
Qed.

Lemma count_chunks_0 (n : nat) : (1 <= n)%nat -> count_chunks n 0 = 0%nat.
Proof.
  intros Hn. unfold count_chunks. apply Nat.div_small. lia.
Qed.

Lemma count_chunks_step (n len : nat) :
  (1 <= n)%nat -> (1 <= len)%nat ->
  count_chunks n len = S (count_chunks n (len - n)).
Proof.
  intros Hn Hl. unfold count_chunks.
  destruct (Nat.le_gt_cases n len) as [H|H].
  - replace (len + n - 1)%nat with ((len - n + n - 1) + 1 * n)%nat by lia.
    rewrite Nat.div_add by lia. lia.
  - replace (len - n)%nat with 0%nat by lia.
    rewrite (Nat.div_small (0 + n - 1) n) by lia.
    symmetry. apply (Nat.div_unique _ _ 1%nat (len - 1)%nat); lia.
Qed.

Lemma source_chunk_0 (n : nat) (content : list byte) :
  source_chunk n content 0 = firstn n content.
Proof. reflexivity. Qed.

Lemma source_chunk_S (n : nat) (content : list byte) (i : nat) :
  source_chunk n content (S i) = source_chunk n (skipn n content) i.
Proof.
  unfold source_chunk. rewrite skipn_skipn. f_equal. f_equal. simpl. lia.
Qed.

Lemma fread_chunk (n : Z) (rest : list byte) :
  1 <= n <= max_read -> rest <> [] ->
  fread n rest = inr (firstn (Z.to_nat n) rest, skipn (Z.to_nat n) rest)
  /\ is_empty (firstn (Z.to_nat n) rest) = false.
Proof.
  intros Hn Hr. unfold fread.
  destruct (n <? -9223372036854775808) eqn:E0; [lia|].
  destruct (n <? -1) eqn:E1; [lia|]. destruct (n =? -1) eqn:E2; [lia|].
  destruct (max_read <? n) eqn:E3; [lia|].
  split; [reflexivity|].
  destruct rest; [congruence|].
  destruct (Z.to_nat n) eqn:E; [lia | reflexivity].
Qed.

Lemma fread_eof (n : Z) : -1 <= n <= max_read -> fread n [] = inr ([], []).
Proof.
  intros Hn. unfold fread.
  destruct (n <? -9223372036854775808) eqn:E0; [lia|].
  destruct (n <? -1) eqn:E1; [lia|].
  destruct (n =? -1); [reflexivity|].
  destruct (max_read <? n) eqn:E3; [lia|]. now rewrite firstn_nil, skipn_nil.
Qed.

Lemma source_chunks_nil (n : nat) : (1 <= n)%nat -> source_chunks n [] = [].
Proof.
  intros Hn. unfold source_chunks. simpl. now rewrite count_chunks_0.
Qed.

Lemma source_chunks_cons (n : nat) (content : list byte) :
  (1 <= n)%nat -> content <> [] ->
  source_chunks n content = firstn n content :: source_chunks n (skipn n content).
Proof.
  intros Hn Hc. unfold source_chunks.
  rewrite (count_chunks_step n (length content)) by (destruct content; simpl; [congruence | lia]).
  rewrite length_skipn. simpl. f_equal.
  rewrite <- seq_shift, map_map. apply map_ext. intros i. apply source_chunk_S.
Qed.

Lemma concat_source_chunks (n : nat) :
  (1 <= n)%nat -> forall k content, (length content <= k)%nat ->
  concat (source_chunks n content) = content.
Proof.
  intros Hn. induction k as [|k IH]; intros content Hk.
  - destruct content; [|simpl in Hk; lia]. now rewrite source_chunks_nil.
  - destruct content as [|b rest]; [now rewrite source_chunks_nil|].
    rewrite source_chunks_cons by (auto; congruence). simpl concat.
    rewrite IH; [apply firstn_skipn|].
    rewrite length_skipn. simpl length in *. lia.
Qed.

(** A loop whose body never raises folds the body over the chunks. *)
Lemma read_loop_chunks {S : Type} (step : S -> list byte -> S) (n : Z) :
  1 <= n <= max_read -> forall k rest s, (length rest <= k)%nat ->
  read_loop (fun s data => (step s data, None)) n rest s =
  (fold_left step (source_chunks (Z.to_nat n) rest) s, None).
Proof.
  intros Hn. induction k as [|k IH]; intros rest s Hk.
  - destruct rest; [|simpl in Hk; lia].
    rewrite read_loop_unfold, fread_eof by lia. simpl.
    now rewrite source_chunks_nil by lia.
  - destruct rest as [|b rest'].
    + rewrite read_loop_unfold, fread_eof by lia. simpl.
      now rewrite source_chunks_nil by lia.
    + destruct (fread_chunk n (b :: rest') Hn) as [Hf He]; [congruence|].
      rewrite read_loop_unfold, Hf, He.
      rewrite source_chunks_cons by (try lia; congruence). simpl fold_left.
      apply IH. rewrite length_skipn. simpl length in *. lia.
Qed.

Lemma first_pass_fold (cs : list (list byte)) :
  forall hashed hashes,
    fold_left (fun s data => (fst s ++ data, snd s ++ [SHA256.hexdigest data]))
              cs (hashed, hashes)
    = (hashed ++ concat cs, hashes ++ map SHA256.hexdigest cs).
Proof.
  induction cs as [|c cs IH]; intros hashed hashes; simpl.
  - now rewrite !app_nil_r.
  - rewrite IH. simpl. now rewrite <- !app_assoc.
Qed.

Lemma first_pass_spec (n : Z) (content : list byte) :
  1 <= n <= max_read ->
  read_loop first_pass_body n content ([], []) =
  ((content, map SHA256.hexdigest (source_chunks (Z.to_nat n) content)), None).
Proof.
  intros Hn. unfold first_pass_body.
  rewrite (read_loop_chunks _ n Hn (length content)) by lia.
  rewrite first_pass_fold. simpl.
  assert (Hn' : (1 <= Z.to_nat n)%nat) by lia.
  now rewrite (concat_source_chunks _ Hn' (length content)) by lia.
Qed.

(* ================================================================== *)
(** ** The sender *)

Lemma py_index_nat {A : Type} (l : list A) (i : nat) :
  py_index l (Z.of_nat i) = nth_error l i.
Proof.
  unfold py_index. destruct (Z.leb_spec 0 (Z.of_nat i)); [|lia].
  now rewrite Nat2Z.id.
Qed.

Lemma second_pass_spec (topics : FileTransferTopics) (fid : string)
    (hashes : list string) (q n : Z) :
  1 <= n <= max_read -> forall k rest i bus, (length rest <= k)%nat ->
  (forall j, (j < count_chunks (Z.to_nat n) (length rest))%nat ->
     nth_error hashes (i + j) =
     Some (SHA256.hexdigest (source_chunk (Z.to_nat n) rest j))) ->
  read_loop (second_pass_body topics fid hashes q) n rest (Z.of_nat i, bus) =
  ((Z.of_nat (i + count_chunks (Z.to_nat n) (length rest)),
    bus ++ map (fun j => chunk_pub topics fid q (i + j) (source_chunk (Z.to_nat n) rest j))
               (seq 0 (count_chunks (Z.to_nat n) (length rest)))),
   None).
Proof.
  intros Hn. induction k as [|k IH]; intros rest i bus Hk Hh.
  - destruct rest; [|simpl in Hk; lia].
    rewrite read_loop_unfold, fread_eof by lia. simpl.
    rewrite count_chunks_0 by lia. simpl. now rewrite Nat.add_0_r, app_nil_r.
  - destruct rest as [|b rest'].
    + rewrite read_loop_unfold, fread_eof by lia. simpl.
      rewrite count_chunks_0 by lia. simpl. now rewrite Nat.add_0_r, app_nil_r.
    + set (rest := b :: rest') in *.
      assert (Hlen : (1 <= length rest)%nat) by (subst rest; simpl; lia).
      destruct (fread_chunk n rest Hn) as [Hf He]; [subst rest; congruence|].
      rewrite read_loop_unfold, Hf, He.
      pose proof (count_chunks_step (Z.to_nat n) (length rest) ltac:(lia) Hlen) as Hc.
      unfold second_pass_body at 1. cbn [fst snd].
      rewrite py_index_nat.
      specialize (Hh 0%nat) as Hh0. rewrite Nat.add_0_r, Hc in Hh0.
      rewrite Hh0 by lia. rewrite source_chunk_0.
      replace (Z.of_nat i + 1) with (Z.of_nat (S i)) by lia.
      rewrite IH.
      * rewrite length_skipn, Hc. f_equal. f_equal; [f_equal; lia|].
        rewrite <- app_assoc. f_equal. cbn [seq map app].
        unfold chunk_pub at 2. rewrite Nat.add_0_r, source_chunk_0. f_equal.
        rewrite <- seq_shift, map_map. apply map_ext. intros j.
        rewrite source_chunk_S. f_equal. lia.
      * rewrite length_skipn. lia.
      * intros j Hj. rewrite length_skipn in Hj.
        rewrite <- source_chunk_S. replace (S i + j)%nat with (i + S j)%nat by lia.
        apply Hh. lia.
Qed.

Lemma total_chunks_count (len : nat) (cs : Z) :
  1 <= cs ->
  (Z.of_nat len + cs - 1) / cs = Z.of_nat (count_chunks (Z.to_nat cs) len).
Proof.
  intros Hcs. unfold count_chunks. rewrite Nat2Z.inj_div. f_equal; lia.
Qed.

(** The code's [(size + chunk_size - 1) // chunk_size] is the
    specification's [ceil(size / chunk_size)]. *)
Lemma total_chunks_ceil (size cs : Z) :
  0 <= size -> 1 <= cs -> (size + cs - 1) / cs = ceil_div size cs.
Proof.
  intros Hs Hcs. unfold ceil_div.
  pose proof (Z.div_mod size cs ltac:(lia)) as Hdm.
  pose proof (Z.mod_pos_bound size cs ltac:(lia)) as Hb.
  destruct (size mod cs =? 0) eqn:E.
  - apply Z.eqb_eq in E. symmetry.
    apply (Z.div_unique _ _ _ (cs - 1)); lia.
  - apply Z.eqb_neq in E. symmetry.
    apply (Z.div_unique _ _ _ (size mod cs - 1)); lia.
Qed.

(** C6, as amended: [send_file] raises, and publishes nothing, when the
    path is not a file, when [chunk_size] is 0 (the division for
    [total_chunks] fails) and when [chunk_size] is below -1 (the first
    read is refused).  [chunk_size = -1] is left out: [read(-1)] returns
    the whole file and the call goes through. *)
Theorem C6_send_file_fails_without_publishing :
  forall config env file_path cs qos_arg,
    fs env file_path = None \/ cs = 0 \/ cs < -1 ->
    fails_without_publishing (send_file config env file_path cs qos_arg).
Proof.
  intros config env file_path cs qos_arg H. unfold fails_without_publishing, send_file.
  destruct (fs env file_path) as [content|] eqn:Hfs; [|eexists; reflexivity].
  destruct (negb (is_connected env) && negb (connect_result env));
    [eexists; reflexivity|].
  destruct H as [H|[H|H]]; [discriminate| |].
  - subst cs. simpl. eexists; reflexivity.
  - destruct (cs =? 0) eqn:E; [eexists; reflexivity|].
    destruct (read_loop_refused first_pass_body cs content ([], []) (or_introl H))
      as [e ->].
    eexists; reflexivity.
Qed.

Lemma C6_send_file_fails_witness :
  (-2 < -1) /\
  fails_without_publishing
    (send_file example_config (example_env (bytes_of "ab")) "/tmp/a.bin" (-2) None).
Proof.
  split; [lia|].
  apply C6_send_file_fails_without_publishing. right; right; lia.
Defined.

(** C6 as the specification states it fails at [chunk_size = -1]: the
    file exists, [read(-1)] returns the whole file, and the manifest, one
    chunk and the status probe are published. *)
Lemma C6_counterexample :
  (-1 <= 0) /\
  ~ fails_without_publishing
      (send_file example_config (example_env (bytes_of "ab")) "/tmp/a.bin" (-1) None).
Proof.
  split; [lia|]. intros [e He]. vm_compute in He. discriminate He.
Qed.

(** What [send_file] publishes for an existing file and a positive
    [chunk_size] that [read] takes. *)
Lemma send_file_publishes :
  forall config env file_path cs qos_arg content,
    fs env file_path = Some content ->
    1 <= cs <= max_read ->
    is_connected env || connect_result env = true ->
    let n := Z.to_nat cs in
    let fid := generate_file_id env file_path content in
    let topics := mk_topics (TOPIC_PREFIX config) fid in
    exists manifest q,
      let total := Z.to_nat (m_total_chunks manifest) in
      send_file config env file_path cs qos_arg =
        (inr fid,
         {| topic := meta topics; payload := PManifest manifest; qos := q |}
         :: map (fun i => chunk_pub topics fid q i (source_chunk n content i)) (seq 0 total)
         ++ [{| topic := status topics; payload := PStatusRequest; qos := q |}])
      /\ m_file_id manifest = fid
      /\ m_total_chunks manifest = ceil_div (Z.of_nat (length content)) cs
      /\ m_size manifest = Z.of_nat (length content)
      /\ m_chunk_size manifest = cs
      /\ m_file_sha256 manifest = Some (SHA256.hexdigest content)
      /\ m_chunk_sha256 manifest =
           Some (map (fun i => Some (SHA256.hexdigest (source_chunk n content i)))
                     (seq 0 total)).
Proof.
  intros config env file_path cs qos_arg content Hfs Hcs Hconn n fid topics.
  unfold send_file. rewrite Hfs.
  replace (negb (is_connected env) && negb (connect_result env)) with false
    by (destruct (is_connected env), (connect_result env); simpl in *; congruence).
  destruct (cs =? 0) eqn:E; [lia|].
  rewrite first_pass_spec by assumption.
  fold fid. fold topics. fold n.
  set (q := match qos_arg with Some q => q | None => QOS config end).
  set (total := count_chunks n (length content)).
  assert (Htot : (Z.of_nat (length content) + cs - 1) / cs = Z.of_nat total)
    by (apply total_chunks_count; lia).
  rewrite Htot.
  pose proof (second_pass_spec topics fid
                (map SHA256.hexdigest (source_chunks n content)) q cs Hcs
                (length content) content 0%nat) as H2.
  cbn [Z.of_nat] in H2. fold n in H2. fold total in H2.
  rewrite H2; clear H2.
  - match goal with |- context [PManifest ?m] => exists m end.
    exists q. cbn zeta.
    cbn [m_total_chunks m_size m_chunk_size m_file_sha256 m_chunk_sha256 m_file_id].
    rewrite Nat2Z.id. repeat split.
    + rewrite <- Htot. apply total_chunks_ceil; lia.
    + unfold source_chunks. fold total. now rewrite map_map, map_map.
  - lia.
  - intros j Hj. simpl. unfold source_chunks. fold total.
    rewrite nth_error_map, nth_error_map.
    rewrite (nth_error_nth' _ 0%nat) by (rewrite length_seq; exact Hj).
    rewrite seq_nth by exact Hj. reflexivity.
Qed.

(** A [chunk_size] above the longest read raises in the first pass,
    whatever the file holds. *)
Lemma send_file_too_long :
  forall config env file_path cs qos_arg content,
    fs env file_path = Some content ->
    max_read < cs ->
    is_connected env || connect_result env = true ->
    send_file config env file_path cs qos_arg = (inl OverflowError, []).
Proof.
  intros config env file_path cs qos_arg content Hfs Hcs Hconn.
  unfold send_file. rewrite Hfs.
  replace (negb (is_connected env) && negb (connect_result env)) with false
    by (destruct (is_connected env), (connect_result env); simpl in *; congruence).
  destruct (cs =? 0) eqn:E; [unfold max_read in Hcs; lia|].
  now rewrite read_loop_unfold, fread_too_long.
Qed.

(** C8, as amended: for an existing file and a [chunk_size] from 1 to
    [max_chunk] (the bus connected), [send_file] returns the file id
    after publishing, in this order, the manifest, chunk 0, 1, ...,
    total_chunks-1 and the status probe; the manifest's [total_chunks] is
    [ceil(size / chunk_size)], its [chunk_sha256] lists the sha256 of
    each chunk of the file, one per chunk, and each chunk message carries
    the bytes of the chunk of its index.  With a [chunk_size] above the
    longest read there is, the first read raises [OverflowError] and
    nothing is published. *)
Theorem C8_manifest_then_chunks_in_order :
  forall config env file_path cs qos_arg content,
    fs env file_path = Some content ->
    1 <= cs ->
    is_connected env || connect_result env = true ->
    let n := Z.to_nat cs in
    let fid := generate_file_id env file_path content in
    let topics := mk_topics (TOPIC_PREFIX config) fid in
    (cs <= max_chunk ->
     exists manifest q,
       let total := Z.to_nat (m_total_chunks manifest) in
       send_file config env file_path cs qos_arg =
         (inr fid,
          {| topic := meta topics; payload := PManifest manifest; qos := q |}
          :: map (fun i => chunk_pub topics fid q i (source_chunk n content i)) (seq 0 total)
          ++ [{| topic := status topics; payload := PStatusRequest; qos := q |}])
       /\ m_file_id manifest = fid
       /\ m_total_chunks manifest = ceil_div (Z.of_nat (length content)) cs
       /\ m_size manifest = Z.of_nat (length content)
       /\ m_chunk_size manifest = cs
       /\ m_file_sha256 manifest = Some (SHA256.hexdigest content)
       /\ m_chunk_sha256 manifest =
            Some (map (fun i => Some (SHA256.hexdigest (source_chunk n content i)))
                      (seq 0 total)))
    /\ (max_read < cs ->
        send_file config env file_path cs qos_arg = (inl OverflowError, [])).
Proof.
  intros config env file_path cs qos_arg content Hfs Hcs Hconn n fid topics. split.
  - intros Hmax. pose proof max_chunk_read as Hmr.
    exact (send_file_publishes config env file_path cs qos_arg content Hfs
             (conj Hcs (Z.le_trans _ _ _ Hmax Hmr)) Hconn).
  - intros Hmax. exact (send_file_too_long _ _ _ _ _ _ Hfs Hmax Hconn).
Qed.

(** C8 as the specification states it fails at [chunk_size = 2^63]: the
    file exists and the bus is connected, yet no manifest and no chunk is
    published. *)
Lemma C8_counterexample :
  fs (example_env (bytes_of "abc")) "/tmp/a.bin" = Some (bytes_of "abc")
  /\ 1 <= 9223372036854775808
  /\ send_file example_config (example_env (bytes_of "abc")) "/tmp/a.bin"
       9223372036854775808 None
     = (inl OverflowError, []).
Proof.
  split; [reflexivity|]. split; [lia|]. vm_compute. reflexivity.
Qed.

Lemma C8_manifest_then_chunks_witness :
  exists manifest q,
    send_file example_config (example_env (bytes_of "abc")) "/tmp/a.bin" 2 None =
      (inr "a.bin-3-01234567"%string,
       {| topic := "orca/iot/file/a.bin-3-01234567/meta";
          payload := PManifest manifest; qos := q |}
       :: map (fun i => chunk_pub (mk_topics "orca/iot" "a.bin-3-01234567")
                          "a.bin-3-01234567" q i (source_chunk 2 (bytes_of "abc") i))
              (seq 0 2)
       ++ [{| topic := "orca/iot/file/a.bin-3-01234567/status";
              payload := PStatusRequest; qos := q |}])
    /\ m_total_chunks manifest = 2.
Proof.
  destruct (C8_manifest_then_chunks_in_order example_config
              (example_env (bytes_of "abc")) "/tmp/a.bin" 2 None (bytes_of "abc")
              eq_refl ltac:(lia) eq_refl) as [H _].
  destruct (H ltac:(unfold max_chunk; lia)) as (manifest & q & Hsend & _ & Htot & _).
  exists manifest, q. split.
  - rewrite Hsend, Htot. reflexivity.
  - rewrite Htot. reflexivity.
Defined.

(* ================================================================== *)
(** ** The receiver's storage *)

Lemma Inv_empty : Inv empty_world.
Proof. intros f s H. discriminate H. Qed.

Lemma load_good (w : World) (f : string) : Inv w -> good f (state_of f w).
Proof.
  intros HI. unfold state_of. destruct (states w f) as [s|] eqn:E.
  - apply HI, E.
  - repeat split; simpl; [constructor | discriminate].
Qed.

Lemma Inv_save (s : State) (w : World) :
  Inv w -> good (file_id s) s -> Inv (_save_state s w).
Proof.
  intros HI Hg f s'. simpl. destruct (String.eqb_spec f (file_id s)) as [->|Hne].
  - intros H. injection H as <-. exact Hg.
  - apply HI.
Qed.

Lemma Inv_write_file (f nm : string) (content : list byte) (w : World) :
  Inv w -> Inv (write_file f nm content w).
Proof. intros HI. exact HI. Qed.

Lemma load_save (s : State) (w : World) :
  state_of (file_id s) (_save_state s w) = s.
Proof. unfold state_of. simpl. now rewrite String.eqb_refl. Qed.

Lemma load_save_other (f : string) (s : State) (w : World) :
  f <> file_id s -> state_of f (_save_state s w) = state_of f w.
Proof.
  intros Hne. unfold state_of. simpl.
  destruct (String.eqb_spec f (file_id s)); [contradiction | reflexivity].
Qed.

Lemma load_write_file (f g nm : string) (content : list byte) (w : World) :
  state_of f (write_file g nm content w) = state_of f w.
Proof. reflexivity. Qed.

Lemma NoDup_snoc (l : list Z) (i : Z) :
  NoDup l -> mem i l = false -> NoDup (l ++ [i]).
Proof.
  intros Hnd Hm. apply NoDup_app; [exact Hnd | repeat constructor; intros [] | ].
  intros x Hx [Hxi|[]]. subst x. unfold mem in Hm.
  assert (existsb (Z.eqb i) l = true)
    by (apply existsb_exists; exists i; split; [exact Hx | apply Z.eqb_refl]).
  congruence.
Qed.

(** *** Publications *)

Lemma no_ack_nil : no_ack [].
Proof. constructor. Qed.

Lemma no_ack_app (ps qs : list Pub) : no_ack ps -> no_ack qs -> no_ack (ps ++ qs).
Proof. intros H1 H2. apply Forall_app. now split. Qed.

Lemma no_ack_count (f : string) (ps : list Pub) : no_ack ps -> count_acks f ps = 0%nat.
Proof.
  unfold count_acks. induction 1 as [|p ps Hp _ IH]; [reflexivity|].
  simpl. unfold is_ack_for. unfold is_ack in Hp.
  destruct (payload p); try exact IH. discriminate Hp.
Qed.

Lemma count_acks_app (f : string) (ps qs : list Pub) :
  count_acks f (ps ++ qs) = (count_acks f ps + count_acks f qs)%nat.
Proof. unfold count_acks. now rewrite filter_app, length_app. Qed.

Lemma emit_status_world (config : MQTTConfig) (fid : string) (w : World) :
  fst (_emit_status config fid w) = _state_dir fid w.
Proof. reflexivity. Qed.

Lemma emit_status_pubs (config : MQTTConfig) (fid : string) (w : World) :
  snd (_emit_status config fid w) = status_pubs config fid (state_of fid w).
Proof. reflexivity. Qed.

Lemma state_of_state_dir (f g : string) (w : World) :
  state_of f (_state_dir g w) = state_of f w.
Proof. reflexivity. Qed.

Lemma state_of_emit_status (config : MQTTConfig) (f g : string) (w : World) :
  state_of f (fst (_emit_status config g w)) = state_of f w.
Proof. reflexivity. Qed.


Lemma meta_key_error_states (data : Payload) (w : World) :
  states (world (meta_key_error data w)) = states w.
Proof. now destruct data. Qed.

Lemma meta_key_error_files (data : Payload) (w : World) :
  files (world (meta_key_error data w)) = files w.
Proof. now destruct data. Qed.

Lemma meta_key_error_pubs (data : Payload) (w : World) :
  pubs (meta_key_error data w) = [].
Proof. now destruct data. Qed.

Lemma state_of_meta_key_error (f : string) (data : Payload) (w : World) :
  state_of f (world (meta_key_error data w)) = state_of f w.
Proof. now destruct data. Qed.

Lemma state_dir_again (fid : string) (w : World) :
  _state_dir fid (_state_dir fid w) = _state_dir fid w.
Proof.
  unfold _state_dir. cbn [states files dirs]. f_equal.
  destruct (existsb (String.eqb fid) (dirs w)) eqn:E; [now rewrite E|].
  rewrite existsb_app. cbn [existsb]. now rewrite String.eqb_refl, orb_true_r.
Qed.

Lemma state_dir_made (fid : string) (w : World) :
  In fid (dirs w) -> _state_dir fid w = w.
Proof.
  intros Hin. unfold _state_dir.
  replace (existsb (String.eqb fid) (dirs w)) with true; [now destruct w|].
  symmetry. apply existsb_exists. exists fid. split; [exact Hin | apply String.eqb_refl].
Qed.

Lemma state_dir_In (fid : string) (w : World) : In fid (dirs (_state_dir fid w)).
Proof.
  unfold _state_dir. cbn [dirs].
  destruct (existsb (String.eqb fid) (dirs w)) eqn:E.
  - apply existsb_exists in E as (g & Hg & He). apply String.eqb_eq in He. now subst g.
  - apply in_or_app. right. now left.
Qed.

Lemma status_pubs_no_ack (config : MQTTConfig) (fid : string) (state : State) :
  no_ack (status_pubs config fid state).
Proof.
  unfold status_pubs. destruct (is_empty _); repeat constructor.
Qed.

Lemma emit_status_no_ack (config : MQTTConfig) (fid : string) (w : World) :
  no_ack (snd (_emit_status config fid w)).
Proof. apply status_pubs_no_ack. Qed.

Lemma count_acks_ack_pub (config : MQTTConfig) (now : Z) (fid f : string) :
  count_acks f [ack_pub config now fid] = if String.eqb fid f then 1%nat else 0%nat.
Proof.
  unfold count_acks, is_ack_for. simpl. now destruct (String.eqb fid f).
Qed.

(** *** The whole-file loop *)

Lemma hash_fold (cs : list (list byte)) :
  forall acc, fold_left (fun s d => s ++ d) cs acc = acc ++ concat cs.
Proof.
  induction cs as [|c cs IH]; intros acc; simpl.
  - now rewrite app_nil_r.
  - now rewrite IH, app_assoc.
Qed.

(** The loop that feeds the hasher either is refused its read length or
    feeds it the whole file. *)
Lemma hash_loop_spec (n : Z) (data : list byte) :
  n <> 0 ->
  ((n < -1 \/ max_read < n) /\ exists e, read_loop hash_body n data [] = ([], Some e))
  \/ (-1 <= n <= max_read /\ read_loop hash_body n data [] = (data, None)).
Proof.
  intros Hn0.
  destruct (Z.lt_ge_cases n (-1)) as [Hlt|Hge];
    [left; split; [now left | apply read_loop_refused; now left]|].
  destruct (Z.lt_ge_cases max_read n) as [Hgt|Hle];
    [left; split; [now right | apply read_loop_refused; now right]|].
  - right. split; [lia|].
    destruct (Z.eq_dec n (-1)) as [->|Hne].
    + rewrite read_loop_unfold. cbn [fread Z.ltb Z.eqb Z.compare Pos.compare].
      simpl. destruct data as [|b rest]; [reflexivity|].
      cbn [is_empty hash_body app].
      rewrite read_loop_unfold. reflexivity.
    + assert (H1 : 1 <= n <= max_read) by lia. unfold hash_body.
      rewrite (read_loop_chunks (fun s d => s ++ d) n H1 (length data)) by lia.
      rewrite hash_fold. simpl.
      assert (Hn' : (1 <= Z.to_nat n)%nat) by lia.
      now rewrite (concat_source_chunks _ Hn' (length data)) by lia.
Qed.

(** *** What the completion check does *)

Lemma set_complete_back (s : State) :
  complete s = false -> set_complete false (set_complete true s) = s.
Proof. destruct s; simpl; intros ->; reflexivity. Qed.

Lemma or_int_nonzero (x : option Z) (d : Z) : d <> 0 -> or_int x d <> 0.
Proof.
  intros Hd. unfold or_int. destruct x as [v|]; [|exact Hd].
  destruct (Z.eqb_spec v 0); assumption.
Qed.

Lemma completion_check_summary (config : MQTTConfig) (now : Z) (fid nm : string)
    (state : State) (w : World) :
  file_id state = fid ->
  (ack_sent state = true -> complete state = true) ->
  states w fid = Some state ->
  let r := completion_check config now fid nm state w in
  let data := match files w fid nm with Some d => d | None => [] end in
  outcome r = Returned
  /\ files (world r) = files w
  /\ (forall f, f <> fid -> states (world r) f = states w f)
  /\ exists s', states (world r) fid = Some s'
                /\ Completed config now fid state data s' (pubs r).
Proof.
  intros Hfid Hack Hw r data. subst r. unfold completion_check. cbv zeta.
  set (periodic := if Z.of_nat (length (received state)) mod 50 =? 0
                   then _ else {| world := w; pubs := []; outcome := Returned |}).
  assert (Hper : outcome periodic = Returned
                 /\ files (world periodic) = files w
                 /\ (forall f, f <> fid -> states (world periodic) f = states w f)
                 /\ exists s', states (world periodic) fid = Some s'
                               /\ Completed config now fid state data s' (pubs periodic)).
  { subst periodic. destruct (_ =? 0).
    - split; [reflexivity|]. split; [reflexivity|]. split; [reflexivity|].
      exists state. split; [exact Hw|]. apply NotCompleted, emit_status_no_ack.
    - split; [reflexivity|]. split; [reflexivity|]. split; [reflexivity|].
      exists state. split; [exact Hw|]. apply NotCompleted, no_ack_nil. }
  destruct (total_chunks state) as [total|] eqn:Htot; [|exact Hper].
  destruct ((total <=? Z.of_nat (length (received state))) && negb (complete state))
    eqn:Hcond; [|exact Hper].
  clear Hper periodic. apply andb_prop in Hcond as [Hle Hc].
  apply Z.leb_le in Hle. apply negb_true_iff in Hc.
  assert (Hak : ack_sent state = false)
    by (destruct (ack_sent state); [specialize (Hack eq_refl); congruence | reflexivity]).
  assert (Hkey : forall s, file_id (set_complete true s) = file_id s) by reflexivity.
  set (w1 := fst (_data_path fid (Some nm) (_save_state (set_complete true state) w))).
  assert (Hfiles : files w1 fid nm = files w fid nm) by reflexivity.
  rewrite Hfiles. fold data.
  assert (Hother : forall s w' f, file_id s = fid -> f <> fid ->
            states (_save_state s w') f = states w' f).
  { intros s w' f Hs Hf. simpl. rewrite Hs.
    destruct (String.eqb_spec f fid); [contradiction | reflexivity]. }
  assert (Hsame : forall s w', file_id s = fid -> states (_save_state s w') fid = Some s).
  { intros s w' Hs. simpl. rewrite Hs. now rewrite String.eqb_refl. }
  assert (Hw1o : forall f, f <> fid -> states w1 f = states w f)
    by (intros f Hf; now apply (Hother (set_complete true state) w f)).
  assert (Hw1s : states w1 fid = Some (set_complete true state))
    by (now apply (Hsame (set_complete true state) w)).
  destruct (hash_loop_spec (or_int (chunk_size (set_complete true state)) 1048576) data)
    as [[Hlt [e ->]]|[Hge ->]]; [apply or_int_nonzero; lia | |].
  - (* the read is refused *)
    split; [reflexivity|]. split; [reflexivity|].
    split; [exact Hw1o|].
    exists (set_complete true state). split; [exact Hw1s|].
    cbn [chunk_size set_complete] in Hlt. unfold or_int in Hlt.
    destruct (chunk_size state) as [cs|] eqn:Hcs; [|unfold max_read in Hlt; lia].
    destruct (cs =? 0); [unfold max_read in Hlt; lia|].
    eapply VerifyRaised; eauto. apply emit_status_no_ack.
  - destruct (truthy (file_sha256 (set_complete true state))
              && negb (String.eqb (SHA256.hexdigest data)
                         match file_sha256 (set_complete true state) with
                         | Some e => e | None => EmptyString end)) eqn:Hmis.
    + (* mismatch: complete is cleared again *)
      rewrite set_complete_back by exact Hc.
      split; [reflexivity|]. split; [reflexivity|]. split.
      * intros f Hf.
        change (states (_save_state state w1) f = states w f).
        rewrite Hother by assumption. now apply Hw1o.
      * exists state. split; [now apply (Hsame state w1)|].
        apply NotCompleted, emit_status_no_ack.
    + (* the ack *)
      assert (Hload : state_of fid w1 = set_complete true state)
        by (unfold state_of; now rewrite Hw1s).
      unfold _emit_ack. cbn [_load_state fst snd]. rewrite Hload.
      cbn [ack_sent set_complete]. rewrite Hak.
      cbn [world pubs outcome fst snd].
      split; [reflexivity|]. split; [reflexivity|]. split.
      * intros f Hf. rewrite Hother by (try reflexivity; assumption). now apply Hw1o.
      * exists (set_ack_sent true (set_complete true state)).
        split; [now apply Hsame|].
        change (Completed config now fid state data
                  (set_ack_sent true (set_complete true state)) [ack_pub config now fid]).
        eapply Acked; eauto.
        cbn [file_sha256 set_complete] in Hmis. unfold digest_ok.
        destruct (truthy (file_sha256 state)) eqn:Ht; [right | now left].
        simpl in Hmis. apply negb_false_iff, String.eqb_eq in Hmis.
        destruct (file_sha256 state); [now rewrite Hmis | discriminate Ht].
Qed.

Lemma mem_In (i : Z) (l : list Z) : mem i l = true <-> In i l.
Proof.
  unfold mem. rewrite existsb_exists. split.
  - intros (x & Hx & He). apply Z.eqb_eq in He. now subst.
  - intros H. exists i. split; [exact H | apply Z.eqb_refl].
Qed.

(** *** What [_handle_chunk] does *)

(** Either nothing is saved (the chunk is dropped, or an exception or a
    hash mismatch ends the handler), or the index is recorded, once, and
    the completion check runs. *)
Lemma handle_chunk_summary (config : MQTTConfig) (now : Z) (c : ChunkMsg) (w : World) :
  Inv w ->
  let fid := c_file_id c in
  let idx := c_chunk_index c in
  let state := state_of fid w in
  let r := _handle_chunk config now c w in
  (forall f, f <> fid -> states (world r) f = states w f)
  /\ (forall f nm, f <> fid -> files (world r) f nm = files w f nm)
  /\ ((states (world r) = states w /\ no_ack (pubs r))
      \/ exists nm state1 s',
           name state = Some nm
           /\ ((state1 = state /\ In idx (received state))
               \/ (state1 = set_received (received state ++ [idx]) state
                   /\ ~ In idx (received state)))
           /\ outcome r = Returned
           /\ states (world r) fid = Some s'
           /\ Completed config now fid state1 (data_of (world r) fid nm) s' (pubs r)).
Proof.
  intros HI fid idx state r.
  destruct (load_good w fid HI) as (Hfid & Hnd & Hack). fold state in Hfid, Hnd, Hack.
  subst r. unfold _handle_chunk. cbn [_load_state _data_path fst snd].
  fold fid idx state. set (w0 := _state_dir fid (_state_dir fid w)).
  assert (Hwf : forall g n d w' f nm', f <> g ->
            files (write_file g n d w') f nm' = files w' f nm').
  { intros g n d w' f nm' Hf. simpl.
    destruct (String.eqb_spec f g); [contradiction | reflexivity]. }
  destruct (name state) as [nm|] eqn:Hnm.
  2:{ split; [reflexivity|]. split; [reflexivity|]. left. split; [reflexivity | apply no_ack_nil]. }
  set (w1 := match files w0 fid nm with Some _ => w0 | None => write_file fid nm [] w0 end).
  assert (Hw1s : states w1 = states w) by (subst w1; now destruct (files w0 fid nm)).
  assert (Hw1f : forall f nm', f <> fid -> files w1 f nm' = files w f nm').
  { intros f nm' Hf. subst w1.
    destruct (files w0 fid nm); [reflexivity | exact (Hwf fid nm [] w0 f nm' Hf)]. }
  destruct (idx * or_int (chunk_size state) (Z.of_nat (length (c_data c))) <? 0).
  { split; [intros; cbn [world]; now rewrite Hw1s|]. split; [exact Hw1f|].
    left. split; [exact Hw1s | apply no_ack_nil]. }
  destruct (max_offset <? idx * or_int (chunk_size state) (Z.of_nat (length (c_data c)))).
  { split; [intros; cbn [world]; now rewrite Hw1s|]. split; [exact Hw1f|].
    left. split; [exact Hw1s | apply no_ack_nil]. }
  set (w2 := write_file fid nm _ w1).
  assert (Hw2s : states w2 = states w) by exact Hw1s.
  assert (Hw2f : forall f nm', f <> fid -> files w2 f nm' = files w f nm').
  { intros f nm' Hf. subst w2. rewrite Hwf by exact Hf. now apply Hw1f. }
  destruct (check_chunk state idx (c_data c)).
  - (* the chunk is recorded *)
    set (state1 := if mem idx (received state) then state
                   else set_received (received state ++ [idx]) state).
    assert (Hfid1 : file_id state1 = fid)
      by (subst state1; destruct (mem idx (received state)); exact Hfid).
    assert (Hack1 : ack_sent state1 = true -> complete state1 = true)
      by (subst state1; destruct (mem idx (received state)); exact Hack).
    assert (Hsaved : states (_save_state state1 w2) fid = Some state1)
      by (simpl; rewrite Hfid1; now rewrite String.eqb_refl).
    destruct (completion_check_summary config now fid nm state1
                (_save_state state1 w2) Hfid1 Hack1 Hsaved)
      as (Hout & Hfiles & Hothers & s' & Hs' & Hcomp).
    split.
    { intros f Hf. rewrite Hothers by exact Hf. simpl. rewrite Hfid1.
      destruct (String.eqb_spec f fid); [contradiction | now rewrite Hw1s]. }
    split.
    { intros f nm' Hf. rewrite Hfiles. now apply Hw2f. }
    right. exists nm, state1, s'. split; [reflexivity|]. split.
    { subst state1. destruct (mem idx (received state)) eqn:Hm.
      - left. split; [reflexivity | now apply mem_In].
      - right. split; [reflexivity|]. intros Hin. apply mem_In in Hin. congruence. }
    split; [exact Hout|]. split; [exact Hs'|].
    unfold data_of. rewrite Hfiles. exact Hcomp.
  - split; [intros f Hf; change (states w2 f = states w f); now rewrite Hw2s|].
    split; [exact Hw2f|].
    left. split; [exact Hw2s | apply emit_status_no_ack].
  - split; [intros; cbn [world]; now rewrite Hw2s|]. split; [exact Hw2f|].
    left. split; [exact Hw2s | apply no_ack_nil].
Qed.

Lemma Completed_good (config : MQTTConfig) (now : Z) (fid : string)
    (state s' : State) (data : list byte) (ps : list Pub) :
  Completed config now fid state data s' ps -> good fid state -> good fid s'.
Proof.
  intros Hc (Hfid & Hnd & Hack). destruct Hc; repeat split; simpl; auto.
Qed.

Lemma Inv_states (w w' : World) : states w' = states w -> Inv w -> Inv w'.
Proof. intros He HI f s. rewrite He. apply HI. Qed.

Lemma handle_chunk_Inv (config : MQTTConfig) (now : Z) (c : ChunkMsg) (w : World) :
  Inv w -> Inv (world (_handle_chunk config now c w)).
Proof.
  intros HI.
  destruct (handle_chunk_summary config now c w HI)
    as (Hoth & _ & [[Hsame _]|(nm & state1 & s' & Hnm & Hst1 & _ & Hs' & Hcomp)]).
  - now apply (Inv_states w).
  - destruct (load_good w (c_file_id c) HI) as (Hfid & Hnd & Hack).
    intros f s Hs. destruct (String.eqb_spec f (c_file_id c)) as [->|Hne].
    + rewrite Hs' in Hs. injection Hs as <-.
      eapply Completed_good; [exact Hcomp|].
      destruct Hst1 as [[-> _]|[-> Hnin]]; [now repeat split|].
      repeat split; simpl; auto.
      apply NoDup_snoc; [exact Hnd|].
      destruct (mem _ _) eqn:Hm; [apply mem_In in Hm; contradiction | reflexivity].
    + rewrite Hoth in Hs by exact Hne. now apply HI.
Qed.

Lemma handle_meta_Inv (config : MQTTConfig) (m : Manifest) (w : World) :
  Inv w -> Inv (world (_handle_meta config m w)).
Proof.
  intros HI. unfold _handle_meta. cbn [world].
  destruct (load_good w (m_file_id m) HI) as (Hfid & Hnd & Hack).
  apply Inv_save; [exact HI|]. repeat split; simpl; auto.
Qed.

Lemma on_message_Inv (config : MQTTConfig) (msg : Inbound) (w : World) :
  Inv w -> Inv (world (_on_message config msg w)).
Proof.
  intros HI. unfold _on_message.
  destruct (in_payload msg) as [data|]; [|exact HI].
  destruct (py_index _ (-1)) as [kind|]; [|exact HI].
  destruct (py_index _ (-2)) as [fid|]; [|exact HI].
  destruct (String.eqb kind "meta").
  { destruct data; try exact HI. now apply handle_meta_Inv. }
  destruct (String.eqb kind "chunk").
  { destruct data; try exact HI. now apply handle_chunk_Inv. }
  destruct (String.eqb kind "status"); exact HI.
Qed.

Lemma run_app (config : MQTTConfig) (pre post : list Inbound) (w : World) :
  run config (pre ++ post) w =
  (fst (run config post (fst (run config pre w))),
   snd (run config pre w) ++ snd (run config post (fst (run config pre w)))).
Proof.
  revert w. induction pre as [|m pre IH]; intros w; simpl.
  - now destruct (run config post w).
  - rewrite IH. destruct (run config pre _) as [w1 ps1]. simpl.
    now rewrite app_assoc.
Qed.

Lemma run_Inv (config : MQTTConfig) (msgs : list Inbound) :
  forall w, Inv w -> Inv (fst (run config msgs w)).
Proof.
  induction msgs as [|m msgs IH]; intros w HI; simpl; [exact HI|].
  specialize (IH _ (on_message_Inv config m w HI)).
  now destruct (run config msgs _).
Qed.

(** *** Acknowledgements *)

Lemma load_states (f : string) (w w' : World) :
  states w' f = states w f -> state_of f w' = state_of f w.
Proof. intros H. unfold state_of. now rewrite H. Qed.

Lemma load_some (f : string) (s : State) (w : World) :
  states w f = Some s -> state_of f w = s.
Proof. intros H. unfold state_of. now rewrite H. Qed.

Lemma Completed_fields (config : MQTTConfig) (now : Z) (fid : string)
    (state s' : State) (data : list byte) (ps : list Pub) :
  Completed config now fid state data s' ps ->
  name s' = name state /\ received s' = received state
  /\ total_chunks s' = total_chunks state /\ file_sha256 s' = file_sha256 state
  /\ chunk_size s' = chunk_size state.
Proof. intros Hc. destruct Hc; repeat split. Qed.

Lemma handle_chunk_acks (config : MQTTConfig) (now : Z) (c : ChunkMsg) (w : World)
    (f : string) :
  Inv w ->
  let r := _handle_chunk config now c w in
  (count_acks f (pubs r) <= 1)%nat
  /\ (ack_sent (state_of f w) = true ->
      count_acks f (pubs r) = 0%nat /\ ack_sent (state_of f (world r)) = true)
  /\ (count_acks f (pubs r) <> 0%nat -> ack_allowed f (world r)).
Proof.
  intros HI r.
  destruct (handle_chunk_summary config now c w HI)
    as (Hoth & _ & [[Hsame Hna]|(nm & state1 & s' & Hnm & Hst1 & _ & Hs' & Hcomp)]);
    fold r in Hoth |- *.
  - fold r in Hsame, Hna. rewrite (no_ack_count f _ Hna).
    split; [lia|]. split; [|congruence].
    intros Ha. split; [reflexivity|].
    rewrite (load_states f w (world r)); [exact Ha | now rewrite Hsame].
  - fold r in Hs', Hcomp.
    assert (Hst1' : name state1 = Some nm
                    /\ ack_sent state1 = ack_sent (state_of (c_file_id c) w)
                    /\ file_sha256 state1 = file_sha256 (state_of (c_file_id c) w))
      by (destruct Hst1 as [[-> _]|[-> _]]; repeat split; exact Hnm).
    destruct Hst1' as (Hnm1 & Hak1 & Hfh1).
    destruct (String.eqb_spec f (c_file_id c)) as [->|Hne].
    + rewrite (load_some _ _ _ Hs').
      inversion Hcomp as [ps Hna Hs Hps|ps cs Hc Hcs Hlt Hna Hs Hps
                         |total Hc Hak Htot Hle Hdig Hs Hps]; subst.
      * rewrite (no_ack_count _ _ Hna). split; [lia|]. split; [|congruence].
        intros Ha. split; [reflexivity | congruence].
      * rewrite (no_ack_count _ _ Hna). split; [lia|]. split; [|congruence].
        intros Ha. split; [reflexivity | simpl; congruence].
      * rewrite count_acks_ack_pub, String.eqb_refl.
        split; [lia|]. split; [intros Ha; congruence|].
        intros _. unfold ack_allowed. rewrite (load_some _ _ _ Hs').
        cbn [complete ack_sent name set_ack_sent set_complete].
        split; [reflexivity|]. split; [reflexivity|].
        exists nm. split; [exact Hnm1 | exact Hdig].
    + assert (Hcount : count_acks f (pubs r) = 0%nat).
      { inversion Hcomp; subst; try (now apply no_ack_count).
        rewrite count_acks_ack_pub.
        destruct (String.eqb_spec (c_file_id c) f); [congruence | reflexivity]. }
      rewrite Hcount. split; [lia|]. split; [|congruence].
      intros Ha. split; [reflexivity|].
      rewrite (load_states f w (world r)); [exact Ha | now apply Hoth].
Qed.

Lemma handle_meta_states (config : MQTTConfig) (m : Manifest) (w : World) (g : string) :
  Inv w ->
  states (world (_handle_meta config m w)) g =
  if String.eqb g (m_file_id m)
  then Some (update_meta m (state_of (m_file_id m) w))
  else states w g.
Proof.
  intros HI. destruct (load_good w (m_file_id m) HI) as (Hfid & _).
  unfold _handle_meta.
  cbn [world fst snd _emit_status _load_state _state_dir _save_state states
       update_meta file_id].
  now rewrite Hfid.
Qed.

Lemma handle_meta_state_of (config : MQTTConfig) (m : Manifest) (w : World) (g : string) :
  Inv w ->
  state_of g (world (_handle_meta config m w)) =
  if String.eqb g (m_file_id m)
  then update_meta m (state_of (m_file_id m) w)
  else state_of g w.
Proof.
  intros HI. unfold state_of at 1. rewrite handle_meta_states by exact HI.
  now destruct (String.eqb g (m_file_id m)).
Qed.

Lemma handle_meta_files (config : MQTTConfig) (m : Manifest) (w : World) :
  files (world (_handle_meta config m w)) = files w.
Proof. reflexivity. Qed.

Lemma handle_meta_pubs (config : MQTTConfig) (m : Manifest) (w : World) :
  pubs (_handle_meta config m w)
  = status_pubs config (m_file_id m)
      (state_of (m_file_id m) (world (_handle_meta config m w))).
Proof. reflexivity. Qed.

Lemma on_message_acks (config : MQTTConfig) (msg : Inbound) (w : World) (f : string) :
  Inv w ->
  let r := _on_message config msg w in
  (count_acks f (pubs r) <= 1)%nat
  /\ (ack_sent (state_of f w) = true ->
      count_acks f (pubs r) = 0%nat /\ ack_sent (state_of f (world r)) = true)
  /\ (count_acks f (pubs r) <> 0%nat -> ack_allowed f (world r)).
Proof.
  intros HI r. subst r. unfold _on_message.
  assert (Hid : forall w' ps e, states w' = states w -> no_ack ps ->
            let r := {| world := w'; pubs := ps; outcome := e |} in
            (count_acks f (pubs r) <= 1)%nat
            /\ (ack_sent (state_of f w) = true ->
                count_acks f (pubs r) = 0%nat /\ ack_sent (state_of f (world r)) = true)
            /\ (count_acks f (pubs r) <> 0%nat -> ack_allowed f (world r))).
  { intros w' ps e Hw' Hna r. cbn [pubs world r]. rewrite (no_ack_count f ps Hna).
    rewrite (load_states f w w') by (now rewrite Hw').
    split; [lia|]. split; [now split | congruence]. }
  destruct (in_payload msg) as [data|]; [|now apply Hid, no_ack_nil].
  destruct (py_index _ (-1)) as [kind|]; [|now apply Hid, no_ack_nil].
  destruct (py_index _ (-2)) as [fid|]; [|now apply Hid, no_ack_nil].
  destruct (String.eqb kind "meta").
  { destruct data as [m| | | | |]; try (now apply Hid, no_ack_nil).
    rewrite handle_meta_pubs.
    rewrite (no_ack_count f _ (status_pubs_no_ack _ _ _)).
    split; [lia|]. split; [|congruence].
    intros Ha. split; [reflexivity|].
    rewrite handle_meta_state_of by exact HI.
    destruct (String.eqb_spec f (m_file_id m)) as [->|Hne]; exact Ha. }
  destruct (String.eqb kind "chunk").
  { destruct data as [|c| | | |]; try (now apply Hid, no_ack_nil).
    now apply handle_chunk_acks. }
  destruct (String.eqb kind "status");
    [now apply Hid, emit_status_no_ack | now apply Hid, no_ack_nil].
Qed.

Lemma run_acks (config : MQTTConfig) (f : string) (msgs : list Inbound) :
  forall w, Inv w ->
    (count_acks f (snd (run config msgs w)) <= 1)%nat
    /\ (ack_sent (state_of f w) = true -> count_acks f (snd (run config msgs w)) = 0%nat).
Proof.
  induction msgs as [|m msgs IH]; intros w HI; simpl.
  - split; [unfold count_acks; simpl; lia | reflexivity].
  - destruct (on_message_acks config m w f HI) as (H1 & H2 & H3).
    destruct (IH _ (on_message_Inv config m w HI)) as (I1 & I2).
    destruct (run config msgs (world (_on_message config m w))) as [w' ps] eqn:Hrun.
    cbn [snd] in *. rewrite count_acks_app. split.
    + destruct (Nat.eq_dec (count_acks f (pubs (_on_message config m w))) 0) as [H0|H0].
      * lia.
      * destruct (H3 H0) as (_ & Ha & _). rewrite (I2 Ha). lia.
    + intros Ha. destruct (H2 Ha) as (-> & Ha'). now rewrite (I2 Ha').
Qed.

(** C1, as amended: over every sequence of tame deliveries to a receiver
    that starts with an empty storage, at most one ack is published for a
    plain file id; the persisted [ack_sent] implies [complete] and
    suppresses any further ack; and a delivery publishes an ack only if it
    leaves [complete] and [ack_sent] set and the manifest's [file_sha256]
    is absent or empty or equals the sha256 of the data file on disk. *)
Theorem C1_ack_at_most_once_when_verified :
  forall (config : MQTTConfig) (f : string) (pre : list Inbound) (msg : Inbound)
         (post : list Inbound),
    plain f = true ->
    forallb tame (pre ++ msg :: post) = true ->
    let w := fst (run config pre empty_world) in
    let r := _on_message config msg w in
    (count_acks f (snd (run config (pre ++ msg :: post) empty_world)) <= 1)%nat
    /\ (ack_sent (state_of f w) = true -> complete (state_of f w) = true)
    /\ (ack_sent (state_of f w) = true -> count_acks f (pubs r) = 0%nat)
    /\ (count_acks f (pubs r) <> 0%nat -> ack_allowed f (world r)).
Proof.
  intros config f pre msg post Hf Htame w r.
  assert (HI : Inv w) by (apply run_Inv, Inv_empty).
  split; [apply run_acks, Inv_empty|].
  split; [apply (load_good w f HI)|].
  destruct (on_message_acks config msg w f HI) as (_ & H2 & H3).
  split; [intros Ha; apply (H2 Ha) | exact H3].
Qed.

Lemma C1_ack_at_most_once_witness :
  let f := "a.bin-1-01234567"%string in
  let pre := example_bus "a" 1 in
  let msg := example_chunk f 0 "a" in
  let w := fst (run example_config pre empty_world) in
  plain f = true
  /\ forallb tame (pre ++ msg :: pre) = true
  /\ (count_acks f (snd (run example_config (pre ++ msg :: pre) empty_world)) <= 1)%nat
  /\ ack_sent (state_of f w) = true
  /\ count_acks f (pubs (_on_message example_config msg w)) = 0%nat.
Proof.
  intros f pre msg w.
  assert (Hf : plain f = true) by reflexivity.
  assert (Ht : forallb tame (pre ++ msg :: pre) = true) by (vm_compute; reflexivity).
  split; [exact Hf|]. split; [exact Ht|].
  destruct (C1_ack_at_most_once_when_verified example_config f pre msg pre Hf Ht)
    as (H1 & _ & H3 & _).
  assert (Ha : ack_sent (state_of f w) = true) by (vm_compute; reflexivity).
  split; [exact H1|]. split; [exact Ha|]. apply H3. exact Ha.
Defined.

(** *** The received list *)

Lemma on_message_received (config : MQTTConfig) (msg : Inbound) (w : World) (f : string) :
  Inv w -> forall i,
  In i (received (state_of f (world (_on_message config msg w)))) ->
  In i (received (state_of f w))
  \/ exists c, in_payload msg = Some (PChunk c) /\ c_file_id c = f /\ c_chunk_index c = i.
Proof.
  intros HI i. unfold _on_message.
  destruct (in_payload msg) as [data|]; [|now left].
  destruct (py_index _ (-1)) as [kind|]; [|now left].
  destruct (py_index _ (-2)) as [fid|]; [|now left].
  destruct (String.eqb kind "meta").
  { destruct data as [m| | | | |]; try (now left).
    unfold state_of at 1. rewrite handle_meta_states by exact HI.
    destruct (String.eqb_spec f (m_file_id m)) as [->|Hne]; [|now left].
    cbn [received update_meta]. now left. }
  destruct (String.eqb kind "chunk").
  2:{ destruct (String.eqb kind "status"); now left. }
  destruct data as [|c| | | |]; try (now left).
  destruct (handle_chunk_summary config (in_time msg) c w HI)
    as (Hoth & _ & [[Hsame _]|(nm & state1 & s' & Hnm & Hst1 & _ & Hs' & Hcomp)]).
  - rewrite (load_states f w _) by (now rewrite Hsame). now left.
  - destruct (String.eqb_spec f (c_file_id c)) as [->|Hne].
    + rewrite (load_some _ _ _ Hs').
      destruct (Completed_fields _ _ _ _ _ _ _ Hcomp) as (_ & -> & _).
      destruct Hst1 as [[-> _]|[-> _]]; [now left|].
      cbn [received set_received]. intros Hin. apply in_app_or in Hin as [Hin|[<-|[]]].
      * now left.
      * right. exists c. now repeat split.
    + rewrite (load_states f w _) by (now apply Hoth). now left.
Qed.

Lemma run_received (config : MQTTConfig) (f : string) (msgs : list Inbound) :
  forall w, Inv w -> forall i,
  In i (received (state_of f (fst (run config msgs w)))) ->
  In i (received (state_of f w))
  \/ exists msg c, In msg msgs /\ in_payload msg = Some (PChunk c)
                   /\ c_file_id c = f /\ c_chunk_index c = i.
Proof.
  induction msgs as [|m msgs IH]; intros w HI i; simpl; [now left|].
  specialize (IH _ (on_message_Inv config m w HI) i).
  destruct (run config msgs (world (_on_message config m w))) as [w' ps].
  cbn [fst] in *. intros Hin. destruct (IH Hin) as [H|(msg & c & H1 & H2)].
  - destruct (on_message_received config m w f HI i H) as [H'|(c & H1 & H2)].
    + now left.
    + right. exists m, c. split; [now left | now split].
  - right. exists msg, c. split; [now right | exact H2].
Qed.

(** C2, as amended: over every sequence of tame deliveries, [received]
    of a plain file id has no duplicates and holds only indices that
    arrived in chunk messages for that file id; the index is not compared
    with [total_chunks], so [received] stays within [0 .. T-1] when every
    chunk message for the file id carried an index in that range. *)
Theorem C2_received_distinct_and_from_chunks :
  forall (config : MQTTConfig) (f : string) (msgs : list Inbound),
    plain f = true ->
    forallb tame msgs = true ->
    let w := fst (run config msgs empty_world) in
    NoDup (received (state_of f w))
    /\ (forall i, In i (received (state_of f w)) ->
          exists msg c, In msg msgs /\ in_payload msg = Some (PChunk c)
                        /\ c_file_id c = f /\ c_chunk_index c = i)
    /\ (forall T,
          (forall msg c, In msg msgs -> in_payload msg = Some (PChunk c) ->
                         c_file_id c = f -> 0 <= c_chunk_index c < T) ->
          forall i, In i (received (state_of f w)) -> 0 <= i < T).
Proof.
  intros config f msgs Hf Htame w.
  assert (HI : Inv w) by (apply run_Inv, Inv_empty).
  assert (Hfrom : forall i, In i (received (state_of f w)) ->
            exists msg c, In msg msgs /\ in_payload msg = Some (PChunk c)
                          /\ c_file_id c = f /\ c_chunk_index c = i).
  { intros i Hin.
    destruct (run_received config f msgs empty_world Inv_empty i Hin) as [[]|H].
    exact H. }
  split; [apply (load_good w f HI)|]. split; [exact Hfrom|].
  intros T HT i Hin. destruct (Hfrom i Hin) as (msg & c & H1 & H2 & H3 & <-).
  now apply (HT msg c).
Qed.

(** *** Completion *)

Lemma on_message_complete (config : MQTTConfig) (msg : Inbound) (w : World) (f : string) :
  Inv w ->
  let r := _on_message config msg w in
  let s' := state_of f (world r) in
  complete (state_of f w) = false ->
  complete s' = true ->
  (forall cs, chunk_size s' = Some cs -> -1 <= cs <= max_read) ->
  exists total nm,
    total_chunks s' = Some total
    /\ total <= Z.of_nat (length (received s'))
    /\ name s' = Some nm
    /\ digest_ok s' (data_of (world r) f nm)
    /\ ack_sent s' = true.
Proof.
  intros HI r s' Hc. subst s' r. unfold _on_message.
  destruct (in_payload msg) as [data|]; [|cbn [world]; congruence].
  destruct (py_index _ (-1)) as [kind|]; [|cbn [world]; congruence].
  destruct (py_index _ (-2)) as [fid|]; [|cbn [world]; congruence].
  destruct (String.eqb kind "meta").
  { destruct data as [m| | | | |];
      try (rewrite ?state_of_meta_key_error; cbn [world]; congruence).
    unfold state_of at 1. rewrite handle_meta_states by exact HI.
    destruct (String.eqb_spec f (m_file_id m)) as [->|Hne].
    - cbn [complete update_meta]. congruence.
    - fold (state_of f w). congruence. }
  destruct (String.eqb kind "chunk").
  2:{ destruct (String.eqb kind "status"); cbn [world];
        rewrite ?state_of_emit_status; congruence. }
  destruct data as [|c| | | |]; try (cbn [world]; congruence).
  destruct (handle_chunk_summary config (in_time msg) c w HI)
    as (Hoth & _ & [[Hsame _]|(nm & state1 & s' & Hnm & Hst1 & _ & Hs' & Hcomp)]).
  - rewrite (load_states f w _) by (now rewrite Hsame). congruence.
  - destruct (String.eqb_spec f (c_file_id c)) as [->|Hne].
    2:{ rewrite (load_states f w _) by (now apply Hoth). congruence. }
    rewrite (load_some _ _ _ Hs').
    assert (Hc1 : complete state1 = false /\ name state1 = Some nm)
      by (destruct Hst1 as [[-> _]|[-> _]]; split; assumption).
    destruct Hc1 as (Hc1 & Hnm1).
    inversion Hcomp as [ps Hna Hs Hps|ps cs Hcf Hcs Hlt Hna Hs Hps
                       |total Hcf Hak Htot Hle Hdig Hs Hps]; subst s'.
    + congruence.
    + intros _ Hge. specialize (Hge cs Hcs). lia.
    + intros _ _. exists total, nm. repeat split; assumption.
Qed.

(** C3, as amended: when handling a tame delivery, after tame ones,
    turns [complete] of a plain file id from false to true and the
    whole-file verification reads with a length that is granted (a
    [chunk_size] from 0 to [max_chunk]), then after that delivery
    [total_chunks <= |received|], the manifest's [file_sha256] is absent
    or empty or equals the sha256 of the data file on disk, and the ack
    has been sent. *)
Theorem C3_complete_set_by_verified_check :
  forall (config : MQTTConfig) (f : string) (pre : list Inbound) (msg : Inbound),
    plain f = true ->
    forallb tame (pre ++ [msg]) = true ->
    let w := fst (run config pre empty_world) in
    let r := _on_message config msg w in
    let s' := state_of f (world r) in
    complete (state_of f w) = false ->
    complete s' = true ->
    (forall cs, chunk_size s' = Some cs -> 0 <= cs <= max_chunk) ->
    exists total nm,
      total_chunks s' = Some total
      /\ total <= Z.of_nat (length (received s'))
      /\ name s' = Some nm
      /\ digest_ok s' (data_of (world r) f nm)
      /\ ack_sent s' = true.
Proof.
  intros config f pre msg Hf Htame w r s' Hc Hc' Hcs.
  apply on_message_complete; [apply run_Inv, Inv_empty | exact Hc | exact Hc'|].
  intros cs H. pose proof max_chunk_read. specialize (Hcs cs H). lia.
Qed.

(** *** Before the manifest *)

Lemma on_message_no_state (config : MQTTConfig) (msg : Inbound) (w : World) (f : string) :
  Inv w -> states w f = None ->
  (forall m, in_payload msg = Some (PManifest m) -> m_file_id m <> f) ->
  states (world (_on_message config msg w)) f = None.
Proof.
  intros HI Hn Hm. unfold _on_message.
  destruct (in_payload msg) as [data|]; [|exact Hn].
  destruct (py_index _ (-1)) as [kind|]; [|exact Hn].
  destruct (py_index _ (-2)) as [fid|]; [|exact Hn].
  destruct (String.eqb kind "meta").
  { destruct data as [m| | | | |]; try exact Hn.
    rewrite handle_meta_states by exact HI.
    destruct (String.eqb_spec f (m_file_id m)) as [->|Hne]; [|exact Hn].
    now specialize (Hm m eq_refl). }
  destruct (String.eqb kind "chunk").
  2:{ destruct (String.eqb kind "status"); exact Hn. }
  destruct data as [|c| | | |]; try exact Hn.
  destruct (handle_chunk_summary config (in_time msg) c w HI)
    as (Hoth & _ & [[Hsame _]|(nm & state1 & s' & Hnm & _)]).
  - now rewrite Hsame.
  - destruct (String.eqb_spec f (c_file_id c)) as [->|Hne].
    + unfold state_of in Hnm. rewrite Hn in Hnm. discriminate Hnm.
    + now rewrite Hoth.
Qed.

Lemma run_no_state (config : MQTTConfig) (f : string) (msgs : list Inbound) :
  forall w, Inv w -> states w f = None ->
  (forall msg m, In msg msgs -> in_payload msg = Some (PManifest m) -> m_file_id m <> f) ->
  states (fst (run config msgs w)) f = None.
Proof.
  induction msgs as [|m msgs IH]; intros w HI Hn Hm; simpl; [exact Hn|].
  specialize (IH (world (_on_message config m w)) (on_message_Inv config m w HI)).
  destruct (run config msgs (world (_on_message config m w))) as [w' ps].
  cbn [fst] in *. apply IH.
  - apply on_message_no_state; [exact HI | exact Hn|].
    intros m0 H0. apply (Hm m m0); [now left | exact H0].
  - intros msg m0 Hin. apply Hm. now right.
Qed.

(** C4: after tame deliveries, a chunk for a plain file id of which no
    manifest was delivered is dropped: [chunk_size] is unknown, the
    handler makes the directory of the file id if it is not there and
    ends on the data path ([name] is still [None]); nothing is written to
    any file, [received] and every [state.json] are unchanged and nothing
    is published. *)
Theorem C4_chunk_before_manifest_dropped :
  forall (config : MQTTConfig) (msgs : list Inbound) (now : Z) (c : ChunkMsg),
    plain (c_file_id c) = true ->
    forallb tame msgs = true ->
    (forall msg m, In msg msgs -> in_payload msg = Some (PManifest m) ->
                   m_file_id m <> c_file_id c) ->
    let w := fst (run config msgs empty_world) in
    let r := _handle_chunk config now c w in
    chunk_size (state_of (c_file_id c) w) = None
    /\ world r = _state_dir (c_file_id c) w
    /\ states (world r) = states w
    /\ files (world r) = files w
    /\ pubs r = []
    /\ outcome r = Raised TypeError
    /\ received (state_of (c_file_id c) (world r)) = [].
Proof.
  intros config msgs now c Hf Htame Hm w r.
  assert (Hn : states w (c_file_id c) = None)
    by (apply run_no_state; [apply Inv_empty | reflexivity | exact Hm]).
  assert (Hr : r = {| world := _state_dir (c_file_id c) (_state_dir (c_file_id c) w);
                      pubs := []; outcome := Raised TypeError |}).
  { subst r. unfold _handle_chunk. cbn [_load_state _data_path fst snd].
    unfold state_of. now rewrite Hn. }
  rewrite Hr. cbn [world pubs outcome]. rewrite state_dir_again.
  split; [unfold state_of; now rewrite Hn|].
  split; [reflexivity|]. split; [reflexivity|]. split; [reflexivity|].
  split; [reflexivity|]. split; [reflexivity|].
  rewrite state_of_state_dir. unfold state_of. now rewrite Hn.
Qed.

Lemma C4_chunk_before_manifest_witness :
  let c := {| c_file_id := "f"; c_chunk_index := 0;
              c_sha256 := SHA256.hexdigest (bytes_of "a"); c_data := bytes_of "a" |} in
  let msgs := example_bus "a" 1 in
  let w := fst (run example_config msgs empty_world) in
  plain (c_file_id c) = true
  /\ forallb tame msgs = true
  /\ world (_handle_chunk example_config 7 c w) = _state_dir "f" w
  /\ files (world (_handle_chunk example_config 7 c w)) = files w
  /\ pubs (_handle_chunk example_config 7 c w) = []
  /\ outcome (_handle_chunk example_config 7 c w) = Raised TypeError.
Proof.
  intros c msgs w.
  assert (Hf : plain (c_file_id c) = true) by reflexivity.
  assert (Ht : forallb tame msgs = true) by (vm_compute; reflexivity).
  assert (Hm : forall msg m, In msg msgs -> in_payload msg = Some (PManifest m) ->
                             m_file_id m <> c_file_id c).
  { intros msg m Hin Hp Hq.
    destruct Hin as [<-|[<-|[<-|[]]]]; try discriminate Hp.
    injection Hp as <-. discriminate Hq. }
  destruct (C4_chunk_before_manifest_dropped example_config msgs 7 c Hf Ht Hm)
    as (_ & H1 & _ & H2 & H3 & H4 & _).
  exact (conj Hf (conj Ht (conj H1 (conj H2 (conj H3 H4))))).
Defined.

(** *** Status and retry *)

Lemma In_range (i n : Z) : In i (range n) <-> 0 <= i < n.
Proof.
  unfold range. rewrite in_map_iff. split.
  - intros (k & <- & Hk). apply in_seq in Hk. lia.
  - intros H. exists (Z.to_nat i). split; [lia | apply in_seq; lia].
Qed.

Lemma seq_sorted (n : nat) : forall a, StronglySorted Z.lt (map Z.of_nat (seq a n)).
Proof.
  induction n as [|n IH]; intros a; simpl; constructor; [apply IH|].
  apply Forall_forall. intros x Hx. apply in_map_iff in Hx as (k & <- & Hk).
  apply in_seq in Hk. lia.
Qed.

Lemma filter_sorted (f : Z -> bool) (l : list Z) :
  StronglySorted Z.lt l -> StronglySorted Z.lt (filter f l).
Proof.
  induction 1 as [|a l Hs IH Hall]; simpl; [constructor|].
  destruct (f a); [|exact IH]. constructor; [exact IH|].
  apply Forall_forall. intros x Hx. apply filter_In in Hx as [Hx _].
  revert x Hx. now apply Forall_forall.
Qed.

Lemma firstn_sorted (n : nat) (l : list Z) :
  StronglySorted Z.lt l -> StronglySorted Z.lt (firstn n l).
Proof.
  intros Hs. revert n. induction Hs as [|a l Hs IH Hall]; intros n.
  - rewrite firstn_nil. constructor.
  - destruct n as [|n]; simpl; constructor; [apply IH|].
    apply Forall_forall. intros x Hx.
    assert (Hin : In x l)
      by (rewrite <- (firstn_skipn n l); apply in_or_app; now left).
    clear Hx. revert x Hin. now apply Forall_forall.
Qed.

Lemma missing_of_sorted (state : State) : StronglySorted Z.lt (missing_of state).
Proof.
  unfold missing_of. destruct (total_chunks state); [|constructor].
  apply filter_sorted, seq_sorted.
Qed.

Lemma missing_of_spec (state : State) (i : Z) :
  In i (missing_of state) <->
  (exists total, total_chunks state = Some total /\ 0 <= i < total)
  /\ ~ In i (received state).
Proof.
  unfold missing_of. destruct (total_chunks state) as [total|].
  - rewrite filter_In, In_range, negb_true_iff. split.
    + intros [Hr Hm]. split; [now exists total|].
      intros Hin. apply mem_In in Hin. congruence.
    + intros [(t & Ht & Hr) Hn]. injection Ht as <-. split; [exact Hr|].
      destruct (mem i (received state)) eqn:E; [|reflexivity].
      apply mem_In in E. contradiction.
  - split; [intros [] | intros [(t & Ht & _) _]; discriminate Ht].
Qed.

Lemma emit_status_cases (config : MQTTConfig) (fid : string) (w : World) :
  let state := state_of fid w in
  (missing_of state = [] -> snd (_emit_status config fid w) = [status_pub config fid state])
  /\ (missing_of state <> [] ->
      snd (_emit_status config fid w)
      = [status_pub config fid state; retry_pub config fid state]).
Proof.
  intros state. rewrite emit_status_pubs. unfold status_pubs. fold state.
  destruct (missing_of state) eqn:E; simpl; split; intros H;
    try congruence; unfold status_pub, retry_pub; rewrite E; reflexivity.
Qed.

Lemma well_paired_app (ps qs : list Pub) :
  well_paired ps -> well_paired qs -> well_paired (ps ++ qs).
Proof.
  intros Hp Hq. induction Hp; simpl.
  - exact Hq.
  - eapply wp_status; eauto.
  - eapply wp_status_retry; eauto.
  - eapply wp_ack; eauto.
Qed.

Lemma firstn_500_nonempty (l : list Z) : l <> [] -> firstn 500 l <> [].
Proof. destruct l; [congruence | discriminate]. Qed.

Lemma emit_status_paired (config : MQTTConfig) (fid : string) (w : World) :
  well_paired (snd (_emit_status config fid w)).
Proof.
  destruct (emit_status_cases config fid w) as [H0 H1].
  destruct (missing_of (state_of fid w)) eqn:E.
  - rewrite H0 by reflexivity. eapply wp_status; [|constructor].
    unfold status_pub. rewrite E. reflexivity.
  - rewrite H1 by discriminate.
    eapply wp_status_retry; [reflexivity | | reflexivity | constructor].
    rewrite E. discriminate.
Qed.

Lemma completion_check_pubs (config : MQTTConfig) (now : Z) (fid nm : string)
    (state : State) (w : World) :
  let r := completion_check config now fid nm state w in
  pubs r = []
  \/ (exists w', pubs r = snd (_emit_status config fid w'))
  \/ pubs r = [ack_pub config now fid].
Proof.
  intros r. subst r. unfold completion_check. cbv zeta.
  set (periodic := if Z.of_nat (length (received state)) mod 50 =? 0
                   then _ else {| world := w; pubs := []; outcome := Returned |}).
  assert (Hper : pubs periodic = []
                 \/ (exists w', pubs periodic = snd (_emit_status config fid w'))
                 \/ pubs periodic = [ack_pub config now fid]).
  { subst periodic. destruct (_ =? 0); [right; left; eexists; reflexivity | now left]. }
  destruct (total_chunks state); [|exact Hper].
  destruct (_ && _); [|exact Hper].
  destruct (read_loop _ _ _ _) as [hasher [e|]]; [right; left; eexists; reflexivity|].
  destruct (_ && _); [right; left; eexists; reflexivity|].
  unfold _emit_ack. cbn [_load_state fst snd].
  destruct (ack_sent _); [now left | now right; right].
Qed.

(** The publications of [_handle_chunk]: nothing, one status emission, or
    the ack. *)
Lemma handle_chunk_pubs (config : MQTTConfig) (now : Z) (c : ChunkMsg) (w : World) :
  let r := _handle_chunk config now c w in
  pubs r = []
  \/ (exists w', pubs r = snd (_emit_status config (c_file_id c) w')
                 /\ (states w (c_file_id c) = None -> False))
  \/ pubs r = [ack_pub config now (c_file_id c)].
Proof.
  intros r. subst r. unfold _handle_chunk. cbv zeta. cbn [_load_state _data_path fst snd].
  destruct (name (state_of (c_file_id c) w)) as [nm|] eqn:Hnm; [|now left].
  assert (Hsome : states w (c_file_id c) = None -> False).
  { intros Hn. unfold state_of in Hnm. rewrite Hn in Hnm. discriminate Hnm. }
  destruct (_ <? 0); [now left|].
  destruct (max_offset <? _); [now left|].
  destruct (check_chunk _ _ _);
    [|right; left; eexists; split; [reflexivity | exact Hsome]|now left].
  match goal with
  | |- context [completion_check ?cf ?t ?f ?n ?s ?w0] =>
      destruct (completion_check_pubs cf t f n s w0) as [H|[(w' & H)|H]]
  end; rewrite H; [now left | right; left; eauto | now right; right].
Qed.

Lemma on_message_paired (config : MQTTConfig) (msg : Inbound) (w : World) :
  well_paired (pubs (_on_message config msg w)).
Proof.
  unfold _on_message.
  destruct (in_payload msg) as [data|]; [|constructor].
  destruct (py_index _ (-1)) as [kind|]; [|constructor].
  destruct (py_index _ (-2)) as [fid|]; [|constructor].
  destruct (String.eqb kind "meta").
  { destruct data; try apply wp_nil. apply emit_status_paired. }
  destruct (String.eqb kind "chunk").
  { destruct data as [|c| | | |]; try apply wp_nil.
    destruct (handle_chunk_pubs config (in_time msg) c w) as [->|[(w' & -> & _)| ->]].
    - constructor.
    - apply emit_status_paired.
    - eapply wp_ack; [reflexivity | constructor]. }
  destruct (String.eqb kind "status"); [apply emit_status_paired | constructor].
Qed.

Lemma run_paired (config : MQTTConfig) (msgs : list Inbound) :
  forall w, well_paired (snd (run config msgs w)).
Proof.
  induction msgs as [|m msgs IH]; intros w; simpl; [constructor|].
  specialize (IH (world (_on_message config m w))).
  destruct (run config msgs _) as [w' ps]. cbn [snd] in *.
  apply well_paired_app; [apply on_message_paired | exact IH].
Qed.

Lemma emit_status_quiet (config : MQTTConfig) (f g : string) (w : World) :
  (g = f -> states w f = None) -> Forall (quiet f) (snd (_emit_status config g w)).
Proof.
  intros H. rewrite emit_status_pubs. unfold status_pubs.
  assert (Hst : quiet f {| topic := status (mk_topics (TOPIC_PREFIX config) g);
                           payload := PStatus g
                             (Z.of_nat (length (received (state_of g w))))
                             (total_chunks (state_of g w))
                             (firstn 500 (missing_of (state_of g w)))
                             (complete (state_of g w));
                           qos := QOS config |}).
  { unfold quiet. cbn [payload]. intros ->. unfold state_of.
    now rewrite (H eq_refl). }
  destruct (is_empty (missing_of (state_of g w))) eqn:E; constructor;
    try exact Hst; constructor; [|constructor].
  unfold quiet. cbn [payload]. intros ->.
  unfold missing_of, state_of in E. rewrite (H eq_refl) in E. discriminate E.
Qed.

Lemma on_message_quiet (config : MQTTConfig) (msg : Inbound) (w : World) (f : string) :
  states w f = None ->
  (forall m, in_payload msg = Some (PManifest m) -> m_file_id m <> f) ->
  Forall (quiet f) (pubs (_on_message config msg w)).
Proof.
  intros Hn Hm. unfold _on_message.
  destruct (in_payload msg) as [data|]; [|constructor].
  destruct (py_index _ (-1)) as [kind|]; [|constructor].
  destruct (py_index _ (-2)) as [fid|]; [|constructor].
  destruct (String.eqb kind "meta").
  { destruct data as [m| | | | |]; try apply Forall_nil.
    apply emit_status_quiet. intros Hf. now specialize (Hm m eq_refl). }
  destruct (String.eqb kind "chunk").
  { destruct data as [|c| | | |]; try apply Forall_nil.
    destruct (handle_chunk_pubs config (in_time msg) c w) as [->|[(w' & -> & Hs)| ->]].
    - constructor.
    - apply emit_status_quiet. intros Hf. rewrite Hf in Hs. now destruct (Hs Hn).
    - repeat constructor. }
  destruct (String.eqb kind "status"); [|constructor].
  apply emit_status_quiet. now intros _.
Qed.

Lemma run_quiet (config : MQTTConfig) (f : string) (msgs : list Inbound) :
  forall w, Inv w -> states w f = None ->
  (forall msg m, In msg msgs -> in_payload msg = Some (PManifest m) -> m_file_id m <> f) ->
  Forall (quiet f) (snd (run config msgs w)).
Proof.
  induction msgs as [|m msgs IH]; intros w HI Hn Hm; simpl; [constructor|].
  assert (Hm0 : forall m0, in_payload m = Some (PManifest m0) -> m_file_id m0 <> f)
    by (intros m0 H0; apply (Hm m m0); [now left | exact H0]).
  specialize (IH (world (_on_message config m w)) (on_message_Inv config m w HI)
                 (on_message_no_state config m w f HI Hn Hm0)
                 (fun msg m1 Hin => Hm msg m1 (or_intror Hin))).
  destruct (run config msgs _) as [w' ps]. cbn [snd] in *.
  apply Forall_app. split; [now apply on_message_quiet | exact IH].
Qed.

(** C10: a status emission for a plain file id publishes the status,
    followed by a retry request exactly when the computed missing list is
    not empty, and changes nothing of the storage but for the directory
    of the file id, made if it is not there; that list is ascending,
    holds the indices below [total_chunks] that are not in [received],
    and both messages carry its first 500 elements, in the same order;
    before a manifest [total] is null, the list is empty and no retry is
    published.  Over any run every status is followed by a retry with the
    same list exactly when that list is not empty, and over tame
    deliveries a file id of which no manifest was delivered gets no retry
    and only statuses with a null total. *)
Theorem C10_status_retry_iff_missing :
  forall (config : MQTTConfig) (fid : string) (w : World) (msgs : list Inbound),
    plain fid = true ->
    let state := state_of fid w in
    let missing := missing_of state in
    (missing = [] -> snd (_emit_status config fid w) = [status_pub config fid state])
    /\ (missing <> [] ->
        snd (_emit_status config fid w)
        = [status_pub config fid state; retry_pub config fid state]
        /\ firstn 500 missing <> [])
    /\ fst (_emit_status config fid w) = _state_dir fid w
    /\ StronglySorted Z.lt missing
    /\ StronglySorted Z.lt (firstn 500 missing)
    /\ (length (firstn 500 missing) <= 500)%nat
    /\ (forall i, In i missing <->
          (exists total, total_chunks state = Some total /\ 0 <= i < total)
          /\ ~ In i (received state))
    /\ (total_chunks state = None ->
        snd (_emit_status config fid w) =
        [{| topic := status (mk_topics (TOPIC_PREFIX config) fid);
            payload := PStatus fid (Z.of_nat (length (received state))) None []
                               (complete state);
            qos := QOS config |}])
    /\ well_paired (snd (run config msgs w))
    /\ (forallb tame msgs = true ->
        (forall msg m, In msg msgs -> in_payload msg = Some (PManifest m) ->
                       m_file_id m <> fid) ->
        Forall (quiet fid) (snd (run config msgs empty_world))).
Proof.
  intros config fid w msgs Hf state missing.
  destruct (emit_status_cases config fid w) as [H0 H1]. fold state in H0, H1.
  split; [exact H0|].
  split; [intros Hne; split; [now apply H1 | now apply firstn_500_nonempty]|].
  split; [reflexivity|].
  split; [apply missing_of_sorted|].
  split; [apply firstn_sorted, missing_of_sorted|].
  split; [apply firstn_le_length|].
  split; [apply missing_of_spec|].
  split.
  { intros Hnone. rewrite H0 by (unfold missing_of; now rewrite Hnone).
    unfold status_pub, missing_of. now rewrite Hnone. }
  split; [apply run_paired|].
  intros Htame Hm. apply run_quiet; [apply Inv_empty | reflexivity | exact Hm].
Qed.

Lemma C10_status_retry_witness :
  let f := "a.bin-2-01234567"%string in
  let w := fst (run example_config (firstn 2 (example_bus "ab" 1)) empty_world) in
  plain f = true
  /\ map payload (snd (_emit_status example_config f w))
     = [PStatus f 1 (Some 2) [1] false; PRetry f [1]].
Proof.
  intros f w.
  assert (Hf : plain f = true) by reflexivity.
  assert (Hm : missing_of (state_of f w) = [1]) by (vm_compute; reflexivity).
  destruct (C10_status_retry_iff_missing example_config f w [] Hf) as (_ & H1 & _).
  destruct H1 as [H1 _]; [rewrite Hm; discriminate|].
  split; [exact Hf|]. rewrite H1. vm_compute. reflexivity.
Defined.

(** *** Topics *)

Lemma split_nonempty (sep : ascii) (s : string) : split sep s <> [].
Proof.
  destruct s as [|c s]; simpl; [discriminate|].
  destruct (Ascii.eqb c sep); [discriminate|].
  destruct (split sep s); discriminate.
Qed.

Lemma split_app (sep : ascii) (a b : string) :
  split sep (a ++ String sep b) = split sep a ++ split sep b.
Proof.
  induction a as [|c a IH]; simpl.
  - now rewrite Ascii.eqb_refl.
  - destruct (Ascii.eqb c sep); [now rewrite IH|].
    rewrite IH. pose proof (split_nonempty sep a) as Hne.
    destruct (split sep a); [congruence | reflexivity].
Qed.

Lemma py_index_minus1 {A : Type} (l : list A) (x : A) :
  py_index (l ++ [x]) (-1) = Some x.
Proof.
  unfold py_index. rewrite length_app. cbn [length].
  destruct (Z.leb_spec 0 (-1)); [lia|].
  destruct (Z.leb_spec (- Z.of_nat (length l + 1)) (-1)); [|lia].
  replace (Z.to_nat (Z.of_nat (length l + 1) + -1)) with (length l) by lia.
  rewrite nth_error_app2 by lia. now rewrite Nat.sub_diag.
Qed.

Lemma py_index_minus2 {A : Type} (l : list A) (x : A) :
  l <> [] -> exists y, py_index (l ++ [x]) (-2) = Some y.
Proof.
  intros Hne. destruct (exists_last Hne) as (l' & y & ->). exists y.
  unfold py_index. rewrite !length_app. cbn [length].
  destruct (Z.leb_spec 0 (-2)); [lia|].
  destruct (Z.leb_spec (- Z.of_nat (length l' + 1 + 1)) (-2)); [|lia].
  replace (Z.to_nat (Z.of_nat (length l' + 1 + 1) + -2)) with (length l') by lia.
  rewrite <- app_assoc. rewrite nth_error_app2 by lia. now rewrite Nat.sub_diag.
Qed.

(** The last two segments of a topic built by [mk_topics], for a kind
    that holds no slash. *)
Lemma topic_parts (b kind : string) :
  split "/" kind = [kind] ->
  py_index (split "/" (b ++ String "/" kind)) (-1) = Some kind
  /\ exists g, py_index (split "/" (b ++ String "/" kind)) (-2) = Some g.
Proof.
  intros Hk. rewrite split_app, Hk. split.
  - apply py_index_minus1.
  - apply py_index_minus2, split_nonempty.
Qed.

(** *** Concrete runs *)

(** C1 as the specification states it fails for a manifest without
    [file_sha256], on tame deliveries for a plain file id: the ack is
    published although there is no digest for the data file to match. *)
Lemma C1_counterexample :
  let msgs := [example_meta manifest_without_file_hash; example_chunk "f" 0 "a"] in
  let w := fst (run example_config msgs empty_world) in
  plain "f" = true
  /\ forallb tame msgs = true
  /\ count_acks "f" (snd (run example_config msgs empty_world)) = 1%nat
  /\ file_sha256 (state_of "f" w) = None
  /\ file_sha256 (state_of "f" w) <> Some (SHA256.hexdigest (data_of w "f" "a.bin")).
Proof.
  vm_compute. repeat split. discriminate.
Qed.

(** C2 as the specification states it fails for a chunk whose index is
    not below [total_chunks], on tame deliveries for a plain file id: the
    index is recorded. *)
Lemma C2_counterexample :
  let f := "a.bin-1-01234567"%string in
  let msgs := firstn 1 (example_bus "a" 1) ++ [example_chunk f 5 "z"] in
  let s := state_of f (fst (run example_config msgs empty_world)) in
  plain f = true
  /\ forallb tame msgs = true
  /\ total_chunks s = Some 1 /\ In 5 (received s) /\ ~ (0 <= 5 < 1).
Proof.
  vm_compute. split; [reflexivity|]. split; [reflexivity|].
  split; [reflexivity|]. split; [now left|]. intros [_ H]. discriminate H.
Qed.

Lemma C2_received_witness :
  let f := "a.bin-1-01234567"%string in
  let msgs := example_bus "a" 1 in
  plain f = true
  /\ forallb tame msgs = true
  /\ Forall (fun i => 0 <= i < 1)
            (received (state_of f (fst (run example_config msgs empty_world)))).
Proof.
  intros f msgs.
  assert (Hf : plain f = true) by reflexivity.
  assert (Ht : forallb tame msgs = true) by (vm_compute; reflexivity).
  split; [exact Hf|]. split; [exact Ht|]. apply Forall_forall.
  destruct (C2_received_distinct_and_from_chunks example_config f msgs Hf Ht)
    as (_ & _ & H).
  apply (H 1). intros msg c Hin Hp _.
  destruct Hin as [<-|[<-|[<-|[]]]]; try discriminate Hp.
  injection Hp as <-. vm_compute. split; [discriminate | reflexivity].
Defined.

(** C3 as the specification states it fails once a chunk beyond
    [total_chunks] follows the completed transfer, on tame deliveries for
    a plain file id: [complete] stays set while [received] has two
    indices for one chunk and the data file no longer has the manifest's
    digest. *)
Lemma C3_counterexample :
  let f := "a.bin-1-01234567"%string in
  let msgs := example_bus "a" 1 ++ [example_chunk f 1 "z"] in
  let w := fst (run example_config msgs empty_world) in
  let s := state_of f w in
  plain f = true
  /\ forallb tame msgs = true
  /\ complete s = true
  /\ total_chunks s = Some 1
  /\ length (received s) = 2%nat
  /\ file_sha256 s <> Some (SHA256.hexdigest (data_of w f "a.bin")).
Proof.
  vm_compute. repeat split. discriminate.
Qed.

Lemma C3_complete_set_witness :
  let f := "a.bin-1-01234567"%string in
  let pre := firstn 1 (example_bus "a" 1) in
  let msg := example_chunk f 0 "a" in
  let r := _on_message example_config msg (fst (run example_config pre empty_world)) in
  let s' := state_of f (world r) in
  exists total nm,
    total_chunks s' = Some total
    /\ total <= Z.of_nat (length (received s'))
    /\ name s' = Some nm
    /\ digest_ok s' (data_of (world r) f nm)
    /\ ack_sent s' = true.
Proof.
  intros f pre msg r s'.
  apply (C3_complete_set_by_verified_check example_config f pre msg).
  - reflexivity.
  - vm_compute. reflexivity.
  - vm_compute. reflexivity.
  - vm_compute. reflexivity.
  - intros cs H. vm_compute in H. injection H as <-. unfold max_chunk. lia.
Defined.

(** C5, the code at the failing input: the manifest of the one-byte file
    ["a"], a corrupt chunk 0 carrying ["ax"] (refused, but already
    written), then the right chunk 0.  The completion check finds
    [|received| = total_chunks] and a whole-file digest that differs; it
    clears [complete] and publishes one status with an empty missing list
    and no retry request. *)
Theorem C5_mismatch_publishes_no_retry :
  let f := "a.bin-1-01234567"%string in
  let pre := firstn 1 (example_bus "a" 1) ++ [example_chunk f 0 "ax"] in
  let msg := example_chunk f 0 "a" in
  let r := _on_message example_config msg (fst (run example_config pre empty_world)) in
  let s' := state_of f (world r) in
  total_chunks s' = Some 1
  /\ received s' = [0]
  /\ file_sha256 s' <> Some (SHA256.hexdigest (data_of (world r) f "a.bin"))
  /\ complete s' = false
  /\ map payload (pubs r) = [PStatus f 1 (Some 1) [] false].
Proof.
  vm_compute. repeat split. discriminate.
Qed.

(** C9, the code at the failing input: after the transfer of the one-byte
    file ["a"], a duplicate of chunk 0 carrying ["x"] is written over the
    data file before its hash is checked; index 0 stays in [received]
    while the file no longer holds the source's byte. *)
Theorem C9_corrupt_duplicate_overwrites_received :
  let f := "a.bin-1-01234567"%string in
  let msgs := example_bus "a" 1 ++ [example_chunk f 0 "x"] in
  let w := fst (run example_config msgs empty_world) in
  let s := state_of f w in
  In 0 (received s)
  /\ chunk_size s = Some 1
  /\ source_chunk 1 (bytes_of "a") 0 = bytes_of "a"
  /\ source_chunk 1 (data_of w f "a.bin") 0 = bytes_of "x".
Proof.
  vm_compute. repeat split. now left.
Qed.

(** *** The empty file *)

Lemma on_message_meta (config : MQTTConfig) (b : string) (m : Manifest) (now : Z)
    (w : World) :
  _on_message config
    {| in_topic := b ++ "/meta"; in_payload := Some (PManifest m); in_time := now |} w
  = _handle_meta config m w.
Proof.
  unfold _on_message. cbn [in_payload in_topic].
  destruct (topic_parts b "meta" eq_refl) as [H1 [g H2]].
  change (b ++ "/meta")%string with (b ++ String "/" "meta")%string.
  now rewrite H1, H2.
Qed.

Lemma on_message_status (config : MQTTConfig) (b : string) (p : Payload) (now : Z)
    (w : World) :
  exists g,
    _on_message config
      {| in_topic := b ++ "/status"; in_payload := Some p; in_time := now |} w
    = {| world := fst (_emit_status config g w);
         pubs := snd (_emit_status config g w); outcome := Returned |}.
Proof.
  unfold _on_message. cbn [in_payload in_topic].
  destruct (topic_parts b "status" eq_refl) as [H1 [g H2]].
  change (b ++ "/status")%string with (b ++ String "/" "status")%string.
  exists g. now rewrite H1, H2.
Qed.

(** C7, the code on every empty file: with a [chunk_size] from 1 to
    [max_chunk] the sender publishes the manifest, with
    [total_chunks = 0], and the status probe (with one above [max_read]
    the first read raises and nothing is published); a receiver with an empty
    storage that is delivered what was published publishes no ack and
    leaves [complete] and [ack_sent] unset. *)
Theorem C7_empty_file_gets_no_ack :
  forall (config : MQTTConfig) (env : SenderEnv) (file_path : string) (cs : Z)
         (qos_arg : option Z) (now : Z),
    fs env file_path = Some [] ->
    1 <= cs ->
    is_connected env || connect_result env = true ->
    let fid := generate_file_id env file_path [] in
    let topics := mk_topics (TOPIC_PREFIX config) fid in
    let sent := send_file config env file_path cs qos_arg in
    let result := run config (map (deliver now) (snd sent)) empty_world in
    (cs <= max_chunk ->
     exists manifest q,
        sent = (inr fid,
                [{| topic := meta topics; payload := PManifest manifest; qos := q |};
                 {| topic := status topics; payload := PStatusRequest; qos := q |}])
        /\ m_total_chunks manifest = 0)
    /\ (max_read < cs -> sent = (inl OverflowError, []))
    /\ no_ack (snd result)
    /\ complete (state_of fid (fst result)) = false
    /\ ack_sent (state_of fid (fst result)) = false.
Proof.
  intros config env file_path cs qos_arg now Hfs Hcs Hconn fid topics sent result.
  destruct (Z.lt_ge_cases max_read cs) as [Hlong|Hmax].
  { assert (Hsent : sent = (inl OverflowError, []))
      by (exact (send_file_too_long _ _ _ _ _ _ Hfs Hlong Hconn)).
    split; [unfold max_chunk, max_read in *; intros; lia|].
    split; [intros _; exact Hsent|].
    subst result. rewrite Hsent. cbn [snd map run fst].
    split; [apply no_ack_nil|]. split; reflexivity. }
  destruct (send_file_publishes config env file_path cs qos_arg [] Hfs (conj Hcs Hmax) Hconn)
    as (manifest & q & Hsend & Hfid & Htot & _).
  fold fid topics sent in Hsend, Hfid.
  assert (H0 : m_total_chunks manifest = 0).
  { rewrite Htot. unfold ceil_div. cbn [length Z.of_nat].
    now rewrite Zmod_0_l, Zdiv_0_l. }
  rewrite H0 in Hsend. cbn [Z.to_nat seq map app] in Hsend.
  split; [intros _; exists manifest, q; now split|].
  split; [intros; lia|].
  subst result. rewrite Hsend. cbn [snd map run deliver topic payload].
  subst topics. cbn [meta status mk_topics]. unfold deliver. cbn [topic payload].
  rewrite on_message_meta.
  destruct (on_message_status config (TOPIC_PREFIX config ++ "/file/" ++ fid)
              PStatusRequest now (world (_handle_meta config manifest empty_world)))
    as (g & ->).
  cbn [world pubs fst snd]. rewrite app_nil_r.
  split; [apply no_ack_app; [rewrite handle_meta_pubs; apply status_pubs_no_ack
                            | apply status_pubs_no_ack]|].
  rewrite !state_of_emit_status, (handle_meta_state_of _ _ _ _ Inv_empty), Hfid.
  rewrite String.eqb_refl. split; reflexivity.
Qed.

Lemma C7_empty_file_witness :
  let sent := send_file example_config (example_env []) "/tmp/a.bin" 262144 None in
  let result := run example_config (map (deliver 5) (snd sent)) empty_world in
  no_ack (snd result)
  /\ complete (state_of "a.bin-0-01234567" (fst result)) = false.
Proof.
  intros sent result.
  destruct (C7_empty_file_gets_no_ack example_config (example_env []) "/tmp/a.bin"
              262144 None 5 eq_refl ltac:(lia) eq_refl) as (_ & _ & H1 & H2 & _).
  exact (conj H1 H2).
Defined.


(* ================================================================== *)
(** ** Further properties of the sender *)

(** What [send_file] publishes for an existing file and a positive
    [chunk_size] that [read] takes, every field of the manifest spelled
    out. *)
Lemma send_file_bus (config : MQTTConfig) (env : SenderEnv) (file_path : string)
    (cs : Z) (qos_arg : option Z) (content : list byte) :
  fs env file_path = Some content ->
  1 <= cs <= max_read ->
  is_connected env || connect_result env = true ->
  let n := Z.to_nat cs in
  let fid := generate_file_id env file_path content in
  let topics := mk_topics (TOPIC_PREFIX config) fid in
  let q := sender_qos config qos_arg in
  send_file config env file_path cs qos_arg =
  (inr fid,
   {| topic := meta topics;
      payload := PManifest (sender_manifest env file_path cs content); qos := q |}
   :: map (fun i => chunk_pub topics fid q i (source_chunk n content i))
          (seq 0 (count_chunks n (length content)))
   ++ [{| topic := status topics; payload := PStatusRequest; qos := q |}]).
Proof.
  intros Hfs Hcs Hconn n fid topics q.
  unfold send_file. rewrite Hfs.
  replace (negb (is_connected env) && negb (connect_result env)) with false
    by (destruct (is_connected env), (connect_result env); simpl in *; congruence).
  destruct (cs =? 0) eqn:E; [lia|].
  rewrite first_pass_spec by assumption.
  fold fid. fold topics. fold n. fold (sender_qos config qos_arg). fold q.
  set (total := count_chunks n (length content)).
  pose proof (second_pass_spec topics fid
                (map SHA256.hexdigest (source_chunks n content)) q cs Hcs
                (length content) content 0%nat) as H2.
  cbn [Z.of_nat] in H2. fold n in H2. fold total in H2.
  rewrite H2; clear H2.
  - unfold sender_manifest. fold n fid total.
    unfold source_chunks. fold total. rewrite !map_map. reflexivity.
  - lia.
  - intros j Hj. simpl. unfold source_chunks. fold total.
    rewrite nth_error_map, nth_error_map.
    rewrite (nth_error_nth' _ 0%nat) by (rewrite length_seq; exact Hj).
    rewrite seq_nth by exact Hj. reflexivity.
Qed.

Lemma source_chunk_length (n : nat) (content : list byte) (i : nat) :
  length (source_chunk n content i) = Nat.min n (length content - i * n).
Proof. unfold source_chunk. now rewrite length_firstn, length_skipn. Qed.

Lemma count_chunks_bound (n len i : nat) :
  (1 <= n)%nat -> (i < count_chunks n len <-> i * n < len)%nat.
Proof.
  intros Hn. unfold count_chunks.
  pose proof (Nat.div_mod_eq (len + n - 1) n) as Hd.
  pose proof (Nat.mod_upper_bound (len + n - 1) n ltac:(lia)) as Hm.
  split; intros H; nia.
Qed.

Lemma flat_map_chunk_pub (topics : FileTransferTopics) (fid : string) (q : Z)
    (f : nat -> list byte) (l : list nat) :
  flat_map pub_chunk_data (map (fun i => chunk_pub topics fid q i (f i)) l) = map f l.
Proof. induction l as [|i l IH]; simpl; [reflexivity | now rewrite IH]. Qed.

(** X1: with a [chunk_size] from 1 to [max_chunk], the chunk messages
    of one call carry the file, cut in order: their data
    concatenated is the file, there are [ceil(size / chunk_size)] of
    them, none is empty or longer than [chunk_size], and all but the last
    have exactly [chunk_size] bytes. *)
Theorem sent_chunks_partition_file :
  forall (config : MQTTConfig) (env : SenderEnv) (file_path : string) (cs : Z)
         (qos_arg : option Z) (content : list byte),
    fs env file_path = Some content ->
    1 <= cs <= max_chunk ->
    is_connected env || connect_result env = true ->
    let datas := flat_map pub_chunk_data (snd (send_file config env file_path cs qos_arg)) in
    concat datas = content
    /\ Z.of_nat (length datas) = ceil_div (Z.of_nat (length content)) cs
    /\ Forall (fun d => (1 <= length d <= Z.to_nat cs)%nat) datas
    /\ (forall i, (S i < length datas)%nat -> length (nth i datas []) = Z.to_nat cs).
Proof.
  intros config env file_path cs qos_arg content Hfs Hcs Hconn datas.
  assert (Hcs' : 1 <= cs <= max_read) by (pose proof max_chunk_read; lia).
  subst datas. rewrite (send_file_bus config env file_path cs qos_arg content Hfs Hcs' Hconn).
  cbn [snd flat_map pub_chunk_data payload app]. rewrite flat_map_app.
  rewrite flat_map_chunk_pub. cbn [flat_map pub_chunk_data payload]. rewrite !app_nil_r.
  set (n := Z.to_nat cs). set (total := count_chunks n (length content)).
  assert (Hn : (1 <= n)%nat) by (subst n; lia).
  split; [apply (concat_source_chunks n Hn (length content)); lia|].
  split.
  { rewrite length_map, length_seq. subst total n.
    rewrite <- total_chunks_count by lia. apply total_chunks_ceil; lia. }
  split.
  { apply Forall_forall. intros d Hd. apply in_map_iff in Hd as (i & <- & Hi).
    apply in_seq in Hi. rewrite source_chunk_length.
    assert (i * n < length content)%nat by (apply count_chunks_bound; [exact Hn | lia]).
    lia. }
  intros i Hi. rewrite length_map, length_seq in Hi.
  rewrite (nth_indep _ [] (source_chunk n content 0)) by (rewrite length_map, length_seq; lia).
  rewrite (map_nth (source_chunk n content) (seq 0 total) 0%nat i).
  rewrite seq_nth by lia. rewrite source_chunk_length. cbn [Nat.add].
  assert (S i * n < length content)%nat by (apply count_chunks_bound; [exact Hn | exact Hi]).
  lia.
Qed.

Lemma sent_chunks_partition_witness :
  let datas := flat_map pub_chunk_data
                 (snd (send_file example_config (example_env (bytes_of "abcde"))
                                 "/tmp/a.bin" 2 None)) in
  concat datas = bytes_of "abcde" /\ Z.of_nat (length datas) = 3.
Proof.
  intros datas.
  destruct (sent_chunks_partition_file example_config (example_env (bytes_of "abcde"))
              "/tmp/a.bin" 2 None (bytes_of "abcde") eq_refl
              ltac:(unfold max_chunk; lia) eq_refl)
    as (H1 & H2 & _).
  split; [exact H1 | exact H2].
Defined.

(** An invariant of the loop's variables that the body keeps holds when
    the loop ends, however it ends. *)
Lemma read_loop_invariant {S : Type} (I : S -> Prop)
    (body : S -> list byte -> S * option Exn) (n : Z) :
  (forall s data, I s -> I (fst (body s data))) ->
  forall rest s, I s -> I (fst (read_loop body n rest s)).
Proof.
  intros Hbody rest s. unfold read_loop. generalize (Datatypes.S (length rest)).
  intros fuel. revert rest s. induction fuel as [|k IH]; intros rest s Hs; simpl.
  - exact Hs.
  - destruct (fread n rest) as [e|[data rest']]; [exact Hs|].
    destruct (is_empty data); [exact Hs|].
    specialize (Hbody s data Hs).
    destruct (body s data) as [s' [e|]]; [exact Hbody|].
    apply IH. exact Hbody.
Qed.

(** X2: whatever its arguments and however it ends, [send_file] publishes
    only on the meta, chunk and status topics of the one file id it
    generated, with the payload of that topic naming that file id, and
    always with the same QoS: the caller's if given, else the configured
    one.  It never publishes on an ack or retry topic. *)
Theorem send_file_publishes_on_own_topics :
  forall (config : MQTTConfig) (env : SenderEnv) (file_path : string) (cs : Z)
         (qos_arg : option Z) (p : Pub),
    In p (snd (send_file config env file_path cs qos_arg)) ->
    exists content,
      fs env file_path = Some content
      /\ own_publication config (generate_file_id env file_path content)
                         (sender_qos config qos_arg) p.
Proof.
  intros config env file_path cs qos_arg p. unfold send_file.
  destruct (fs env file_path) as [content|]; [|intros []].
  intros Hin. exists content. split; [reflexivity|].
  fold (sender_qos config qos_arg) in Hin.
  set (q := sender_qos config qos_arg) in *.
  set (fid := generate_file_id env file_path content) in *.
  set (topics := mk_topics (TOPIC_PREFIX config) fid) in *.
  destruct (negb (is_connected env) && negb (connect_result env)); [destruct Hin|].
  destruct (cs =? 0); [destruct Hin|].
  destruct (read_loop first_pass_body cs content ([], [])) as [[hashed hashes] [e|]];
    [destruct Hin|].
  cbv zeta in Hin.
  match type of Hin with
  | context [read_loop _ cs content (0, ?bus)] => set (bus0 := bus) in *
  end.
  assert (Hbody : forall (s : Z * list Pub) data,
            Forall (own_publication config fid q) (snd s) ->
            Forall (own_publication config fid q)
                   (snd (fst (second_pass_body topics fid hashes q s data)))).
  { intros s data Hs. unfold second_pass_body.
    destruct (py_index hashes (fst s)) as [h|]; [|exact Hs].
    cbn [fst snd]. apply Forall_app. split; [exact Hs|].
    constructor; [|constructor]. split; [reflexivity|]. right; left.
    split; [reflexivity|]. eexists. split; reflexivity. }
  assert (Hbus : Forall (own_publication config fid q) (snd (0, bus0))).
  { subst bus0. constructor; [|constructor]. split; [reflexivity|]. left.
    split; [reflexivity|]. eexists. split; reflexivity. }
  pose proof (read_loop_invariant
                (fun s : Z * list Pub => Forall (own_publication config fid q) (snd s))
                _ cs Hbody content (0, bus0) Hbus) as HI.
  cbv beta in HI.
  destruct (read_loop _ cs content _) as [[idx bus'] [e|]]; cbn [snd fst] in *.
  - revert p Hin. now apply Forall_forall.
  - apply in_app_or in Hin as [Hin|[<-|[]]].
    + revert p Hin. now apply Forall_forall.
    + split; [reflexivity|]. right; right. split; reflexivity.
Qed.

Lemma send_file_own_topics_witness :
  let p := {| topic := "orca/iot/file/a.bin-2-01234567/status";
              payload := PStatusRequest; qos := 1 |} in
  exists content,
    fs (example_env (bytes_of "ab")) "/tmp/a.bin" = Some content
    /\ own_publication example_config
         (generate_file_id (example_env (bytes_of "ab")) "/tmp/a.bin" content)
         (sender_qos example_config None) p.
Proof.
  intros p.
  apply (send_file_publishes_on_own_topics example_config (example_env (bytes_of "ab"))
           "/tmp/a.bin" 1 None p).
  vm_compute. right; right; right; left. reflexivity.
Defined.

(* ================================================================== *)
(** ** Topics and file ids *)

Lemma has_char_app (c : ascii) (a b : string) :
  has_char c (a ++ b) = has_char c a || has_char c b.
Proof.
  induction a as [|x a IH]; simpl; [reflexivity|]. now rewrite IH, orb_assoc.
Qed.

Lemma split_no_sep (sep : ascii) (s : string) :
  has_char sep s = false -> split sep s = [s].
Proof.
  induction s as [|c s IH]; simpl; [reflexivity|].
  intros H. apply orb_false_iff in H as [Hc Hs]. rewrite Hc, (IH Hs). reflexivity.
Qed.

Lemma last_split_no_sep (sep : ascii) (s : string) :
  has_char sep (last (split sep s) EmptyString) = false.
Proof.
  induction s as [|c s IH]; [reflexivity|]. cbn [split].
  pose proof (split_nonempty sep s) as Hne.
  destruct (Ascii.eqb c sep) eqn:Hc.
  - destruct (split sep s) as [|hd tl]; [congruence | exact IH].
  - destruct (split sep s) as [|hd tl]; [congruence|].
    destruct tl as [|x tl]; [|exact IH].
    cbn [last] in *. cbn [has_char]. now rewrite Hc, IH.
Qed.

Lemma basename_no_slash (path : string) : has_char "/" (basename path) = false.
Proof. apply last_split_no_sep. Qed.

Lemma basename_id (s : string) : has_char "/" s = false -> basename s = s.
Proof. intros H. unfold basename. now rewrite (split_no_sep _ _ H). Qed.

Lemma str_of_nat_no_slash (n : nat) : has_char "/" (str_of_nat n) = false.
Proof.
  unfold str_of_nat, NilZero.string_of_uint.
  assert (H : forall d, has_char "/" (NilEmpty.string_of_uint d) = false)
    by (induction d; simpl; auto).
  destruct (Nat.to_uint n); try apply H. reflexivity.
Qed.

Lemma substring_no_char (c : ascii) (s : string) :
  has_char c s = false -> forall n m, has_char c (substring n m s) = false.
Proof.
  induction s as [|x s IH]; intros H n m.
  - destruct n, m; reflexivity.
  - cbn [has_char] in H. apply orb_false_iff in H as [Hx Hs].
    destruct n as [|n]; [destruct m as [|m]|]; cbn [substring has_char];
      [reflexivity | now rewrite Hx, IH | now apply IH].
Qed.

(** File ids made by [generate_file_id] hold no slash when the uuid's hex
    form holds none. *)
Lemma generate_file_id_no_slash (env : SenderEnv) (file_path : string)
    (content : list byte) :
  has_char "/" (uuid4_hex env) = false ->
  has_char "/" (generate_file_id env file_path content) = false.
Proof.
  intros Hu. unfold generate_file_id. rewrite !has_char_app.
  rewrite basename_no_slash, str_of_nat_no_slash, (substring_no_char _ _ Hu).
  reflexivity.
Qed.

(** The segments of a topic made by [FileTransferTopics]. *)
Lemma topic_segments (prefix fid kind : string) :
  has_char "/" kind = false ->
  split "/" ((prefix ++ "/file/" ++ fid) ++ String "/" kind)
  = split "/" prefix ++ ["file"%string] ++ split "/" fid ++ [kind].
Proof.
  intros Hk.
  change (prefix ++ "/file/" ++ fid)%string
    with (prefix ++ String "/" ("file" ++ String "/" fid))%string.
  rewrite !split_app, (split_no_sep _ _ Hk).
  change (split "/" "file") with ["file"%string].
  now rewrite <- !app_assoc.
Qed.

Lemma topic_kind_and_id (prefix fid kind : string) :
  has_char "/" kind = false ->
  let parts := split "/" ((prefix ++ "/file/" ++ fid) ++ String "/" kind) in
  py_index parts (-1) = Some kind /\ py_index parts (-2) = Some (basename fid).
Proof.
  intros Hk parts. subst parts. rewrite (topic_segments _ _ _ Hk).
  rewrite !app_assoc. split; [apply py_index_minus1|].
  unfold basename.
  destruct (exists_last (split_nonempty "/" fid)) as (l' & y & ->).
  rewrite last_last, !app_assoc.
  set (l := ((split "/" prefix ++ ["file"%string]) ++ l')).
  unfold py_index. rewrite !length_app. cbn [length].
  destruct (Z.leb_spec 0 (-2)); [lia|].
  destruct (Z.leb_spec (- Z.of_nat (length l + 1 + 1)) (-2)); [|lia].
  replace (Z.to_nat (Z.of_nat (length l + 1 + 1) + -2)) with (length l) by lia.
  rewrite <- app_assoc. rewrite nth_error_app2 by lia. now rewrite Nat.sub_diag.
Qed.

(** What [_on_message] does with a delivery on a topic of
    [FileTransferTopics], by the last segment of the topic. *)
Lemma on_message_kind (config : MQTTConfig) (prefix fid kind : string) (data : Payload)
    (now : Z) (w : World) :
  has_char "/" kind = false ->
  _on_message config
    {| in_topic := (prefix ++ "/file/" ++ fid) ++ String "/" kind;
       in_payload := Some data; in_time := now |} w
  = if String.eqb kind "meta" then
      match data with
      | PManifest m => _handle_meta config m w
      | _ => meta_key_error data w
      end
    else if String.eqb kind "chunk" then
      match data with
      | PChunk c => _handle_chunk config now c w
      | _ => {| world := w; pubs := []; outcome := Raised KeyError |}
      end
    else if String.eqb kind "status" then
      {| world := fst (_emit_status config (basename fid) w);
         pubs := snd (_emit_status config (basename fid) w); outcome := Returned |}
    else {| world := w; pubs := []; outcome := Returned |}.
Proof.
  intros Hk. unfold _on_message. cbn [in_payload in_topic in_time].
  destruct (topic_kind_and_id prefix fid kind Hk) as [H1 H2].
  now rewrite H1, H2.
Qed.

Lemma on_message_status_topic (config : MQTTConfig) (prefix fid : string) (data : Payload)
    (now : Z) (w : World) :
  _on_message config
    {| in_topic := status (mk_topics prefix fid); in_payload := Some data;
       in_time := now |} w
  = {| world := fst (_emit_status config (basename fid) w);
       pubs := snd (_emit_status config (basename fid) w); outcome := Returned |}.
Proof. exact (on_message_kind config prefix fid "status" data now w eq_refl). Qed.

Lemma plain_no_slash (s : string) : plain s = true -> has_char "/" s = false.
Proof.
  unfold plain. intros H.
  repeat (apply andb_prop in H as [H ?]).
  now apply negb_true_iff.
Qed.

(** A delivery on the status topic of a plain file id, answered. *)
Lemma on_message_status_plain (config : MQTTConfig) (prefix fid : string) (data : Payload)
    (now : Z) (w : World) :
  plain fid = true ->
  _on_message config
    {| in_topic := status (mk_topics prefix fid); in_payload := Some data;
       in_time := now |} w
  = {| world := _state_dir fid w;
       pubs := status_pubs config fid (state_of fid w); outcome := Returned |}.
Proof.
  intros Hp. rewrite on_message_status_topic.
  now rewrite (basename_id _ (plain_no_slash _ Hp)).
Qed.

(** X3: how the receiver dispatches a delivery on a topic built by
    [FileTransferTopics].  On a meta or chunk topic the handler gets the
    payload, whose own [file_id] decides which transfer is touched; the
    file id in the topic is not looked at.  On a status topic the
    delivery is handled as one on the status topic of the last
    slash-separated segment of the topic's file id (the file id itself
    when it holds no slash); for a plain file id the answer is the status
    emission of that file id, and the storage changes by the directory of
    the file id, made if it is not there.  Deliveries on ack and retry
    topics are ignored. *)
Theorem on_message_dispatch :
  forall (config : MQTTConfig) (prefix fid : string) (data : Payload) (now : Z)
         (w : World),
    let topics := mk_topics prefix fid in
    let inbound t := {| in_topic := t; in_payload := Some data; in_time := now |} in
    (forall m, data = PManifest m ->
       _on_message config (inbound (meta topics)) w = _handle_meta config m w)
    /\ (forall c, data = PChunk c ->
          _on_message config (inbound (chunk topics)) w = _handle_chunk config now c w)
    /\ _on_message config (inbound (status topics)) w
       = _on_message config (inbound (status (mk_topics prefix (basename fid)))) w
    /\ (has_char "/" fid = false -> basename fid = fid)
    /\ (plain fid = true ->
        _on_message config (inbound (status topics)) w
        = {| world := _state_dir fid w;
             pubs := status_pubs config fid (state_of fid w);
             outcome := Returned |})
    /\ _on_message config (inbound (ack topics)) w
       = {| world := w; pubs := []; outcome := Returned |}
    /\ _on_message config (inbound (retry topics)) w
       = {| world := w; pubs := []; outcome := Returned |}.
Proof.
  intros config prefix fid data now w topics inbound.
  pose proof (fun kind => on_message_kind config prefix fid kind data now w) as H.
  split; [intros m ->; exact (H "meta"%string eq_refl)|].
  split; [intros c ->; exact (H "chunk"%string eq_refl)|].
  split.
  { subst inbound topics. cbv beta. rewrite !on_message_status_topic.
    now rewrite (basename_id (basename fid) (basename_no_slash fid)). }
  split; [apply basename_id|].
  split; [intros Hp; exact (on_message_status_plain config prefix fid data now w Hp)|].
  split; [exact (H "ack"%string eq_refl) | exact (H "retry"%string eq_refl)].
Qed.

(** X4: the status probe that ends [send_file] reaches the transfer it
    belongs to: with a [chunk_size] from 1 to [max_chunk] and a
    generated file id that is plain, a receiver that is delivered the
    probe publishes the status of exactly that file id; it makes the
    directory of the file id if it is not there and changes nothing
    else. *)
Theorem sender_probe_answered_for_its_file :
  forall (config : MQTTConfig) (env : SenderEnv) (file_path : string) (cs : Z)
         (qos_arg : option Z) (content : list byte) (now : Z) (w : World),
    fs env file_path = Some content ->
    1 <= cs <= max_chunk ->
    is_connected env || connect_result env = true ->
    let fid := generate_file_id env file_path content in
    let sent := snd (send_file config env file_path cs qos_arg) in
    let r := _on_message config (deliver now (last sent (ack_pub config 0 fid))) w in
    plain fid = true ->
    r = {| world := _state_dir fid w;
           pubs := status_pubs config fid (state_of fid w); outcome := Returned |}
    /\ states (world r) = states w
    /\ files (world r) = files w
    /\ (In fid (dirs w) -> world r = w).
Proof.
  intros config env file_path cs qos_arg content now w Hfs Hcs0 Hconn fid sent r Hp.
  assert (Hcs : 1 <= cs <= max_read) by (pose proof max_chunk_read; lia).
  assert (Hr : r = {| world := _state_dir fid w;
                      pubs := status_pubs config fid (state_of fid w);
                      outcome := Returned |}).
  { subst r sent.
    rewrite (send_file_bus config env file_path cs qos_arg content Hfs Hcs Hconn).
    cbn [snd]. rewrite app_comm_cons, last_last. fold fid.
    unfold deliver. cbn [topic payload].
    exact (on_message_status_plain config (TOPIC_PREFIX config) fid PStatusRequest
             now w Hp). }
  split; [exact Hr|]. rewrite Hr. cbn [world].
  split; [reflexivity|]. split; [reflexivity|]. apply state_dir_made.
Qed.

Lemma sender_probe_answered_witness :
  let env := example_env (bytes_of "ab") in
  let fid := "a.bin-2-01234567"%string in
  let sent := snd (send_file example_config env "/tmp/a.bin" 1 None) in
  plain fid = true
  /\ _on_message example_config (deliver 5 (last sent (ack_pub example_config 0 fid)))
                  empty_world
     = {| world := _state_dir fid empty_world;
          pubs := status_pubs example_config fid (state_of fid empty_world);
          outcome := Returned |}.
Proof.
  intros env fid sent.
  assert (Hp : plain fid = true) by reflexivity.
  split; [exact Hp|].
  destruct (sender_probe_answered_for_its_file example_config env "/tmp/a.bin" 1 None
              (bytes_of "ab") 5 empty_world eq_refl ltac:(unfold max_chunk; lia) eq_refl Hp)
    as [H _].
  exact H.
Defined.

(* ================================================================== *)
(** ** Further properties of the receiver *)

Lemma completion_check_files (config : MQTTConfig) (now : Z) (fid nm : string)
    (state : State) (w : World) :
  files (world (completion_check config now fid nm state w)) = files w.
Proof.
  unfold completion_check. cbv zeta.
  assert (Hper : files (world (if Z.of_nat (length (received state)) mod 50 =? 0
                               then {| world := fst (_emit_status config fid w);
                                       pubs := snd (_emit_status config fid w);
                                       outcome := Returned |}
                               else {| world := w; pubs := []; outcome := Returned |}))
                 = files w) by (destruct (_ =? 0); reflexivity).
  destruct (total_chunks state); [|exact Hper].
  destruct (_ && _); [|exact Hper].
  destruct (read_loop _ _ _ _) as [hasher [e|]]; [reflexivity|].
  destruct (_ && _); [reflexivity|].
  unfold _emit_ack. cbn [_load_state fst snd]. destruct (ack_sent _); reflexivity.
Qed.

Lemma length_write_at (file : list byte) (off : nat) (blob : list byte) :
  length (write_at file off blob)
  = if is_empty blob then length file else Nat.max (length file) (off + length blob).
Proof.
  unfold write_at. destruct (is_empty blob); [reflexivity|].
  rewrite !length_app, length_firstn, repeat_length, length_skipn. lia.
Qed.

Lemma length_write_at_ge (file : list byte) (off : nat) (blob : list byte) :
  (length file <= length (write_at file off blob))%nat.
Proof. rewrite length_write_at. destruct (is_empty blob); lia. Qed.


(** What [_handle_chunk] does to the data files. *)
Lemma handle_chunk_files (config : MQTTConfig) (now : Z) (c : ChunkMsg) (w : World) :
  let fid := c_file_id c in
  let state := state_of fid w in
  let off := c_chunk_index c * or_int (chunk_size state) (Z.of_nat (length (c_data c))) in
  let r := _handle_chunk config now c w in
  forall f nm,
    files (world r) f nm = files w f nm
    \/ (f = fid /\ name state = Some nm /\ files w fid nm = None
        /\ files (world r) f nm = Some [])
    \/ (f = fid /\ name state = Some nm /\ 0 <= off <= max_offset
        /\ files (world r) f nm
           = Some (write_at (data_of w fid nm) (Z.to_nat off) (c_data c))).
Proof.
  intros fid state off r f nm. subst r. unfold _handle_chunk.
  cbn [_load_state _data_path fst snd]. fold fid state. cbv zeta.
  fold off. set (w0 := _state_dir fid (_state_dir fid w)).
  change (files w0) with (files w).
  destruct (name state) as [nm0|] eqn:Hnm; [|now left].
  assert (Hw1 : files (match files w fid nm0 with
                       | Some _ => w0
                       | None => write_file fid nm0 [] w0
                       end) f nm = files w f nm
                \/ (f = fid /\ Some nm0 = Some nm /\ files w fid nm = None
                    /\ files (match files w fid nm0 with
                              | Some _ => w0
                              | None => write_file fid nm0 [] w0
                              end) f nm = Some [])).
  { destruct (files w fid nm0) eqn:Hf; [now left|]. cbn [files write_file].
    change (files w0) with (files w).
    destruct (String.eqb_spec f fid) as [->|]; [|now left].
    destruct (String.eqb_spec nm nm0) as [->|]; [|now left].
    right. now repeat split. }
  destruct (Z.ltb_spec off 0); [cbn [world]; tauto|].
  destruct (Z.ltb_spec max_offset off); [cbn [world]; tauto|].
  assert (Hw2 : forall w', files w' = files (write_file fid nm0
                   (write_at match files w fid nm0 with Some d => d | None => [] end
                             (Z.to_nat off) (c_data c))
                   match files w fid nm0 with
                   | Some _ => w0
                   | None => write_file fid nm0 [] w0
                   end) ->
             files w' f nm = files w f nm
             \/ (f = fid /\ Some nm0 = Some nm /\ files w fid nm = None
                 /\ files w' f nm = Some [])
             \/ (f = fid /\ Some nm0 = Some nm /\ 0 <= off <= max_offset
                 /\ files w' f nm
                    = Some (write_at (data_of w fid nm) (Z.to_nat off) (c_data c)))).
  { intros w' ->. cbn [files write_file].
    destruct (String.eqb_spec f fid) as [->|].
    - destruct (String.eqb_spec nm nm0) as [->|].
      + right; right. repeat split; try lia; try reflexivity.
      + cbn [andb]. destruct (files w fid nm0); [now left|].
        cbn [files write_file]. rewrite String.eqb_refl.
        destruct (String.eqb_spec nm nm0); [contradiction | now left].
    - cbn [andb]. destruct (files w fid nm0); [now left|].
      cbn [files write_file].
      destruct (String.eqb_spec f fid); [contradiction | now left]. }
  destruct (check_chunk state (c_chunk_index c) (c_data c)).
  - apply Hw2. now rewrite completion_check_files.
  - apply Hw2. reflexivity.
  - apply Hw2. reflexivity.
Qed.

Lemma on_message_files_grow (config : MQTTConfig) (msg : Inbound) (w : World)
    (f nm : string) (d : list byte) :
  files w f nm = Some d ->
  exists d', files (world (_on_message config msg w)) f nm = Some d'
             /\ (length d <= length d')%nat.
Proof.
  intros Hd.
  assert (Hsame : forall w', files w' = files w ->
            exists d', files w' f nm = Some d' /\ (length d <= length d')%nat)
    by (intros w' ->; exists d; split; [exact Hd | lia]).
  unfold _on_message.
  destruct (in_payload msg) as [data|]; [|now apply Hsame].
  destruct (py_index _ (-1)) as [kind|]; [|now apply Hsame].
  destruct (py_index _ (-2)) as [fid|]; [|now apply Hsame].
  destruct (String.eqb kind "meta").
  { destruct data; now apply Hsame. }
  destruct (String.eqb kind "chunk").
  2:{ destruct (String.eqb kind "status"); now apply Hsame. }
  destruct data as [|c| | | |]; try (now apply Hsame).
  destruct (handle_chunk_files config (in_time msg) c w f nm)
    as [H|[(-> & _ & Hn & _)|(-> & _ & _ & H)]].
  - rewrite H. exists d. split; [exact Hd | lia].
  - congruence.
  - rewrite H. eexists. split; [reflexivity|].
    unfold data_of. rewrite Hd. apply length_write_at_ge.
Qed.

Lemma run_files_grow (config : MQTTConfig) (msgs : list Inbound) :
  forall (w : World) (f nm : string) (d : list byte),
    files w f nm = Some d ->
    exists d', files (fst (run config msgs w)) f nm = Some d'
               /\ (length d <= length d')%nat.
Proof.
  induction msgs as [|m msgs IH]; intros w f nm d Hd; simpl.
  - exists d. split; [exact Hd | lia].
  - destruct (on_message_files_grow config m w f nm d Hd) as (d1 & H1 & Hl1).
    destruct (IH _ f nm d1 H1) as (d2 & H2 & Hl2).
    destruct (run config msgs (world (_on_message config m w))) as [w' ps].
    exists d2. split; [exact H2 | lia].
Qed.

(** X5: the receiver never deletes or shortens a data file: over any
    sequence of tame deliveries to a receiver that started with an empty
    storage, a data file that exists keeps existing and its length never
    decreases. *)
Theorem data_files_never_shrink :
  forall (config : MQTTConfig) (pre msgs : list Inbound) (f nm : string)
         (d : list byte),
    forallb tame (pre ++ msgs) = true ->
    let w := fst (run config pre empty_world) in
    files w f nm = Some d ->
    exists d', files (fst (run config msgs w)) f nm = Some d'
               /\ (length d <= length d')%nat.
Proof.
  intros config pre msgs f nm d Htame w Hd. now apply run_files_grow.
Qed.

Lemma data_files_never_shrink_witness :
  let f := "a.bin-2-01234567"%string in
  let pre := firstn 2 (example_bus "ab" 1) in
  let msgs := [example_chunk f 0 "xyz"] in
  let w := fst (run example_config pre empty_world) in
  forallb tame (pre ++ msgs) = true
  /\ files w f "a.bin" = Some (bytes_of "a")
  /\ exists d', files (fst (run example_config msgs w)) f "a.bin" = Some d'
                /\ (1 <= length d')%nat.
Proof.
  intros f pre msgs w.
  assert (Ht : forallb tame (pre ++ msgs) = true) by (vm_compute; reflexivity).
  assert (Hd : files w f "a.bin" = Some (bytes_of "a")) by (vm_compute; reflexivity).
  split; [exact Ht|]. split; [exact Hd|].
  exact (data_files_never_shrink example_config pre msgs f "a.bin" (bytes_of "a") Ht Hd).
Defined.

Lemma on_message_monotone (config : MQTTConfig) (msg : Inbound) (w : World) (f : string) :
  Inv w ->
  let s := state_of f w in
  let s' := state_of f (world (_on_message config msg w)) in
  incl (received s) (received s')
  /\ (complete s = true -> complete s' = true)
  /\ (ack_sent s = true -> ack_sent s' = true).
Proof.
  intros HI s s'. subst s s'.
  assert (Hid : forall w', states w' f = states w f ->
            incl (received (state_of f w)) (received (state_of f w'))
            /\ (complete (state_of f w) = true -> complete (state_of f w') = true)
            /\ (ack_sent (state_of f w) = true -> ack_sent (state_of f w') = true)).
  { intros w' H. rewrite (load_states f w w' H). split; [apply incl_refl | tauto]. }
  unfold _on_message.
  destruct (in_payload msg) as [data|]; [|now apply Hid].
  destruct (py_index _ (-1)) as [kind|]; [|now apply Hid].
  destruct (py_index _ (-2)) as [fid|]; [|now apply Hid].
  destruct (String.eqb kind "meta").
  { destruct data as [m| | | | |]; try (now apply Hid).
    rewrite handle_meta_state_of by exact HI.
    destruct (String.eqb_spec f (m_file_id m)) as [->|Hne].
    - cbn [received complete ack_sent update_meta]. split; [apply incl_refl | tauto].
    - split; [apply incl_refl | tauto]. }
  destruct (String.eqb kind "chunk").
  2:{ destruct (String.eqb kind "status"); now apply Hid. }
  destruct data as [|c| | | |]; try (now apply Hid).
  destruct (handle_chunk_summary config (in_time msg) c w HI)
    as (Hoth & _ & [[Hsame _]|(nm & state1 & s' & Hnm & Hst1 & _ & Hs' & Hcomp)]).
  - apply Hid. now rewrite Hsame.
  - destruct (String.eqb_spec f (c_file_id c)) as [->|Hne]; [|now apply Hid, Hoth].
    rewrite (load_some _ _ _ Hs').
    assert (H1 : incl (received (state_of (c_file_id c) w)) (received state1)
                 /\ complete state1 = complete (state_of (c_file_id c) w)
                 /\ ack_sent state1 = ack_sent (state_of (c_file_id c) w)).
    { destruct Hst1 as [[-> _]|[-> _]]; cbn [received complete ack_sent set_received];
        (split; [|split; reflexivity]); [apply incl_refl | apply incl_appl, incl_refl]. }
    destruct H1 as (Hinc & Hc1 & Ha1). rewrite <- Hc1, <- Ha1.
    inversion Hcomp; subst; cbn [received complete ack_sent set_complete set_ack_sent];
      (split; [exact Hinc|]); split; congruence.
Qed.

Lemma run_monotone (config : MQTTConfig) (f : string) (msgs : list Inbound) :
  forall w, Inv w ->
    let w1 := fst (run config msgs w) in
    incl (received (state_of f w)) (received (state_of f w1))
    /\ (complete (state_of f w) = true -> complete (state_of f w1) = true)
    /\ (ack_sent (state_of f w) = true -> ack_sent (state_of f w1) = true).
Proof.
  induction msgs as [|m msgs IH]; intros w HI; simpl.
  - split; [apply incl_refl | tauto].
  - destruct (on_message_monotone config m w f HI) as (H1 & H2 & H3).
    specialize (IH _ (on_message_Inv config m w HI)).
    destruct (run config msgs (world (_on_message config m w))) as [w' ps].
    cbn [fst] in *. destruct IH as (I1 & I2 & I3).
    split; [eapply incl_tran; eassumption | tauto].
Qed.

(** X6: progress is never taken back.  Over any sequence of tame
    deliveries that follows any other, for a plain file id an index once
    in [received] stays there, and [complete] and [ack_sent], once saved
    as true when a delivery has been handled, stay true: no later chunk
    or manifest, whatever it carries, reopens a transfer. *)
Theorem progress_is_never_taken_back :
  forall (config : MQTTConfig) (f : string) (pre msgs : list Inbound),
    plain f = true ->
    forallb tame (pre ++ msgs) = true ->
    let w0 := fst (run config pre empty_world) in
    let w1 := fst (run config msgs w0) in
    incl (received (state_of f w0)) (received (state_of f w1))
    /\ (complete (state_of f w0) = true -> complete (state_of f w1) = true)
    /\ (ack_sent (state_of f w0) = true -> ack_sent (state_of f w1) = true).
Proof.
  intros config f pre msgs Hf Htame w0 w1.
  apply run_monotone. apply run_Inv, Inv_empty.
Qed.

Lemma progress_is_never_taken_back_witness :
  let f := "a.bin-1-01234567"%string in
  let pre := example_bus "a" 1 in
  let msgs := firstn 1 (example_bus "a" 1) ++ [example_chunk f 3 "z"] in
  let w0 := fst (run example_config pre empty_world) in
  let w1 := fst (run example_config msgs w0) in
  plain f = true
  /\ forallb tame (pre ++ msgs) = true
  /\ complete (state_of f w0) = true
  /\ complete (state_of f w1) = true
  /\ incl (received (state_of f w0)) (received (state_of f w1)).
Proof.
  intros f pre msgs w0 w1.
  assert (Hf : plain f = true) by reflexivity.
  assert (Ht : forallb tame (pre ++ msgs) = true) by (vm_compute; reflexivity).
  assert (Hc : complete (state_of f w0) = true) by (vm_compute; reflexivity).
  destruct (progress_is_never_taken_back example_config f pre msgs Hf Ht) as (H1 & H2 & _).
  split; [exact Hf|]. split; [exact Ht|]. split; [exact Hc|].
  split; [exact (H2 Hc) | exact H1].
Defined.

Lemma on_message_frame (config : MQTTConfig) (msg : Inbound) (w : World) (f : string) :
  Inv w ->
  (forall data g, in_payload msg = Some data -> payload_file_id data = Some g -> g <> f) ->
  states (world (_on_message config msg w)) f = states w f
  /\ forall nm, files (world (_on_message config msg w)) f nm = files w f nm.
Proof.
  intros HI Hg. unfold _on_message.
  destruct (in_payload msg) as [data|]; [|now split].
  specialize (Hg data).
  destruct (py_index _ (-1)) as [kind|]; [|now split].
  destruct (py_index _ (-2)) as [fid|]; [|now split].
  destruct (String.eqb kind "meta").
  { destruct data as [m| | | | |]; try (now split).
    rewrite handle_meta_states by exact HI.
    destruct (String.eqb_spec f (m_file_id m)) as [->|Hne]; [|now split].
    now destruct (Hg (m_file_id m) eq_refl eq_refl). }
  destruct (String.eqb kind "chunk").
  2:{ destruct (String.eqb kind "status"); now split. }
  destruct data as [|c| | | |]; try (now split).
  assert (Hne : f <> c_file_id c)
    by (intros ->; now destruct (Hg (c_file_id c) eq_refl eq_refl)).
  destruct (handle_chunk_summary config (in_time msg) c w HI) as (Hoth & Hfiles & _).
  split; [now apply Hoth | intros nm; now apply Hfiles].
Qed.

Lemma run_frame (config : MQTTConfig) (f : string) (msgs : list Inbound) :
  (forall msg data g, In msg msgs -> in_payload msg = Some data ->
                      payload_file_id data = Some g -> g <> f) ->
  forall w, Inv w ->
    let w1 := fst (run config msgs w) in
    states w1 f = states w f /\ forall nm, files w1 f nm = files w f nm.
Proof.
  induction msgs as [|m msgs IH]; intros Hmsgs w HI; simpl; [now split|].
  destruct (on_message_frame config m w f HI) as (H1 & H2).
  { intros data g. apply Hmsgs. now left. }
  specialize (IH (fun msg data g Hin => Hmsgs msg data g (or_intror Hin))
                 _ (on_message_Inv config m w HI)).
  destruct (run config msgs (world (_on_message config m w))) as [w' ps].
  cbn [fst] in *. destruct IH as (I1 & I2).
  split; [congruence | intros nm; rewrite I2; apply H2].
Qed.

(** X7: transfers do not touch each other.  Over any sequence of tame
    deliveries none of which carries a manifest or chunk payload for the
    plain file id [f], the [state.json] and the data files of [f] stay
    what they were. *)
Theorem other_transfers_untouched :
  forall (config : MQTTConfig) (f : string) (pre msgs : list Inbound),
    plain f = true ->
    forallb tame (pre ++ msgs) = true ->
    (forall msg data g, In msg msgs -> in_payload msg = Some data ->
                        payload_file_id data = Some g -> g <> f) ->
    let w0 := fst (run config pre empty_world) in
    let w1 := fst (run config msgs w0) in
    states w1 f = states w0 f /\ forall nm, files w1 f nm = files w0 f nm.
Proof.
  intros config f pre msgs Hf Htame Hmsgs w0 w1.
  apply run_frame; [exact Hmsgs | apply run_Inv, Inv_empty].
Qed.

Lemma other_transfers_untouched_witness :
  let f := "a.bin-2-01234567"%string in
  let pre := example_bus "ab" 1 in
  let msgs := example_bus "a" 1 in
  let w0 := fst (run example_config pre empty_world) in
  let w1 := fst (run example_config msgs w0) in
  plain f = true
  /\ forallb tame (pre ++ msgs) = true
  /\ states w1 f = states w0 f.
Proof.
  intros f pre msgs w0 w1.
  assert (Hf : plain f = true) by reflexivity.
  assert (Ht : forallb tame (pre ++ msgs) = true) by (vm_compute; reflexivity).
  split; [exact Hf|]. split; [exact Ht|].
  apply (other_transfers_untouched example_config f pre msgs Hf Ht).
  intros msg data g Hin Hp Hg.
  destruct Hin as [<-|[<-|[<-|[]]]]; injection Hp as <-; try discriminate Hg;
    injection Hg as <-; vm_compute; discriminate.
Defined.

Lemma emit_status_states (config : MQTTConfig) (fid : string) (w w' : World) :
  states w' = states w ->
  snd (_emit_status config fid w') = snd (_emit_status config fid w).
Proof.
  intros H. rewrite !emit_status_pubs.
  now rewrite (load_states fid w w') by (now rewrite H).
Qed.




(** Deliveries on the status topic of a plain file id, one after the
    other: each is answered with the same status emission, and the first
    makes the directory of the file id. *)
Lemma run_status_again (config : MQTTConfig) (fid : string) (data : Payload) (now : Z)
    (k : nat) :
  plain fid = true ->
  forall w,
    run config (repeat {| in_topic := status (mk_topics (TOPIC_PREFIX config) fid);
                          in_payload := Some data; in_time := now |} k) w
    = (if (k =? 0)%nat then w else _state_dir fid w,
       concat (repeat (status_pubs config fid (state_of fid w)) k)).
Proof.
  intros Hp. induction k as [|k IH]; intros w; [reflexivity|].
  cbn [repeat run concat Nat.eqb]. rewrite (surjective_pairing (run _ _ _)).
  rewrite (on_message_status_plain config (TOPIC_PREFIX config) fid data now w Hp).
  cbn [world pubs]. rewrite IH. cbn [fst snd]. rewrite state_of_state_dir.
  f_equal. destruct (k =? 0)%nat; [reflexivity | apply state_dir_again].
Qed.

(** X9: the receiver does not tell a status report from a status probe.
    After tame deliveries, delivered its own status publication for a
    plain file id, it emits the same status again; the first answer
    makes the directory of the file id if it is not there, and nothing
    else of the storage changes, so [k] such deliveries are answered by
    [k] further status emissions, none of them empty. *)
Theorem own_status_is_answered_again :
  forall (config : MQTTConfig) (fid : string) (now : Z) (pre : list Inbound) (k : nat),
    plain fid = true ->
    forallb tame pre = true ->
    let w := fst (run config pre empty_world) in
    let own := status_pub config fid (state_of fid w) in
    let answer := snd (_emit_status config fid w) in
    let result := run config (repeat (deliver now own) k) w in
    In own answer
    /\ result = (if (k =? 0)%nat then w else _state_dir fid w, concat (repeat answer k))
    /\ states (fst result) = states w
    /\ files (fst result) = files w
    /\ (In fid (dirs w) -> fst result = w).
Proof.
  intros config fid now pre k Hp Htame w own answer result.
  assert (Hrun : result = (if (k =? 0)%nat then w else _state_dir fid w,
                           concat (repeat answer k)))
    by (exact (run_status_again config fid (payload own) now k Hp w)).
  split.
  { subst answer. destruct (emit_status_cases config fid w) as [H0 H1].
    destruct (missing_of (state_of fid w)) eqn:E.
    - rewrite H0 by reflexivity. now left.
    - rewrite H1 by discriminate. now left. }
  split; [exact Hrun|]. rewrite Hrun. cbn [fst].
  split; [now destruct (k =? 0)%nat|]. split; [now destruct (k =? 0)%nat|].
  intros Hin. destruct (k =? 0)%nat; [reflexivity | now apply state_dir_made].
Qed.

Lemma own_status_witness :
  let fid := "a.bin-2-01234567"%string in
  let pre := firstn 1 (example_bus "ab" 1) in
  let w := fst (run example_config pre empty_world) in
  plain fid = true
  /\ forallb tame pre = true
  /\ run example_config
         (repeat (deliver 5 (status_pub example_config fid (state_of fid w))) 3) w
     = (w, concat (repeat (snd (_emit_status example_config fid w)) 3)).
Proof.
  intros fid pre w.
  assert (Hp : plain fid = true) by reflexivity.
  assert (Ht : forallb tame pre = true) by (vm_compute; reflexivity).
  split; [exact Hp|]. split; [exact Ht|].
  destruct (own_status_is_answered_again example_config fid 5 pre 3 Hp Ht)
    as (_ & H & _ & _ & Hw).
  refine (eq_trans H _). cbn [Nat.eqb]. f_equal.
Defined.

(* ================================================================== *)
(** ** Reassembly *)

Lemma nth_error_write_at (d : list byte) (off : nat) (blob : list byte) (p : nat) :
  blob <> [] ->
  nth_error (write_at d off blob) p
  = if (p <? off)%nat then (if (p <? length d)%nat then nth_error d p else Some x00)
    else if (p <? off + length blob)%nat then nth_error blob (p - off)
    else nth_error d p.
Proof.
  intros Hne. unfold write_at. destruct blob as [|b0 blob0]; [congruence|].
  cbn [is_empty]. set (blob := b0 :: blob0).
  assert (Hf : length (firstn off d) = Nat.min off (length d)) by apply length_firstn.
  destruct (Nat.ltb_spec p off) as [Hlt|Hge].
  - destruct (Nat.ltb_spec p (length d)) as [Hd|Hd].
    + rewrite nth_error_app1 by lia. rewrite nth_error_firstn.
      destruct (Nat.ltb_spec p off); [reflexivity | lia].
    + rewrite nth_error_app2 by lia. rewrite nth_error_app1 by (rewrite repeat_length; lia).
      apply nth_error_repeat. lia.
  - rewrite nth_error_app2 by lia.
    rewrite nth_error_app2 by (rewrite repeat_length; lia).
    rewrite repeat_length, Hf.
    replace (p - Nat.min off (length d) - (off - length d))%nat with (p - off)%nat by lia.
    destruct (Nat.ltb_spec p (off + length blob)) as [Hb|Hb].
    + now rewrite nth_error_app1 by lia.
    + rewrite nth_error_app2 by lia. rewrite nth_error_skipn. f_equal. lia.
Qed.

Lemma nth_error_source_chunk (n : nat) (content : list byte) (i k : nat) :
  nth_error (source_chunk n content i) k
  = if (k <? n)%nat then nth_error content (i * n + k) else None.
Proof. unfold source_chunk. now rewrite nth_error_firstn, nth_error_skipn. Qed.

Lemma div_bounds (n p : nat) : (1 <= n)%nat -> (p / n * n <= p < (p / n + 1) * n)%nat.
Proof.
  intros Hn. pose proof (Nat.div_mod_eq p n). pose proof (Nat.mod_upper_bound p n ltac:(lia)).
  nia.
Qed.

Lemma FileOK_nil (n : nat) (content : list byte) : FileOK n content [] [].
Proof.
  repeat split; simpl; [lia | intros p Hp; lia | intros i []].
Qed.

(** Writing chunk [i] of the source keeps the data file in step with it. *)
Lemma FileOK_write (n : nat) (content : list byte) (rcv rcv1 : list Z) (d : list byte)
    (i : nat) :
  (1 <= n)%nat -> (i * n < length content)%nat ->
  FileOK n content rcv d ->
  (forall z, In z rcv1 -> In z rcv \/ z = Z.of_nat i) ->
  FileOK n content rcv1 (write_at d (i * n) (source_chunk n content i)).
Proof.
  intros Hn Hi (Ha & Hb & Hc) Hrcv1.
  set (blob := source_chunk n content i).
  assert (Hbl : length blob = Nat.min n (length content - i * n))
    by apply source_chunk_length.
  assert (Hne : blob <> []) by (intros E; rewrite E in Hbl; simpl in Hbl; lia).
  assert (Hlen : length (write_at d (i * n) blob)
                 = Nat.max (length d) (i * n + length blob)).
  { rewrite length_write_at. destruct blob; [congruence | reflexivity]. }
  assert (Hend : (i * n + length blob = Nat.min ((i + 1) * n) (length content))%nat) by lia.
  split; [lia|]. split.
  - intros p Hp Hin. rewrite Hlen in Hp.
    pose proof (div_bounds n p Hn) as Hdiv.
    rewrite (nth_error_write_at d (i * n) blob p Hne).
    destruct (Nat.ltb_spec p (i * n)) as [Hlt|Hge].
    + assert (Hpi : (p / n <> i)%nat) by nia.
      destruct (Hrcv1 _ Hin) as [Hin'|Heq]; [|lia].
      destruct (Nat.ltb_spec p (length d)) as [Hd|Hd]; [now apply Hb|].
      specialize (Hc _ Hin'). lia.
    + destruct (Nat.ltb_spec p (i * n + length blob)) as [Hb1|Hb1].
      * unfold blob. rewrite nth_error_source_chunk.
        destruct (Nat.ltb_spec (p - i * n) n); [f_equal; lia | lia].
      * assert (Hpi : (p / n <> i)%nat) by nia.
        destruct (Hrcv1 _ Hin) as [Hin'|Heq]; [|lia].
        apply Hb; [lia | exact Hin'].
  - intros j Hj. rewrite Hlen. destruct (Hrcv1 _ Hj) as [Hin'|Heq].
    + specialize (Hc _ Hin'). lia.
    + apply Nat2Z.inj in Heq. subst j. lia.
Qed.

Lemma length_range (n : nat) : length (range (Z.of_nat n)) = n.
Proof. unfold range. now rewrite length_map, length_seq, Nat2Z.id. Qed.

(** Distinct indices below [total], [total] of them or more, are all of
    them. *)
Lemma received_covers (total : nat) (rcv : list Z) :
  NoDup rcv ->
  (forall z, In z rcv -> exists i, (i < total)%nat /\ z = Z.of_nat i) ->
  (total <= length rcv)%nat ->
  forall i, (i < total)%nat -> In (Z.of_nat i) rcv.
Proof.
  intros Hnd Hin Hlen i Hi.
  apply (@NoDup_length_incl _ rcv (range (Z.of_nat total)) Hnd).
  - now rewrite length_range.
  - intros z Hz. destruct (Hin z Hz) as (j & Hj & ->). apply In_range. lia.
  - apply In_range. lia.
Qed.

Lemma sorted_NoDup (l : list Z) : StronglySorted Z.lt l -> NoDup l.
Proof.
  induction 1 as [|a l Hs IH Hall]; constructor; [|exact IH].
  intros Hin. rewrite Forall_forall in Hall. specialize (Hall a Hin). lia.
Qed.

Lemma covering_length (total : nat) (rcv : list Z) :
  (forall i, (i < total)%nat -> In (Z.of_nat i) rcv) -> (total <= length rcv)%nat.
Proof.
  intros H. rewrite <- (length_range total).
  apply NoDup_incl_length.
  - apply sorted_NoDup. unfold range. apply seq_sorted.
  - intros z Hz. apply In_range in Hz.
    replace z with (Z.of_nat (Z.to_nat z)) by lia. apply H. lia.
Qed.

(** A data file in step with the source on every chunk is the source. *)
Lemma FileOK_complete (n : nat) (content : list byte) (rcv : list Z) (d : list byte) :
  (1 <= n)%nat -> content <> [] ->
  FileOK n content rcv d ->
  (forall i, (i < count_chunks n (length content))%nat -> In (Z.of_nat i) rcv) ->
  d = content.
Proof.
  intros Hn Hne (Ha & Hb & Hc) Hall.
  set (total := count_chunks n (length content)) in *.
  assert (Hlen0 : (1 <= length content)%nat) by (destruct content; simpl; [congruence | lia]).
  assert (Htot : (1 <= total)%nat).
  { destruct (count_chunks_bound n (length content) 0 Hn) as [_ H]. apply H. lia. }
  assert (Hfull : (length content <= total * n)%nat).
  { destruct (Nat.le_gt_cases (length content) (total * n)) as [H|H]; [exact H|].
    apply (count_chunks_bound n (length content) total Hn) in H. fold total in H. lia. }
  assert (Hd : length d = length content).
  { assert (Hlast : (total - 1 < total)%nat) by lia.
    specialize (Hc (total - 1)%nat (Hall _ Hlast)).
    replace (total - 1 + 1)%nat with total in Hc by lia. lia. }
  apply nth_error_ext. intros p.
  destruct (Nat.lt_ge_cases p (length content)) as [Hp|Hp].
  - apply Hb; [lia|]. apply Hall.
    apply (count_chunks_bound n (length content) (p / n) Hn).
    pose proof (div_bounds n p Hn). lia.
  - rewrite (proj2 (nth_error_None d p)) by lia.
    now rewrite (proj2 (nth_error_None content p)).
Qed.

Lemma completion_check_idle (config : MQTTConfig) (now : Z) (fid nm : string)
    (state : State) (w : World) (t : Z) :
  total_chunks state = Some t ->
  Z.of_nat (length (received state)) < t \/ complete state = true ->
  let r := completion_check config now fid nm state w in
  states (world r) = states w
  /\ files (world r) = files w
  /\ pubs r = (if Z.of_nat (length (received state)) mod 50 =? 0
               then status_pubs config fid (state_of fid w) else [])
  /\ outcome r = Returned.
Proof.
  intros Ht Hidle r. subst r. unfold completion_check. rewrite Ht.
  replace ((t <=? Z.of_nat (length (received state))) && negb (complete state))
    with false.
  - cbv zeta. destruct (_ =? 0); repeat split.
  - destruct Hidle as [Hlt| ->]; [|now rewrite andb_false_r].
    destruct (Z.leb_spec t (Z.of_nat (length (received state)))); [lia | reflexivity].
Qed.

Lemma completion_check_acks (config : MQTTConfig) (now : Z) (fid nm : string)
    (state : State) (w : World) (t : Z) (data : list byte) :
  file_id state = fid ->
  total_chunks state = Some t ->
  t <= Z.of_nat (length (received state)) ->
  complete state = false ->
  ack_sent state = false ->
  -1 <= or_int (chunk_size state) 1048576 <= max_read ->
  files w fid nm = Some data ->
  file_sha256 state = Some (SHA256.hexdigest data) ->
  let r := completion_check config now fid nm state w in
  state_of fid (world r) = set_ack_sent true (set_complete true state)
  /\ (forall g, g <> fid -> states (world r) g = states w g)
  /\ files (world r) = files w
  /\ pubs r = [ack_pub config now fid]
  /\ outcome r = Returned.
Proof.
  intros Hfid Ht Hle Hc Ha Hn Hdata Hsha r. subst r. unfold completion_check. rewrite Ht.
  replace ((t <=? Z.of_nat (length (received state))) && negb (complete state))
    with true
    by (rewrite Hc; destruct (Z.leb_spec t (Z.of_nat (length (received state))));
        [reflexivity | lia]).
  cbv zeta. set (w1 := fst (_data_path fid (Some nm) (_save_state (set_complete true state) w))).
  change (files w1 fid nm) with (files w fid nm). rewrite Hdata.
  destruct (hash_loop_spec (or_int (chunk_size (set_complete true state)) 1048576) data)
    as [[Hlt _]|[_ ->]];
    [apply or_int_nonzero; lia | cbn [chunk_size set_complete] in Hlt; lia |].
  cbn [file_sha256 set_complete]. rewrite Hsha. rewrite String.eqb_refl.
  cbn [negb]. rewrite andb_false_r.
  assert (HL : state_of fid w1 = set_complete true state).
  { subst w1 fid. exact (load_save (set_complete true state) w). }
  unfold _emit_ack. cbn [_load_state fst snd]. rewrite HL.
  cbn [ack_sent set_complete]. rewrite Ha. cbn [world pubs outcome fst snd].
  split.
  { subst fid. exact (load_save (set_ack_sent true (set_complete true state)) _). }
  split; [|now repeat split].
  intros g Hg. cbn [states _save_state file_id set_ack_sent set_complete _state_dir].
  subst w1. cbn [_data_path fst states _state_dir _save_state file_id set_complete].
  rewrite Hfid. now destruct (String.eqb_spec g fid).
Qed.

Lemma check_chunk_honest (m : Manifest) (content : list byte) (rcv : list Z) (cmp : bool)
    (i : nat) :
  describes m content ->
  (i < count_chunks (Z.to_nat (m_chunk_size m)) (length content))%nat ->
  check_chunk (tracking m rcv cmp) (Z.of_nat i)
              (source_chunk (Z.to_nat (m_chunk_size m)) content i)
  = CheckPassed.
Proof.
  intros (Hcs & Htot & Hfh & Hch) Hi. unfold check_chunk.
  cbn [chunk_sha256 tracking]. rewrite Hch.
  set (n := Z.to_nat (m_chunk_size m)) in *.
  set (total := count_chunks n (length content)) in *.
  set (hs := map _ (seq 0 total)).
  assert (Hlen : length hs = total) by (subst hs; now rewrite length_map, length_seq).
  rewrite Hlen.
  replace (is_empty hs) with false
    by (destruct hs; [simpl in Hlen; lia | reflexivity]).
  destruct (Z.ltb_spec (Z.of_nat i) (Z.of_nat total)); [|lia]. cbn [negb andb].
  rewrite py_index_nat. subst hs. rewrite nth_error_map, nth_error_seq.
  destruct (Nat.ltb_spec i total); [|lia]. cbn [option_map Nat.add].
  now rewrite String.eqb_refl, andb_false_r.
Qed.

Lemma load_save_tracking (m : Manifest) (rcv : list Z) (cmp : bool) (w : World) :
  state_of (m_file_id m) (_save_state (tracking m rcv cmp) w) = tracking m rcv cmp.
Proof. exact (load_save (tracking m rcv cmp) w). Qed.

(** One honest chunk: the index is recorded, the data file stays in step
    with the source, and the ack is published exactly when the last
    missing index arrives; short of that, a status is emitted when the
    number of recorded indices is a multiple of 50. *)
Lemma honest_chunk_step_pubs (config : MQTTConfig) (now : Z) (m : Manifest)
    (content : list byte) (c : ChunkMsg) (w : World) (acks : nat) :
  describes m content -> content <> [] ->
  Z.of_nat (length content) <= max_offset ->
  honest_chunk m content c ->
  Progress m content w acks ->
  let r := _handle_chunk config now c w in
  let s' := state_of (m_file_id m) (world r) in
  let k := Z.of_nat (length (received s')) in
  Progress m content (world r) (acks + count_acks (m_file_id m) (pubs r))
  /\ (forall z, In z (received s')
                <-> In z (received (state_of (m_file_id m) w)) \/ z = c_chunk_index c)
  /\ pubs r = (if negb (complete (state_of (m_file_id m) w)) && (m_total_chunks m <=? k)
               then [ack_pub config now (m_file_id m)]
               else if k mod 50 =? 0 then status_pubs config (m_file_id m) s'
                    else [])
  /\ (forall g, g <> m_file_id m -> states (world r) g = states w g).
Proof.
  intros Hdesc Hne Hmax (Hfid & i & Hi & Hidx & Hdata)
         (rcv & cmp & Hload & Hnd & Hrange & Hcmp & Hfile & Hacks) r s' k.
  pose proof Hdesc as (Hcs & Htot & Hfh & Hch).
  set (n := Z.to_nat (m_chunk_size m)) in *.
  set (total := count_chunks n (length content)) in *.
  set (fid := m_file_id m) in *. set (nm := m_name m) in *.
  assert (Hn : (1 <= n)%nat) by (subst n; lia).
  assert (Hin : (i * n < length content)%nat) by (apply count_chunks_bound; assumption).
  assert (Hoff : Z.of_nat i * m_chunk_size m = Z.of_nat (i * n)) by (subst n; lia).
  set (d := data_of w fid nm) in *.
  set (blob := source_chunk n content i) in *.
  set (d' := write_at d (i * n) blob).
  set (rcv1 := if mem (Z.of_nat i) rcv then rcv else rcv ++ [Z.of_nat i]).
  set (w0 := _state_dir fid (_state_dir fid w)).
  set (w2 := write_file fid nm d'
               (match files w fid nm with Some _ => w0 | None => write_file fid nm [] w0 end)).
  set (w3 := _save_state (tracking m rcv1 cmp) w2).
  assert (Hr : r = completion_check config now fid nm (tracking m rcv1 cmp) w3).
  { subst r. unfold _handle_chunk. cbn [_load_state _data_path fst snd].
    rewrite Hfid. fold fid. rewrite Hload.
    cbn [name tracking chunk_size received]. fold nm. cbv zeta.
    rewrite Hidx, Hdata. fold n blob.
    replace (or_int (Some (m_chunk_size m)) (Z.of_nat (length blob)))
      with (m_chunk_size m)
      by (unfold or_int; destruct (Z.eqb_spec (m_chunk_size m) 0); [lia | reflexivity]).
    rewrite Hoff, Nat2Z.id.
    destruct (Z.ltb_spec (Z.of_nat (i * n)) 0); [lia|].
    destruct (Z.ltb_spec max_offset (Z.of_nat (i * n))); [lia|].
    fold (tracking m rcv cmp). subst blob n total.
    rewrite (check_chunk_honest m content rcv cmp i Hdesc Hi).
    fold w0. change (files w0) with (files w).
    fold (data_of w fid nm). fold d.
    replace (if mem (Z.of_nat i) rcv then tracking m rcv cmp
             else set_received (rcv ++ [Z.of_nat i]) (tracking m rcv cmp))
      with (tracking m rcv1 cmp)
      by (subst rcv1; destruct (mem (Z.of_nat i) rcv); reflexivity).
    reflexivity. }
  assert (Hnd1 : NoDup rcv1).
  { subst rcv1. destruct (mem (Z.of_nat i) rcv) eqn:Hm; [exact Hnd|].
    now apply NoDup_snoc. }
  assert (Hin1 : forall z, In z rcv1 <-> In z rcv \/ z = Z.of_nat i).
  { intros z. subst rcv1. destruct (mem (Z.of_nat i) rcv) eqn:Hm.
    - apply mem_In in Hm. split; [tauto | intros [H| ->]; assumption].
    - rewrite in_app_iff. cbn [In]. split; [intros [H|[H|[]]]; auto | intros [H|H]; auto]. }
  assert (Hrange1 : forall z, In z rcv1 -> exists j, (j < total)%nat /\ z = Z.of_nat j).
  { intros z Hz. apply Hin1 in Hz as [Hz| ->]; [now apply Hrange | now exists i]. }
  assert (Hfile1 : FileOK n content rcv1 d').
  { apply (FileOK_write n content rcv rcv1 d i Hn Hin Hfile). intros z. apply Hin1. }
  assert (Hlen1 : (length rcv <= length rcv1)%nat).
  { subst rcv1. destruct (mem (Z.of_nat i) rcv); [lia|]. rewrite length_app. simpl. lia. }
  assert (Hdata3 : files w3 fid nm = Some d')
    by (subst w3 w2; cbn [files write_file _save_state]; now rewrite !String.eqb_refl).
  assert (Hload3 : state_of fid w3 = tracking m rcv1 cmp)
    by (apply load_save_tracking).
  assert (Hoth3 : forall g, g <> fid -> states w3 g = states w g).
  { intros g Hg. subst w3. cbn [states _save_state file_id tracking]. fold fid.
    destruct (String.eqb_spec g fid); [contradiction|].
    subst w2. now destruct (files w fid nm). }
  assert (Hidle_or : (cmp = true \/ (length rcv1 < total)%nat)
                     \/ (cmp = false /\ (total <= length rcv1)%nat)).
  { destruct cmp; [left; now left|].
    destruct (Nat.lt_ge_cases (length rcv1) total); [left; now right | right; now split]. }
  destruct Hidle_or as [Hidle|[Hcf Hfull]].
  - (* no completion *)
    destruct (completion_check_idle config now fid nm (tracking m rcv1 cmp) w3
                (Z.of_nat total)) as (Hs & Hf & Hp & _).
    { cbn [total_chunks tracking]. now rewrite Htot. }
    { cbn [received complete tracking]. destruct Hidle as [->|Hlt]; [now right | left; lia]. }
    rewrite <- Hr in Hs, Hf, Hp. cbn [received tracking] in Hp.
    assert (Hna : no_ack (pubs r))
      by (rewrite Hp; destruct (_ =? 0); [apply status_pubs_no_ack | apply no_ack_nil]).
    assert (Hs' : s' = tracking m rcv1 cmp)
      by (subst s'; rewrite (load_states fid w3 (world r)) by (now rewrite Hs);
          exact Hload3).
    subst k. rewrite (no_ack_count _ _ Hna), Nat.add_0_r.
    rewrite Hs', Hload. cbn [received complete tracking].
    rewrite Hidx. split; [|split; [exact Hin1|split]].
    2: { rewrite Hp, Hload3, Htot.
         replace (negb cmp && (Z.of_nat total <=? Z.of_nat (length rcv1))) with false;
           [reflexivity|].
         destruct Hidle as [->|Hlt]; [reflexivity|].
         destruct (Z.leb_spec (Z.of_nat total) (Z.of_nat (length rcv1))); [lia|].
         now rewrite andb_false_r. }
    2: { intros g Hg. rewrite Hs. now apply Hoth3. }
    exists rcv1, cmp. fold n total fid nm. split; [exact Hs'|].
    split; [exact Hnd1|]. split; [exact Hrange1|]. split.
    { destruct Hidle as [->|Hlt].
      - split; [intros _|reflexivity]. pose proof (proj1 Hcmp eq_refl). lia.
      - split; [|intros; lia]. intros ->. pose proof (proj1 Hcmp eq_refl). lia. }
    split; [|exact Hacks].
    unfold data_of. rewrite Hf. now rewrite Hdata3.
  - (* the last missing index: verification and ack *)
    subst cmp.
    assert (Hall : forall j, (j < total)%nat -> In (Z.of_nat j) rcv1)
      by (now apply received_covers).
    assert (Hd' : d' = content) by (now apply (FileOK_complete n content rcv1 d' Hn Hne)).
    destruct (completion_check_acks config now fid nm (tracking m rcv1 false) w3
                (Z.of_nat total) d') as (Hs & Ho & Hf & Hp & _).
    { reflexivity. }
    { cbn [total_chunks tracking]. now rewrite Htot. }
    { cbn [received tracking]. lia. }
    { reflexivity. }
    { reflexivity. }
    { cbn [chunk_size tracking]. unfold or_int. pose proof max_chunk_read.
      destruct (Z.eqb_spec (m_chunk_size m) 0); lia. }
    { exact Hdata3. }
    { cbn [file_sha256 tracking]. now rewrite Hfh, Hd'. }
    rewrite <- Hr in Hs, Ho, Hf, Hp.
    change (set_ack_sent true (set_complete true (tracking m rcv1 false)))
      with (tracking m rcv1 true) in Hs.
    fold s' in Hs.
    subst k. rewrite Hp, Hs.
    rewrite count_acks_ack_pub, String.eqb_refl.
    rewrite Hload. cbn [received complete tracking].
    rewrite Hidx. split; [|split; [exact Hin1|split]].
    2: { rewrite Htot.
         destruct (Z.leb_spec (Z.of_nat total) (Z.of_nat (length rcv1))); [reflexivity | lia]. }
    2: { intros g Hg. rewrite Ho by exact Hg. now apply Hoth3. }
    exists rcv1, true. fold n total fid nm. split; [exact Hs|].
    split; [exact Hnd1|]. split; [exact Hrange1|].
    split; [split; [intros _; exact Hfull | reflexivity]|].
    split; [|rewrite Hacks; reflexivity].
    unfold data_of. rewrite Hf. now rewrite Hdata3.
Qed.

Lemma honest_chunk_step (config : MQTTConfig) (now : Z) (m : Manifest)
    (content : list byte) (c : ChunkMsg) (w : World) (acks : nat) :
  describes m content -> content <> [] ->
  Z.of_nat (length content) <= max_offset ->
  honest_chunk m content c ->
  Progress m content w acks ->
  let r := _handle_chunk config now c w in
  Progress m content (world r) (acks + count_acks (m_file_id m) (pubs r))
  /\ (forall z, In z (received (state_of (m_file_id m) (world r)))
                <-> In z (received (state_of (m_file_id m) w)) \/ z = c_chunk_index c).
Proof.
  intros Hdesc Hne Hmax Hc Hp r.
  destruct (honest_chunk_step_pubs config now m content c w acks Hdesc Hne Hmax Hc Hp)
    as (H1 & H2 & _).
  now split.
Qed.

Lemma on_message_chunk (config : MQTTConfig) (b : string) (c : ChunkMsg) (now : Z)
    (w : World) :
  _on_message config
    {| in_topic := b ++ "/chunk"; in_payload := Some (PChunk c); in_time := now |} w
  = _handle_chunk config now c w.
Proof.
  unfold _on_message. cbn [in_payload in_topic in_time].
  destruct (topic_parts b "chunk" eq_refl) as [H1 [g H2]].
  change (b ++ "/chunk")%string with (b ++ String "/" "chunk")%string.
  now rewrite H1, H2.
Qed.

Lemma on_message_chunk_delivery (config : MQTTConfig) (prefix : string) (now : Z)
    (c : ChunkMsg) (w : World) :
  _on_message config (chunk_delivery prefix now c) w = _handle_chunk config now c w.
Proof. exact (on_message_chunk config _ c now w). Qed.

Lemma on_message_meta_delivery (config : MQTTConfig) (prefix : string) (now : Z)
    (m : Manifest) (w : World) :
  _on_message config (meta_delivery prefix now m) w = _handle_meta config m w.
Proof. exact (on_message_meta config _ m now w). Qed.

Lemma count_chunks_pos (n : nat) (content : list byte) :
  (1 <= n)%nat -> content <> [] -> (1 <= count_chunks n (length content))%nat.
Proof.
  intros Hn Hne.
  destruct (count_chunks_bound n (length content) 0 Hn) as [_ H].
  destruct content; [congruence|]. simpl length in *. apply H. lia.
Qed.

Lemma handle_meta_fresh (config : MQTTConfig) (m : Manifest) (w0 : World) :
  states w0 (m_file_id m) = None ->
  state_of (m_file_id m) (world (_handle_meta config m w0)) = tracking m [] false.
Proof.
  intros Hst. unfold _handle_meta. cbn [world]. rewrite state_of_emit_status.
  cbn [_load_state fst snd]. unfold state_of at 2. rewrite Hst.
  exact (load_save (tracking m [] false) (_state_dir (m_file_id m) w0)).
Qed.

(** Storages that hold the same files are at the same point of a
    transfer. *)
Lemma Progress_same (m : Manifest) (content : list byte) (w w' : World) (acks : nat) :
  states w' = states w -> files w' = files w ->
  Progress m content w acks -> Progress m content w' acks.
Proof.
  intros Hs Hf (rcv & cmp & Hload & Hrest). exists rcv, cmp.
  unfold state_of, data_of in *. rewrite Hs, Hf. now split.
Qed.

(** The manifest of a fresh transfer starts the bookkeeping. *)
Lemma handle_meta_Progress (config : MQTTConfig) (m : Manifest) (content : list byte)
    (w0 : World) :
  describes m content -> content <> [] ->
  states w0 (m_file_id m) = None ->
  files w0 (m_file_id m) (m_name m) = None ->
  let r := _handle_meta config m w0 in
  Progress m content (world r) (count_acks (m_file_id m) (pubs r)).
Proof.
  intros Hdesc Hne Hst Hfi r. pose proof Hdesc as (Hcs & _).
  exists [], false. subst r. rewrite handle_meta_pubs.
  rewrite (no_ack_count _ _ (status_pubs_no_ack _ _ _)).
  split; [now apply handle_meta_fresh|].
  split; [constructor|]. split; [intros z []|]. split.
  { split; [discriminate|]. intros H. simpl in H.
    pose proof (count_chunks_pos (Z.to_nat (m_chunk_size m)) content ltac:(lia) Hne). lia. }
  split; [|reflexivity].
  unfold data_of. rewrite handle_meta_files, Hfi. apply FileOK_nil.
Qed.

(** The manifest once more changes nothing of the bookkeeping. *)
Lemma meta_again_step (config : MQTTConfig) (m : Manifest) (content : list byte)
    (w : World) (acks : nat) :
  Progress m content w acks ->
  let r := _handle_meta config m w in
  Progress m content (world r) (acks + count_acks (m_file_id m) (pubs r))
  /\ received (state_of (m_file_id m) (world r)) = received (state_of (m_file_id m) w).
Proof.
  intros (rcv & cmp & Hload & Hnd & Hrange & Hcmp & Hfile & Hacks) r.
  assert (Hs : state_of (m_file_id m) (world r) = tracking m rcv cmp).
  { subst r. unfold _handle_meta. cbn [world]. rewrite state_of_emit_status.
    cbn [_load_state fst snd]. rewrite Hload.
    change (update_meta m (tracking m rcv cmp)) with (tracking m rcv cmp).
    apply load_save_tracking. }
  subst r. rewrite handle_meta_pubs.
  rewrite (no_ack_count _ _ (status_pubs_no_ack _ _ _)), Nat.add_0_r.
  rewrite Hs, Hload. split; [|reflexivity].
  exists rcv, cmp. split; [exact Hs|].
  split; [exact Hnd|]. split; [exact Hrange|]. split; [exact Hcmp|].
  split; [exact Hfile | exact Hacks].
Qed.

(** A delivery on the status, ack or retry topic leaves every file alone
    and is answered by no ack. *)
Lemma feedback_step (config : MQTTConfig) (prefix fid tp : string)
    (data : option Payload) (t : Z) (w : World) :
  In tp [status (mk_topics prefix fid); ack (mk_topics prefix fid);
         retry (mk_topics prefix fid)] ->
  let r := _on_message config {| in_topic := tp; in_payload := data; in_time := t |} w in
  states (world r) = states w /\ files (world r) = files w /\ no_ack (pubs r).
Proof.
  intros Htp r. subst r. destruct data as [data|].
  2:{ split; [reflexivity|]. split; [reflexivity | apply no_ack_nil]. }
  destruct Htp as [<-|[<-|[<-|[]]]].
  - rewrite on_message_status_topic.
    split; [reflexivity|]. split; [reflexivity | apply emit_status_no_ack].
  - pose proof (on_message_kind config prefix fid "ack" data t w eq_refl) as H.
    change (_on_message config
              {| in_topic := ack (mk_topics prefix fid); in_payload := Some data;
                 in_time := t |} w
            = {| world := w; pubs := []; outcome := Returned |}) in H.
    rewrite H. split; [reflexivity|]. split; [reflexivity | apply no_ack_nil].
  - pose proof (on_message_kind config prefix fid "retry" data t w eq_refl) as H.
    change (_on_message config
              {| in_topic := retry (mk_topics prefix fid); in_payload := Some data;
                 in_time := t |} w
            = {| world := w; pubs := []; outcome := Returned |}) in H.
    rewrite H. split; [reflexivity|]. split; [reflexivity | apply no_ack_nil].
Qed.

(** One delivery of a transfer: the bookkeeping is kept, and [received]
    gains exactly the index of a chunk payload. *)
Lemma transfer_step (config : MQTTConfig) (prefix : string) (m : Manifest)
    (content : list byte) (msg : Inbound) (w : World) (acks : nat) :
  describes m content -> content <> [] ->
  Z.of_nat (length content) <= max_offset ->
  transfer_delivery prefix m content msg ->
  Inv w ->
  Progress m content w acks ->
  let r := _on_message config msg w in
  Progress m content (world r) (acks + count_acks (m_file_id m) (pubs r))
  /\ (forall z, In z (received (state_of (m_file_id m) (world r)))
                <-> In z (received (state_of (m_file_id m) w))
                    \/ In z (chunk_indices (m_file_id m) [msg])).
Proof.
  intros Hdesc Hne Hmax Hmsg HI Hp r. subst r.
  destruct Hmsg as [t|t c Hc|t tp data Htp Hnc|msg Htame Hfor].
  - rewrite on_message_meta_delivery.
    destruct (meta_again_step config m content w acks Hp) as [Hp' Hr].
    split; [exact Hp'|]. intros z. rewrite Hr. cbn. tauto.
  - rewrite on_message_chunk_delivery.
    destruct (honest_chunk_step config t m content c w acks Hdesc Hne Hmax Hc Hp)
      as [Hp' Hin].
    split; [exact Hp'|]. intros z. rewrite Hin.
    unfold chunk_indices. cbn [flat_map in_payload chunk_delivery].
    rewrite (proj1 Hc), String.eqb_refl. cbn. intuition.
  - destruct (feedback_step config prefix (m_file_id m) tp data t w Htp)
      as (Hs & Hf & Hna).
    cbv zeta in Hs, Hf, Hna. rewrite (no_ack_count _ _ Hna), Nat.add_0_r.
    rewrite (load_states (m_file_id m) w _) by (now rewrite Hs).
    split; [now apply (Progress_same m content w)|].
    intros z. unfold chunk_indices. cbn [flat_map in_payload].
    destruct data as [[| c | | | |]|]; cbn; try tauto.
    now destruct (Hnc c).
  - destruct (on_message_frame config msg w (m_file_id m) HI Hfor) as [Hst Hfi].
    set (r := _on_message config msg w) in *.
    assert (Hload : state_of (m_file_id m) (world r) = state_of (m_file_id m) w)
      by (now apply load_states).
    assert (Hacks : count_acks (m_file_id m) (pubs r) = 0%nat).
    { destruct (on_message_acks config msg w (m_file_id m) HI) as (_ & H2 & H3).
      fold r in H2, H3.
      destruct (Nat.eq_dec (count_acks (m_file_id m) (pubs r)) 0) as [H0|H0]; [exact H0|].
      destruct (H3 H0) as (_ & Ha & _). rewrite Hload in Ha. now destruct (H2 Ha). }
    rewrite Hacks, Nat.add_0_r, Hload. split.
    + destruct Hp as (rcv & cmp & Hl & Hnd & Hrange & Hcmp & Hfile & Ha).
      exists rcv, cmp. rewrite Hload.
      split; [exact Hl|]. split; [exact Hnd|]. split; [exact Hrange|].
      split; [exact Hcmp|]. split; [|exact Ha].
      unfold data_of. rewrite Hfi. exact Hfile.
    + intros z. unfold chunk_indices. cbn [flat_map].
      destruct (in_payload msg) as [[| c | | | |]|] eqn:E; cbn; try tauto.
      destruct (String.eqb_spec (c_file_id c) (m_file_id m)) as [Hc|Hc]; cbn; [|tauto].
      now destruct (Hfor (PChunk c) (c_file_id c) eq_refl eq_refl).
Qed.

Lemma chunk_indices_cons (f : string) (msg : Inbound) (msgs : list Inbound) :
  chunk_indices f (msg :: msgs) = chunk_indices f [msg] ++ chunk_indices f msgs.
Proof. unfold chunk_indices. cbn [flat_map]. now rewrite app_nil_r. Qed.

(** Any deliveries of a transfer, in any order: the bookkeeping is kept and
    [received] gains exactly the indices of the chunks delivered. *)
Lemma transfer_run (config : MQTTConfig) (prefix : string) (m : Manifest)
    (content : list byte) (msgs : list Inbound) :
  describes m content -> content <> [] ->
  Z.of_nat (length content) <= max_offset ->
  Forall (transfer_delivery prefix m content) msgs ->
  forall (w : World) (acks : nat),
    Inv w ->
    Progress m content w acks ->
    let r := run config msgs w in
    Progress m content (fst r) (acks + count_acks (m_file_id m) (snd r))
    /\ (forall z, In z (received (state_of (m_file_id m) (fst r)))
                  <-> In z (received (state_of (m_file_id m) w))
                      \/ In z (chunk_indices (m_file_id m) msgs)).
Proof.
  intros Hdesc Hne Hmax Hall. induction Hall as [|msg msgs Hmsg _ IH]; intros w acks HI Hp.
  - simpl. rewrite Nat.add_0_r. split; [exact Hp | tauto].
  - cbn [run].
    destruct (transfer_step config prefix m content msg w acks Hdesc Hne Hmax Hmsg HI Hp)
      as (Hp1 & Hin1).
    pose proof (on_message_Inv config msg w HI) as HI1.
    set (r1 := _on_message config msg w) in *.
    specialize (IH (world r1) _ HI1 Hp1).
    destruct (run config msgs (world r1)) as [w' ps] eqn:Hrun.
    cbn [fst snd] in *. destruct IH as (Hp2 & Hin2).
    rewrite count_acks_app, Nat.add_assoc.
    split; [exact Hp2|].
    intros z. rewrite Hin2, Hin1, (chunk_indices_cons _ msg msgs), in_app_iff. tauto.
Qed.

(** The receiver's record after the manifest of a fresh transfer and any
    deliveries of that transfer. *)
Lemma transfer_state (config : MQTTConfig) (prefix : string) (now : Z)
    (m : Manifest) (content : list byte) (msgs : list Inbound) (w0 : World) :
  describes m content -> content <> [] ->
  Z.of_nat (length content) <= max_offset ->
  Inv w0 ->
  states w0 (m_file_id m) = None ->
  files w0 (m_file_id m) (m_name m) = None ->
  Forall (transfer_delivery prefix m content) msgs ->
  let r := run config (meta_delivery prefix now m :: msgs) w0 in
  Progress m content (fst r) (count_acks (m_file_id m) (snd r))
  /\ (forall z, In z (received (state_of (m_file_id m) (fst r)))
                <-> In z (chunk_indices (m_file_id m) msgs)).
Proof.
  intros Hdesc Hne Hmax HI Hst Hfi Hall r. subst r. cbn [run].
  pose proof (on_message_Inv config (meta_delivery prefix now m) w0 HI) as HI0.
  rewrite on_message_meta_delivery in HI0 |- *.
  pose proof (handle_meta_Progress config m content w0 Hdesc Hne Hst Hfi) as Hp0.
  cbv zeta in Hp0. set (r0 := _handle_meta config m w0) in *.
  assert (Hr0 : received (state_of (m_file_id m) (world r0)) = [])
    by (subst r0; now rewrite handle_meta_fresh).
  destruct (transfer_run config prefix m content msgs Hdesc Hne Hmax Hall (world r0) _
              HI0 Hp0)
    as (Hp & Hin).
  destruct (run config msgs (world r0)) as [w' ps].
  cbn [fst snd] in *. rewrite count_acks_app. split; [exact Hp|].
  intros z. rewrite Hin, Hr0. cbn [In]. tauto.
Qed.

(** What the bookkeeping says once every index has been recorded. *)
Lemma Progress_complete (m : Manifest) (content : list byte) (w : World) (acks : nat) :
  describes m content -> content <> [] ->
  Progress m content w acks ->
  (forall i, (i < count_chunks (Z.to_nat (m_chunk_size m)) (length content))%nat ->
             In (Z.of_nat i) (received (state_of (m_file_id m) w))) ->
  let state := state_of (m_file_id m) w in
  files w (m_file_id m) (m_name m) = Some content
  /\ complete state = true /\ ack_sent state = true
  /\ acks = 1%nat
  /\ NoDup (received state)
  /\ (forall z, In z (received state) <-> 0 <= z < m_total_chunks m).
Proof.
  intros Hdesc Hne (rcv & cmp & Hload & Hnd & Hrange & Hcmp & Hfile & Hacks) Hcov state.
  pose proof Hdesc as (Hcs & Htot & _).
  subst state. rewrite Hload in *. cbn [received complete ack_sent tracking] in *.
  set (n := Z.to_nat (m_chunk_size m)) in *.
  set (total := count_chunks n (length content)) in *.
  assert (Hn : (1 <= n)%nat) by (subst n; lia).
  assert (Hc : cmp = true) by (apply Hcmp, covering_length, Hcov).
  subst cmp.
  assert (Hd : data_of w (m_file_id m) (m_name m) = content)
    by (now apply (FileOK_complete n content rcv _ Hn Hne Hfile)).
  split.
  { unfold data_of in Hd. destruct (files w (m_file_id m) (m_name m)); congruence. }
  split; [reflexivity|]. split; [reflexivity|]. split; [exact Hacks|].
  split; [exact Hnd|]. intros z. rewrite Htot. split.
  - intros Hz. destruct (Hrange z Hz) as (i & Hi & ->). lia.
  - intros Hz. replace z with (Z.of_nat (Z.to_nat z)) by lia. apply Hcov. lia.
Qed.

(** The manifest of a fresh transfer and then deliveries of the transfer
    whose chunks cover every index: the file is rebuilt and acknowledged
    once. *)
Lemma reassembly (config : MQTTConfig) (prefix : string) (now : Z) (m : Manifest)
    (content : list byte) (msgs : list Inbound) (w0 : World) :
  describes m content ->
  content <> [] ->
  Z.of_nat (length content) <= max_offset ->
  Inv w0 ->
  states w0 (m_file_id m) = None ->
  files w0 (m_file_id m) (m_name m) = None ->
  Forall (transfer_delivery prefix m content) msgs ->
  (forall i, (i < count_chunks (Z.to_nat (m_chunk_size m)) (length content))%nat ->
             In (Z.of_nat i) (chunk_indices (m_file_id m) msgs)) ->
  let r := run config (meta_delivery prefix now m :: msgs) w0 in
  let state := state_of (m_file_id m) (fst r) in
  files (fst r) (m_file_id m) (m_name m) = Some content
  /\ complete state = true /\ ack_sent state = true
  /\ count_acks (m_file_id m) (snd r) = 1%nat
  /\ NoDup (received state)
  /\ (forall z, In z (received state) <-> 0 <= z < m_total_chunks m).
Proof.
  intros Hdesc Hne Hmax HI Hst Hfi Hall Hcov r state.
  destruct (transfer_state config prefix now m content msgs w0 Hdesc Hne Hmax HI Hst Hfi Hall)
    as (Hp & Hin).
  fold r in Hp, Hin.
  apply (Progress_complete m content (fst r) _ Hdesc Hne Hp).
  intros i Hi. apply Hin. now apply Hcov.
Qed.

Lemma sender_manifest_describes (env : SenderEnv) (file_path : string) (cs : Z)
    (content : list byte) :
  1 <= cs <= max_chunk -> describes (sender_manifest env file_path cs content) content.
Proof.
  intros Hcs. unfold describes. cbn [m_chunk_size m_total_chunks m_file_sha256
                                     m_chunk_sha256 sender_manifest].
  split; [exact Hcs|]. split; [apply total_chunks_count; lia|]. split; reflexivity.
Qed.

(** A delivery of a transfer whose manifest is well named is tame. *)
Lemma transfer_delivery_tame (prefix : string) (m : Manifest) (content : list byte)
    (msg : Inbound) :
  well_named m = true -> transfer_delivery prefix m content msg -> tame msg = true.
Proof.
  intros Hm Hmsg.
  assert (Hp : plain (m_file_id m) = true)
    by (unfold well_named in Hm; apply andb_prop in Hm as [Hm _];
        apply andb_prop in Hm as [Hm _]; exact Hm).
  assert (Hkind : forall fid kind data t,
            has_char "/" kind = false ->
            tame {| in_topic := (prefix ++ "/file/" ++ fid) ++ String "/" kind;
                    in_payload := Some data; in_time := t |}
            = if String.eqb kind "meta" then
                match data with
                | PManifest m0 => well_named m0
                | _ => match payload_file_id data with
                       | Some g => plain g
                       | None => true
                       end
                end
              else if String.eqb kind "chunk" then
                match data with PChunk c => plain (c_file_id c) | _ => true end
              else if String.eqb kind "status" then plain (basename fid)
              else true).
  { intros fid kind data t Hk. unfold tame. cbn [in_payload in_topic].
    destruct (topic_kind_and_id prefix fid kind Hk) as [H1 H2]. now rewrite H1, H2. }
  destruct Hmsg as [t|t c Hc|t tp data Htp Hnc|msg Htame Hfor].
  - exact (eq_trans (Hkind (m_file_id m) "meta"%string (PManifest m) t eq_refl) Hm).
  - refine (eq_trans (Hkind (c_file_id c) "chunk"%string (PChunk c) t eq_refl) _).
    cbn. now rewrite (proj1 Hc).
  - destruct data as [data|]; [|reflexivity].
    destruct Htp as [<-|[<-|[<-|[]]]].
    + refine (eq_trans (Hkind (m_file_id m) "status"%string data t eq_refl) _).
      cbn. now rewrite (basename_id _ (plain_no_slash _ Hp)).
    + exact (Hkind (m_file_id m) "ack"%string data t eq_refl).
    + exact (Hkind (m_file_id m) "retry"%string data t eq_refl).
  - exact Htame.
Qed.

(** The example deliveries belong to the example transfer. *)
Lemma example_shuffled_transfer :
  Forall (transfer_delivery "orca/iot" example_manifest (bytes_of "hello")) example_shuffled.
Proof.
  assert (Hpiece : forall t (i : nat) d,
            (i < 3)%nat ->
            bytes_of d = source_chunk 2 (bytes_of "hello") i ->
            transfer_delivery "orca/iot" example_manifest (bytes_of "hello")
              (example_piece t (Z.of_nat i) d)).
  { intros t i d Hi Hd. apply td_chunk. split; [reflexivity|]. exists i.
    split; [exact Hi | split; [reflexivity | exact Hd]]. }
  unfold example_shuffled. repeat apply Forall_cons; try apply Forall_nil.
  - apply (Hpiece 1 2%nat); [lia | reflexivity].
  - apply (Hpiece 2 0%nat); [lia | reflexivity].
  - apply td_meta.
  - apply (Hpiece 4 2%nat); [lia | reflexivity].
  - apply td_feedback; [now left | discriminate].
  - apply td_foreign; [reflexivity|].
    intros data g Hd Hg. injection Hd as <-. injection Hg as <-. discriminate.
  - apply (Hpiece 6 1%nat); [lia | reflexivity].
  - apply td_feedback; [right; now left | discriminate].
Qed.

Lemma Forall_firstn {A : Type} (P : A -> Prop) (k : nat) (l : list A) :
  Forall P l -> Forall P (firstn k l).
Proof.
  intros H. revert k. induction H as [|x l Hx _ IH]; intros [|k]; simpl;
    try constructor; auto.
Qed.

(** X10: a receiver whose storage, left by earlier tame deliveries, has
    no trace of a transfer is delivered the well-named manifest of a
    non-empty file (its [chunk_size] from 1 to [max_chunk]) and
    then, in any order and any number of times, honest chunks of it, the
    manifest again, status probes, its own publications on their way back
    and any tame messages of other transfers; every chunk index arrives
    at least once.  The data file then holds the file, the transfer is
    complete, each index is recorded exactly once, and exactly one ack has
    been published for it. *)
Theorem receiver_reassembles_any_order :
  forall (config : MQTTConfig) (prefix : string) (now : Z) (m : Manifest)
         (content : list byte) (pre msgs : list Inbound),
    describes m content ->
    content <> [] ->
    Z.of_nat (length content) <= max_offset ->
    well_named m = true ->
    forallb tame pre = true ->
    let w0 := fst (run config pre empty_world) in
    states w0 (m_file_id m) = None ->
    files w0 (m_file_id m) (m_name m) = None ->
    Forall (transfer_delivery prefix m content) msgs ->
    (forall i, (i < count_chunks (Z.to_nat (m_chunk_size m)) (length content))%nat ->
               In (Z.of_nat i) (chunk_indices (m_file_id m) msgs)) ->
    let r := run config (meta_delivery prefix now m :: msgs) w0 in
    let state := state_of (m_file_id m) (fst r) in
    files (fst r) (m_file_id m) (m_name m) = Some content
    /\ complete state = true /\ ack_sent state = true
    /\ count_acks (m_file_id m) (snd r) = 1%nat
    /\ NoDup (received state)
    /\ (forall z, In z (received state) <-> 0 <= z < m_total_chunks m).
Proof.
  intros config prefix now m content pre msgs Hdesc Hne Hmax _ _ w0 Hst Hfi Hall Hcov.
  assert (HI : Inv w0) by (apply run_Inv, Inv_empty).
  exact (reassembly config prefix now m content msgs w0 Hdesc Hne Hmax HI Hst Hfi Hall Hcov).
Qed.

Lemma receiver_reassembles_witness :
  let m := example_manifest in
  let w0 := fst (run example_config (example_bus "ab" 1) empty_world) in
  let r := run example_config (meta_delivery "orca/iot" 0 m :: example_shuffled) w0 in
  files (fst r) (m_file_id m) (m_name m) = Some (bytes_of "hello")
  /\ complete (state_of (m_file_id m) (fst r)) = true
  /\ count_acks (m_file_id m) (snd r) = 1%nat.
Proof.
  intros m w0 r.
  destruct (receiver_reassembles_any_order example_config "orca/iot" 0 m (bytes_of "hello")
              (example_bus "ab" 1) example_shuffled)
    as (H1 & H2 & _ & H4 & _).
  - apply sender_manifest_describes. unfold max_chunk. lia.
  - discriminate.
  - vm_compute. discriminate.
  - reflexivity.
  - vm_compute. reflexivity.
  - reflexivity.
  - reflexivity.
  - exact example_shuffled_transfer.
  - intros i Hi.
    assert (Hi' : (i < 3)%nat) by exact Hi.
    destruct i as [|[|[|i]]]; [right; left | right; right; right; left | left |];
      try reflexivity. lia.
  - split; [exact H1 | split; [exact H2 | exact H4]].
Defined.

(** X11: a non-empty file sent over a connected bus with a chunk size
    from 1 to [max_chunk], its manifest well named (the generated
    file id and the base name plain, the base name not [state.json]), and
    delivered, in the order published, to a receiver whose storage, left
    by earlier tame deliveries, has no trace of the transfer: [send_file]
    returns the file id, and the receiver ends with the file's bytes
    under the sender's base name in the directory of that file id, the
    transfer complete, and exactly one ack published for it. *)
Theorem sent_file_is_rebuilt_and_acked :
  forall (config : MQTTConfig) (env : SenderEnv) (file_path : string) (cs : Z)
         (qos_arg : option Z) (content : list byte) (now : Z) (pre : list Inbound),
    fs env file_path = Some content ->
    1 <= cs <= max_chunk ->
    is_connected env || connect_result env = true ->
    content <> [] ->
    Z.of_nat (length content) <= max_offset ->
    well_named (sender_manifest env file_path cs content) = true ->
    forallb tame pre = true ->
    let fid := generate_file_id env file_path content in
    let w0 := fst (run config pre empty_world) in
    states w0 fid = None ->
    files w0 fid (basename file_path) = None ->
    let sent := send_file config env file_path cs qos_arg in
    let r := run config (map (deliver now) (snd sent)) w0 in
    fst sent = inr fid
    /\ files (fst r) fid (basename file_path) = Some content
    /\ complete (state_of fid (fst r)) = true
    /\ ack_sent (state_of fid (fst r)) = true
    /\ count_acks fid (snd r) = 1%nat.
Proof.
  intros config env file_path cs qos_arg content now pre Hfs Hcs0 Hconn Hne Hmax _ _
         fid w0 Hst Hfi sent r.
  assert (Hcs : 1 <= cs <= max_read) by (pose proof max_chunk_read; lia).
  assert (HI : Inv w0) by (apply run_Inv, Inv_empty).
  subst r sent.
  rewrite (send_file_bus config env file_path cs qos_arg content Hfs Hcs Hconn).
  cbn [fst snd]. fold fid. split; [reflexivity|].
  set (m := sender_manifest env file_path cs content).
  set (n := Z.to_nat cs). set (total := count_chunks n (length content)).
  set (prefix := TOPIC_PREFIX config). set (q := sender_qos config qos_arg).
  set (piece := fun i => chunk_delivery prefix now
                           {| c_file_id := fid; c_chunk_index := Z.of_nat i;
                              c_sha256 := SHA256.hexdigest (source_chunk n content i);
                              c_data := source_chunk n content i |}).
  set (probe := {| in_topic := status (mk_topics prefix fid);
                   in_payload := Some PStatusRequest; in_time := now |}).
  assert (Hbus : map (deliver now)
                   ({| topic := meta (mk_topics prefix fid); payload := PManifest m; qos := q |}
                    :: map (fun i => chunk_pub (mk_topics prefix fid) fid q i
                                               (source_chunk n content i)) (seq 0 total)
                    ++ [{| topic := status (mk_topics prefix fid);
                           payload := PStatusRequest; qos := q |}])
                 = meta_delivery prefix now m :: (map piece (seq 0 total) ++ [probe])).
  { cbn [map app]. rewrite map_app. cbn [map]. rewrite !map_map. reflexivity. }
  rewrite Hbus.
  destruct (reassembly config prefix now m content (map piece (seq 0 total) ++ [probe]) w0)
    as (H1 & H2 & H3 & H4 & _).
  - apply sender_manifest_describes, Hcs0.
  - exact Hne.
  - exact Hmax.
  - exact HI.
  - exact Hst.
  - exact Hfi.
  - apply Forall_app. split.
    + apply Forall_forall. intros msg Hmsg. apply in_map_iff in Hmsg as (i & <- & Hi).
      apply in_seq in Hi. apply td_chunk. split; [reflexivity|]. exists i.
      split; [exact (proj2 Hi) | split; reflexivity].
    + constructor; [|constructor]. apply td_feedback; [now left | discriminate].
  - intros i Hi. unfold chunk_indices. apply in_flat_map. exists (piece i). split.
    + apply in_or_app. left. apply in_map, in_seq. split; [lia | exact Hi].
    + cbn [piece chunk_delivery in_payload c_file_id c_chunk_index].
      change (m_file_id m) with fid. rewrite String.eqb_refl. now left.
  - repeat split; assumption.
Qed.

Lemma sent_file_is_rebuilt_witness :
  let content := bytes_of "hello" in
  let fid := "a.bin-5-01234567"%string in
  let sent := send_file example_config (example_env content) "/tmp/a.bin" 2 None in
  let r := run example_config (map (deliver 5) (snd sent)) empty_world in
  fst sent = inr fid
  /\ files (fst r) fid "a.bin" = Some content
  /\ count_acks fid (snd r) = 1%nat.
Proof.
  intros content fid sent r.
  destruct (sent_file_is_rebuilt_and_acked example_config (example_env content) "/tmp/a.bin"
              2 None content 5 [])
    as (H1 & H2 & _ & _ & H5).
  - reflexivity.
  - unfold max_chunk. lia.
  - reflexivity.
  - discriminate.
  - vm_compute. discriminate.
  - reflexivity.
  - reflexivity.
  - reflexivity.
  - reflexivity.
  - split; [exact H1 | split; [exact H2 | exact H5]].
Defined.

(** A data file in step with the source holds, at the place of every
    recorded index, the bytes of that chunk. *)
Lemma FileOK_chunk (n : nat) (content : list byte) (rcv : list Z) (d : list byte) (i : nat) :
  (1 <= n)%nat -> FileOK n content rcv d -> In (Z.of_nat i) rcv ->
  firstn n (skipn (i * n) d) = source_chunk n content i.
Proof.
  intros Hn (Ha & Hb & Hc) Hi. apply nth_error_ext. intros k.
  rewrite nth_error_source_chunk, nth_error_firstn, nth_error_skipn.
  destruct (Nat.ltb_spec k n) as [Hk|Hk]; [|reflexivity].
  assert (Hdiv : ((i * n + k) / n = i)%nat).
  { rewrite Nat.div_add_l by lia. rewrite (Nat.div_small k n) by lia. lia. }
  destruct (Nat.lt_ge_cases (i * n + k) (length d)) as [Hp|Hp].
  - apply Hb; [exact Hp | now rewrite Hdiv].
  - specialize (Hc i Hi).
    rewrite (proj2 (nth_error_None d _) Hp). symmetry. apply nth_error_None. lia.
Qed.

(** X12: at every point of a transfer to a receiver whose storage, left
    by earlier tame deliveries, has no trace of it (the well-named
    manifest of a non-empty file first, its [chunk_size] from 1 to
    [max_chunk], then honest chunks of it in any number and order, the
    manifest again, probes, the receiver's own publications on their way
    back and tame messages of other transfers) the receiver's record is
    exact:
    [received] holds the indices of the chunks delivered, each once; the
    data file is no longer than the file and holds the bytes of every
    recorded chunk at its place; the transfer is complete exactly when
    every index is recorded; and an ack has been published, once, exactly
    when it is complete. *)
Theorem honest_chunks_keep_record_exact :
  forall (config : MQTTConfig) (prefix : string) (now : Z) (m : Manifest)
         (content : list byte) (pre msgs : list Inbound),
    describes m content ->
    content <> [] ->
    Z.of_nat (length content) <= max_offset ->
    well_named m = true ->
    forallb tame pre = true ->
    let w0 := fst (run config pre empty_world) in
    states w0 (m_file_id m) = None ->
    files w0 (m_file_id m) (m_name m) = None ->
    Forall (transfer_delivery prefix m content) msgs ->
    let r := run config (meta_delivery prefix now m :: msgs) w0 in
    let state := state_of (m_file_id m) (fst r) in
    let d := data_of (fst r) (m_file_id m) (m_name m) in
    let n := Z.to_nat (m_chunk_size m) in
    NoDup (received state)
    /\ (forall z, In z (received state) <-> In z (chunk_indices (m_file_id m) msgs))
    /\ (length d <= length content)%nat
    /\ (forall i, In (Z.of_nat i) (received state) ->
                  firstn n (skipn (i * n) d) = source_chunk n content i)
    /\ (complete state = true
        <-> forall i, (i < count_chunks n (length content))%nat ->
                      In (Z.of_nat i) (received state))
    /\ ack_sent state = complete state
    /\ count_acks (m_file_id m) (snd r) = (if complete state then 1 else 0)%nat.
Proof.
  intros config prefix now m content pre msgs Hdesc Hne Hmax _ _ w0 Hst Hfi Hall
         r state d n.
  assert (HI : Inv w0) by (apply run_Inv, Inv_empty).
  destruct (transfer_state config prefix now m content msgs w0 Hdesc Hne Hmax HI Hst Hfi Hall)
    as (Hp & Hin).
  fold r in Hp, Hin. fold state in Hin. subst d.
  destruct Hp as (rcv & cmp & Hload & Hnd & Hrange & Hcmp & Hfile & Hacks).
  fold state in Hload. rewrite Hload in *. cbn [received complete ack_sent tracking] in *.
  pose proof Hdesc as (Hcs & _). fold n in Hrange, Hcmp, Hfile.
  assert (Hn : (1 <= n)%nat) by (subst n; lia).
  split; [exact Hnd|].
  split; [exact Hin|].
  split; [exact (proj1 Hfile)|].
  split; [intros i Hi; now apply (FileOK_chunk n content rcv)|].
  split.
  { rewrite Hcmp. split.
    - intros Hlen. now apply received_covers.
    - apply covering_length. }
  split; [reflexivity | exact Hacks].
Qed.

Lemma honest_chunks_keep_record_witness :
  let m := example_manifest in
  let w0 := fst (run example_config (example_bus "ab" 1) empty_world) in
  let r := run example_config (meta_delivery "orca/iot" 0 m :: firstn 6 example_shuffled)
               w0 in
  let state := state_of (m_file_id m) (fst r) in
  NoDup (received state)
  /\ (length (data_of (fst r) (m_file_id m) (m_name m)) <= 5)%nat
  /\ ack_sent state = complete state.
Proof.
  intros m w0 r state.
  destruct (honest_chunks_keep_record_exact example_config "orca/iot" 0 m (bytes_of "hello")
              (example_bus "ab" 1) (firstn 6 example_shuffled))
    as (H1 & _ & H3 & _ & _ & H6 & _).
  - apply sender_manifest_describes. unfold max_chunk. lia.
  - discriminate.
  - vm_compute. discriminate.
  - reflexivity.
  - vm_compute. reflexivity.
  - reflexivity.
  - reflexivity.
  - apply Forall_firstn, example_shuffled_transfer.
  - split; [exact H1 | split; [exact H3 | exact H6]].
Defined.

Lemma same_elements_length (l l' : list Z) :
  NoDup l -> NoDup l' -> (forall z, In z l <-> In z l') -> length l = length l'.
Proof.
  intros H H' Hin. apply Nat.le_antisymm; apply NoDup_incl_length; try assumption;
    intros z Hz; now apply Hin.
Qed.

(** X13: the answer to a status probe during a transfer names exactly
    what is still to be sent.  After the well-named manifest of a
    non-empty file (its [chunk_size] from 1 to [max_chunk]),
    delivered to a receiver whose storage, left by earlier tame
    deliveries, has no trace of the transfer, and any deliveries of the
    transfer, a probe on the transfer's status topic changes no file (the
    directory of the file id is made if it is not there) and is answered
    by a status that carries the
    number of distinct chunk indices delivered, the manifest's
    [total_chunks], the first 500 of the undelivered indices in ascending
    order and [complete] set exactly when none is undelivered, followed by
    a retry request with the same list exactly when it is not empty. *)
Theorem probe_answer_lists_the_undelivered :
  forall (config : MQTTConfig) (prefix : string) (now : Z) (m : Manifest)
         (content : list byte) (pre msgs : list Inbound),
    describes m content ->
    content <> [] ->
    Z.of_nat (length content) <= max_offset ->
    well_named m = true ->
    forallb tame pre = true ->
    let w0 := fst (run config pre empty_world) in
    states w0 (m_file_id m) = None ->
    files w0 (m_file_id m) (m_name m) = None ->
    Forall (transfer_delivery prefix m content) msgs ->
    let fid := m_file_id m in
    let w := fst (run config (meta_delivery prefix now m :: msgs) w0) in
    let probe := {| in_topic := status (mk_topics prefix fid);
                    in_payload := Some PStatusRequest; in_time := now |} in
    let delivered := chunk_indices fid msgs in
    let missing := filter (fun i => negb (mem i delivered)) (range (m_total_chunks m)) in
    let topics := mk_topics (TOPIC_PREFIX config) fid in
    _on_message config probe w
    = {| world := _state_dir fid w;
         pubs := {| topic := status topics;
                    payload := PStatus fid (Z.of_nat (length (nodup Z.eq_dec delivered)))
                                       (Some (m_total_chunks m)) (firstn 500 missing)
                                       (is_empty missing);
                    qos := QOS config |}
                 :: (if is_empty missing then []
                     else [{| topic := retry topics;
                              payload := PRetry fid (firstn 500 missing);
                              qos := QOS config |}]);
         outcome := Returned |}.
Proof.
  intros config prefix now m content pre msgs Hdesc Hne Hmax Hwn _ w0 Hst Hfi
         Hall fid w probe delivered missing topics.
  assert (Hpl : plain fid = true)
    by (unfold well_named in Hwn; apply andb_prop in Hwn as [Hwn _];
        apply andb_prop in Hwn as [Hwn _]; exact Hwn).
  assert (HI : Inv w0) by (apply run_Inv, Inv_empty).
  destruct (transfer_state config prefix now m content msgs w0 Hdesc Hne Hmax HI Hst Hfi Hall)
    as ((rcv & cmp & Hload & Hnd & Hrange & Hcmp & _) & Hin).
  fold fid w delivered in Hload, Hin. rewrite Hload in Hin. cbn [received tracking] in Hin.
  pose proof Hdesc as (Hcs & Htot & _).
  set (total := count_chunks (Z.to_nat (m_chunk_size m)) (length content)) in *.
  subst probe. rewrite (on_message_status_plain config prefix fid _ now w Hpl).
  unfold status_pubs. rewrite Hload. unfold missing_of.
  cbn [received complete total_chunks tracking].
  assert (Hmiss : filter (fun i => negb (mem i rcv)) (range (m_total_chunks m)) = missing).
  { subst missing. apply filter_ext. intros i. f_equal.
    destruct (mem i rcv) eqn:E1, (mem i delivered) eqn:E2; try reflexivity.
    - apply mem_In, Hin, mem_In in E1. congruence.
    - apply mem_In, Hin, mem_In in E2. congruence. }
  rewrite Hmiss. clearbody missing.
  assert (Hlen : length rcv = length (nodup Z.eq_dec delivered)).
  { apply same_elements_length; [exact Hnd | apply NoDup_nodup|].
    intros z. rewrite nodup_In. apply Hin. }
  rewrite Hlen.
  assert (Hc : cmp = is_empty missing).
  { destruct cmp.
    - assert (Hall' : forall i, (i < total)%nat -> In (Z.of_nat i) rcv)
        by (apply received_covers; [exact Hnd | exact Hrange | now apply Hcmp]).
      destruct missing as [|z rest]; [reflexivity|]. exfalso.
      assert (Hz : In z (z :: rest)) by (now left).
      rewrite <- Hmiss in Hz. apply filter_In in Hz as [Hr Hm].
      apply In_range in Hr. apply negb_true_iff in Hm.
      assert (In z rcv) by (replace z with (Z.of_nat (Z.to_nat z)) by lia; apply Hall'; lia).
      apply mem_In in H. congruence.
    - destruct missing as [|z rest]; [|reflexivity]. exfalso.
      assert (false = true); [|discriminate]. apply Hcmp.
      apply covering_length. intros i Hi.
      destruct (mem (Z.of_nat i) rcv) eqn:Em; [now apply mem_In|]. exfalso.
      assert (Hz : In (Z.of_nat i) (filter (fun i => negb (mem i rcv)) (range (m_total_chunks m)))).
      { apply filter_In. split; [apply In_range; lia | now rewrite Em]. }
      rewrite Hmiss in Hz. exact Hz. }
  rewrite Hc. reflexivity.
Qed.

Lemma probe_answer_witness :
  let m := example_manifest in
  let fid := "a.bin-5-01234567"%string in
  let w0 := fst (run example_config (example_bus "ab" 1) empty_world) in
  let w := fst (run example_config (meta_delivery "orca/iot" 0 m :: firstn 6 example_shuffled)
                    w0) in
  let probe := {| in_topic := status (mk_topics "orca/iot" fid);
                  in_payload := Some PStatusRequest; in_time := 0 |} in
  pubs (_on_message example_config probe w)
  = [{| topic := "orca/iot/file/a.bin-5-01234567/status";
        payload := PStatus fid 2 (Some 3) [1] false; qos := 1 |};
     {| topic := "orca/iot/file/a.bin-5-01234567/retry";
        payload := PRetry fid [1]; qos := 1 |}].
Proof.
  intros m fid w0 w probe.
  assert (H : _on_message example_config probe w = _)
    by (apply (probe_answer_lists_the_undelivered example_config "orca/iot" 0 m
                 (bytes_of "hello") (example_bus "ab" 1) (firstn 6 example_shuffled));
        [ apply sender_manifest_describes; unfold max_chunk; lia
        | discriminate
        | vm_compute; discriminate
        | reflexivity
        | vm_compute; reflexivity
        | reflexivity
        | reflexivity
        | apply Forall_firstn, example_shuffled_transfer ]).
  exact (f_equal pubs H).
Defined.

(** X17: what an honest chunk is answered with during a transfer (the
    well-named manifest of a non-empty file, its [chunk_size] from 1 to
    [max_chunk], delivered to a receiver whose storage, left by
    earlier tame deliveries, has no trace of it, and then deliveries of
    the transfer).  When
    it brings the last missing index the answer is the ack and nothing
    else.  Otherwise a status emission (the status, and the retry request
    when indices are missing) is made exactly when the number of recorded
    indices is, after the chunk, a multiple of 50, whether or not the
    chunk changed that number, as with a repeated chunk or one arriving
    after completion; no other chunk is answered at all. *)
Theorem chunk_answer_is_ack_or_fiftieth_status :
  forall (config : MQTTConfig) (prefix : string) (now t : Z) (m : Manifest)
         (content : list byte) (pre msgs : list Inbound) (c : ChunkMsg),
    describes m content ->
    content <> [] ->
    Z.of_nat (length content) <= max_offset ->
    well_named m = true ->
    forallb tame pre = true ->
    let w0 := fst (run config pre empty_world) in
    states w0 (m_file_id m) = None ->
    files w0 (m_file_id m) (m_name m) = None ->
    Forall (transfer_delivery prefix m content) msgs ->
    honest_chunk m content c ->
    let fid := m_file_id m in
    let w := fst (run config (meta_delivery prefix now m :: msgs) w0) in
    let r := _on_message config (chunk_delivery prefix t c) w in
    let k := Z.of_nat (length (received (state_of fid (world r)))) in
    pubs r = (if negb (complete (state_of fid w)) && (m_total_chunks m <=? k)
              then [ack_pub config t fid]
              else if k mod 50 =? 0
                   then status_pubs config fid (state_of fid (world r)) else []).
Proof.
  intros config prefix now t m content pre msgs c Hdesc Hne Hmax _ _ w0 Hst Hfi Hall Hc
         fid w r k.
  assert (HI : Inv w0) by (apply run_Inv, Inv_empty).
  destruct (transfer_state config prefix now m content msgs w0 Hdesc Hne Hmax HI Hst Hfi Hall)
    as (Hp & _).
  fold w in Hp. subst k r. rewrite on_message_chunk_delivery.
  destruct (honest_chunk_step_pubs config t m content c w _ Hdesc Hne Hmax Hc Hp)
    as (_ & _ & H & _).
  exact H.
Qed.

Lemma chunk_answer_witness :
  let m := example_manifest in
  let w0 := fst (run example_config (example_bus "ab" 1) empty_world) in
  let w := fst (run example_config (meta_delivery "orca/iot" 0 m :: firstn 6 example_shuffled)
                    w0) in
  pubs (_on_message example_config (example_piece 9 1 "ll") w)
  = [ack_pub example_config 9 (m_file_id m)].
Proof.
  intros m w0 w.
  assert (H : pubs (_on_message example_config (example_piece 9 1 "ll") w) = _)
    by (apply (chunk_answer_is_ack_or_fiftieth_status example_config "orca/iot" 0 9 m
                 (bytes_of "hello") (example_bus "ab" 1) (firstn 6 example_shuffled));
        [ apply sender_manifest_describes; unfold max_chunk; lia
        | discriminate
        | vm_compute; discriminate
        | reflexivity
        | vm_compute; reflexivity
        | reflexivity
        | reflexivity
        | apply Forall_firstn, example_shuffled_transfer
        | split; [reflexivity | exists 1%nat; split; [vm_compute; lia | split; reflexivity]] ]).
  rewrite H. vm_compute. reflexivity.
Defined.

(* ================================================================== *)
(** ** Offsets *)

(** A chunk whose offset [seek] refuses leaves every [state.json] alone. *)
Lemma handle_chunk_offset (config : MQTTConfig) (now : Z) (c : ChunkMsg) (w : World) :
  let state := state_of (c_file_id c) w in
  let off := c_chunk_index c * or_int (chunk_size state) (Z.of_nat (length (c_data c))) in
  off < 0 \/ max_offset < off ->
  states (world (_handle_chunk config now c w)) = states w.
Proof.
  intros state off Hoff. unfold _handle_chunk. cbn [_load_state _data_path fst snd].
  fold state. cbv zeta. fold off.
  set (w0 := _state_dir (c_file_id c) (_state_dir (c_file_id c) w)).
  destruct (name state) as [nm|]; [|reflexivity].
  assert (Hw1 : states (match files w0 (c_file_id c) nm with
                        | Some _ => w0
                        | None => write_file (c_file_id c) nm [] w0
                        end) = states w)
    by (now destruct (files w0 (c_file_id c) nm)).
  destruct (Z.ltb_spec off 0); [exact Hw1|].
  destruct (Z.ltb_spec max_offset off); [exact Hw1 | lia].
Qed.

Lemma on_message_Reach (config : MQTTConfig) (msg : Inbound) (w : World) (f : string) :
  Inv w ->
  (forall m, in_payload msg = Some (PManifest m) -> m_file_id m = f -> 1 <= m_chunk_size m) ->
  Reach (state_of f w) ->
  Reach (state_of f (world (_on_message config msg w))).
Proof.
  intros HI Hm HR. unfold _on_message.
  destruct (in_payload msg) as [data|]; [|exact HR].
  destruct (py_index _ (-1)) as [kind|]; [|exact HR].
  destruct (py_index _ (-2)) as [fid|]; [|exact HR].
  destruct (String.eqb kind "meta").
  { destruct data as [m| | | | |]; try exact HR.
    unfold state_of at 1. rewrite handle_meta_states by exact HI.
    destruct (String.eqb_spec f (m_file_id m)) as [->|Hne]; [|exact HR].
    split; [right; exists (m_chunk_size m); split; [reflexivity | now apply Hm]|].
    exact (proj2 HR). }
  destruct (String.eqb kind "chunk").
  2:{ destruct (String.eqb kind "status"); exact HR. }
  destruct data as [|c| | | |]; try exact HR.
  destruct (handle_chunk_summary config (in_time msg) c w HI)
    as (Hoth & _ & [[Hsame _]|(nm & state1 & s' & Hnm & Hst1 & _ & Hs' & Hcomp)]).
  - rewrite (load_states f w _) by (now rewrite Hsame). exact HR.
  - destruct (String.eqb_spec f (c_file_id c)) as [->|Hne].
    2:{ rewrite (load_states f w _) by (now apply Hoth). exact HR. }
    rewrite (load_some _ _ _ Hs').
    destruct (Completed_fields _ _ _ _ _ _ _ Hcomp) as (Hn' & Hr' & _ & _ & Hc').
    destruct HR as [Hname Hrec].
    destruct Hst1 as [[-> _]|[-> Hnew]].
    { split; [now rewrite Hn', Hc' | now rewrite Hr']. }
    cbn [name chunk_size received set_received] in Hn', Hr', Hc'.
    split; [now rewrite Hn', Hc'|]. rewrite Hr'. apply Forall_app. split; [exact Hrec|].
    constructor; [|constructor].
    destruct Hname as [Hname|(cs & Hcs & Hpos)]; [congruence|].
    set (off := c_chunk_index c
                * or_int (chunk_size (state_of (c_file_id c) w))
                         (Z.of_nat (length (c_data c)))).
    assert (Hoff : 0 <= off <= max_offset).
    { destruct (Z.lt_ge_cases off 0) as [Hlt|Hge].
      - exfalso. pose proof (handle_chunk_offset config (in_time msg) c w (or_introl Hlt)) as E.
        rewrite E in Hs'. apply load_some in Hs'. apply Hnew.
        rewrite Hs', Hr'. apply in_or_app. right. now left.
      - destruct (Z.lt_ge_cases max_offset off) as [Hgt|Hle]; [|lia].
        exfalso. pose proof (handle_chunk_offset config (in_time msg) c w (or_intror Hgt)) as E.
        rewrite E in Hs'. apply load_some in Hs'. apply Hnew.
        rewrite Hs', Hr'. apply in_or_app. right. now left. }
    subst off. rewrite Hcs in Hoff. unfold or_int in Hoff.
    destruct (Z.eqb_spec cs 0); [lia|]. unfold max_offset in *. nia.
Qed.

Lemma run_Reach (config : MQTTConfig) (f : string) (msgs : list Inbound) :
  (forall msg m, In msg msgs -> in_payload msg = Some (PManifest m) ->
                 m_file_id m = f -> 1 <= m_chunk_size m) ->
  forall w, Inv w -> Reach (state_of f w) ->
  Reach (state_of f (fst (run config msgs w))).
Proof.
  induction msgs as [|msg msgs IH]; intros Hm w HI HR; [exact HR|].
  cbn [run]. rewrite (surjective_pairing (run config msgs _)). cbn [fst].
  apply IH.
  - intros msg' m Hin. apply Hm. now right.
  - now apply on_message_Inv.
  - apply on_message_Reach; [exact HI | | exact HR]. intros m. apply Hm. now left.
Qed.

(** X14: a receiver that starts with an empty storage never records an
    index it could not seek to: over tame deliveries, when every manifest
    delivered for a plain file id carries a positive [chunk_size], every
    index in [received] lies between 0 and the largest file offset,
    whatever else is delivered, because a chunk with another index ends
    the handler at [seek]. *)
Theorem recorded_indices_are_seekable :
  forall (config : MQTTConfig) (f : string) (msgs : list Inbound),
    plain f = true ->
    forallb tame msgs = true ->
    (forall msg m, In msg msgs -> in_payload msg = Some (PManifest m) ->
                   m_file_id m = f -> 1 <= m_chunk_size m) ->
    let w := fst (run config msgs empty_world) in
    Forall (fun i => 0 <= i <= max_offset) (received (state_of f w)).
Proof.
  intros config f msgs Hf Htame Hm w. subst w.
  apply (run_Reach config f msgs Hm empty_world Inv_empty).
  split; [now left | constructor].
Qed.

Lemma recorded_indices_witness :
  let f := "a.bin-2-01234567"%string in
  let msgs := example_bus "ab" 1 ++ [example_chunk f (-1) "zz"] in
  plain f = true
  /\ forallb tame msgs = true
  /\ Forall (fun i => 0 <= i <= max_offset)
            (received (state_of f (fst (run example_config msgs empty_world)))).
Proof.
  intros f msgs.
  assert (Hpl : plain f = true) by reflexivity.
  assert (Ht : forallb tame msgs = true) by (vm_compute; reflexivity).
  split; [exact Hpl|]. split; [exact Ht|].
  apply (recorded_indices_are_seekable example_config f msgs Hpl Ht).
  intros msg m Hin Hp Hf.
  destruct Hin as [<-|[<-|[<-|[<-|[<-|[]]]]]]; try discriminate Hp.
  injection Hp as <-. vm_compute. discriminate.
Defined.

(* ================================================================== *)
(** ** File ids *)

Lemma string_length_append (a b : string) :
  String.length (a ++ b) = (String.length a + String.length b)%nat.
Proof. induction a as [|c a IH]; simpl; [reflexivity | now rewrite IH]. Qed.

Lemma string_append_assoc (a b c : string) : ((a ++ b) ++ c = a ++ b ++ c)%string.
Proof. induction a as [|x a IH]; simpl; [reflexivity | now rewrite IH]. Qed.

(** Two strings that end in suffixes of one length. *)
Lemma append_inj_suffix (a b u v : string) :
  String.length u = String.length v -> (a ++ u = b ++ v)%string -> a = b /\ u = v.
Proof.
  intros Hlen. revert b. induction a as [|x a IH]; intros [|y b] H; simpl in H.
  - now split.
  - exfalso. apply (f_equal String.length) in H. simpl in H.
    rewrite string_length_append in H. lia.
  - exfalso. apply (f_equal String.length) in H. simpl in H.
    rewrite string_length_append in H. lia.
  - injection H as -> H. destruct (IH b H) as [-> ->]. now split.
Qed.

(** Two strings cut at their last [c]. *)
Lemma append_inj_sep (c : ascii) (a b u v : string) :
  has_char c u = false -> has_char c v = false ->
  (a ++ String c u = b ++ String c v)%string -> a = b /\ u = v.
Proof.
  intros Hu Hv. revert b. induction a as [|x a IH]; intros [|y b] H; simpl in H.
  - injection H as ->. now split.
  - exfalso. injection H as <- ->. rewrite has_char_app in Hu. simpl in Hu.
    rewrite Ascii.eqb_refl in Hu. simpl in Hu. now rewrite orb_true_r in Hu.
  - exfalso. injection H as -> <-. rewrite has_char_app in Hv. simpl in Hv.
    rewrite Ascii.eqb_refl in Hv. simpl in Hv. now rewrite orb_true_r in Hv.
  - injection H as -> H. destruct (IH b H) as [-> ->]. now split.
Qed.

Lemma substring_length (s : string) :
  forall n m, (n + m <= String.length s)%nat -> String.length (substring n m s) = m.
Proof.
  induction s as [|c s IH]; intros n m H; simpl in H.
  - assert (n = 0 /\ m = 0)%nat as [-> ->] by lia. reflexivity.
  - destruct n as [|n]; simpl.
    + destruct m as [|m]; [reflexivity|]. simpl. f_equal. apply IH. simpl. lia.
    + apply IH. lia.
Qed.

Lemma str_of_nat_no_dash (n : nat) : has_char "-" (str_of_nat n) = false.
Proof.
  unfold str_of_nat, NilZero.string_of_uint.
  assert (H : forall d, has_char "-" (NilEmpty.string_of_uint d) = false)
    by (induction d; simpl; auto).
  destruct (Nat.to_uint n); try apply H. reflexivity.
Qed.

Lemma str_of_nat_inj (n n' : nat) : str_of_nat n = str_of_nat n' -> n = n'.
Proof.
  assert (Hnn : forall k, Nat.to_uint k <> Decimal.Nil).
  { intros k H. pose proof (DecimalNat.Unsigned.of_to k) as E. rewrite H in E.
    simpl in E. subst k. discriminate H. }
  unfold str_of_nat. intros H. apply (f_equal NilZero.uint_of_string) in H.
  rewrite !NilZero.usu in H by apply Hnn. injection H as H.
  now apply DecimalNat.Unsigned.to_uint_inj.
Qed.

(** X15: a file id tells the base name, the size and the first eight
    characters of the uuid apart (a uuid's hex form has 32): two calls of
    [generate_file_id] return the same id only for files of the same base
    name and the same size, and with the same uuid prefix.  The content
    plays no part. *)
Theorem file_id_tells_name_and_size :
  forall (env1 env2 : SenderEnv) (path1 path2 : string) (content1 content2 : list byte),
    (8 <= String.length (uuid4_hex env1))%nat ->
    (8 <= String.length (uuid4_hex env2))%nat ->
    generate_file_id env1 path1 content1 = generate_file_id env2 path2 content2 ->
    basename path1 = basename path2
    /\ length content1 = length content2
    /\ substring 0 8 (uuid4_hex env1) = substring 0 8 (uuid4_hex env2).
Proof.
  intros env1 env2 path1 path2 content1 content2 H1 H2 H.
  unfold generate_file_id in H.
  set (u1 := substring 0 8 (uuid4_hex env1)) in *.
  set (u2 := substring 0 8 (uuid4_hex env2)) in *.
  assert (Hu : String.length u1 = String.length u2)
    by (unfold u1, u2; rewrite !substring_length by (simpl; lia); reflexivity).
  change (basename path1 ++ "-" ++ str_of_nat (length content1) ++ "-" ++ u1)%string
    with (basename path1 ++ String "-" (str_of_nat (length content1) ++ String "-" u1))%string
    in H.
  change (basename path2 ++ "-" ++ str_of_nat (length content2) ++ "-" ++ u2)%string
    with (basename path2 ++ String "-" (str_of_nat (length content2) ++ String "-" u2))%string
    in H.
  assert (H' : ((basename path1 ++ String "-" (str_of_nat (length content1))) ++ String "-" u1
                = (basename path2 ++ String "-" (str_of_nat (length content2))) ++ String "-" u2)%string).
  { rewrite !string_append_assoc. exact H. }
  apply append_inj_suffix in H' as [Hd Hu']; [|simpl; now rewrite Hu].
  injection Hu' as Hu'.
  apply append_inj_sep in Hd as [Hn Hs]; try apply str_of_nat_no_dash.
  split; [exact Hn|]. split; [now apply str_of_nat_inj | exact Hu'].
Qed.

Lemma file_id_tells_witness :
  let env1 := example_env (bytes_of "ab") in
  let env2 := example_env (bytes_of "cd") in
  generate_file_id env1 "/tmp/a.bin" (bytes_of "ab")
  = generate_file_id env2 "/srv/a.bin" (bytes_of "cd")
  /\ basename "/tmp/a.bin" = basename "/srv/a.bin".
Proof.
  intros env1 env2. split; [reflexivity|].
  apply (file_id_tells_name_and_size env1 env2 "/tmp/a.bin" "/srv/a.bin"
           (bytes_of "ab") (bytes_of "cd")).
  - simpl. lia.
  - simpl. lia.
  - reflexivity.
Defined.

(* ================================================================== *)
(** ** [chunk_size = -1] *)

(** With [n = -1] the loop makes one turn, on the whole file. *)
Lemma read_loop_whole {S : Type} (body : S -> list byte -> S * option Exn)
    (content : list byte) (s : S) :
  content <> [] ->
  read_loop body (-1) content s =
  match body s content with
  | (s', Some e) => (s', Some e)
  | (s', None) => (s', None)
  end.
Proof.
  intros Hne. rewrite read_loop_unfold.
  change (fread (-1) content) with (@inr Exn _ (content, @nil byte)).
  destruct content as [|b rest]; [congruence|]. cbn [is_empty].
  destruct (body s (b :: rest)) as [s' [e|]]; [reflexivity|].
  now rewrite read_loop_unfold.
Qed.

Lemma send_file_whole (config : MQTTConfig) (env : SenderEnv) (file_path : string)
    (qos_arg : option Z) (content : list byte) :
  fs env file_path = Some content ->
  content <> [] ->
  is_connected env || connect_result env = true ->
  let fid := generate_file_id env file_path content in
  let topics := mk_topics (TOPIC_PREFIX config) fid in
  let q := sender_qos config qos_arg in
  send_file config env file_path (-1) qos_arg =
  (inr fid,
   [{| topic := meta topics;
       payload := PManifest (whole_file_manifest env file_path content); qos := q |};
    chunk_pub topics fid q 0 content;
    {| topic := status topics; payload := PStatusRequest; qos := q |}]).
Proof.
  intros Hfs Hne Hconn fid topics q.
  unfold send_file. rewrite Hfs.
  replace (negb (is_connected env) && negb (connect_result env)) with false
    by (destruct (is_connected env), (connect_result env); simpl in *; congruence).
  cbn [Z.eqb]. rewrite (read_loop_whole first_pass_body content _ Hne).
  cbn [first_pass_body fst snd app]. rewrite (read_loop_whole _ content _ Hne).
  unfold second_pass_body. cbn [fst snd map py_index length Z.of_nat Z.leb Z.compare
                                Z.to_nat nth_error app Z.add].
  fold fid. fold topics. fold (sender_qos config qos_arg). fold q.
  unfold whole_file_manifest, chunk_pub. fold fid.
  replace ((Z.of_nat (length content) + -1 - 1) / -1) with (2 - Z.of_nat (length content)).
  - reflexivity.
  - apply (Z.div_unique_exact); lia.
Qed.

Lemma write_at_empty_file (blob : list byte) : write_at [] 0 blob = blob.
Proof.
  unfold write_at. destruct blob as [|b blob]; [reflexivity|].
  cbn [is_empty firstn length Nat.sub repeat app]. now rewrite skipn_nil, app_nil_r.
Qed.

(** X16: [send_file] with [chunk_size = -1] on a non-empty file, over a
    connected bus, reads it in one piece: it publishes the manifest, a
    single chunk with index 0 that carries the whole file, and the probe,
    and returns the file id.  The manifest gives [total_chunks] as
    [2 - size], which is the number of chunks only for a file of one
    byte.  When the file has at most [max_chunk] bytes and that manifest
    is well named (the generated file id and the base name plain, the
    base name not [state.json]), a receiver
    whose storage, left by earlier tame deliveries, has no trace of the
    transfer and that is delivered these three messages still rebuilds
    the file, marks the transfer complete and publishes exactly one
    ack. *)
Theorem chunk_size_minus_one_sends_one_chunk :
  forall (config : MQTTConfig) (env : SenderEnv) (file_path : string)
         (qos_arg : option Z) (content : list byte) (now : Z) (pre : list Inbound),
    fs env file_path = Some content ->
    content <> [] ->
    Z.of_nat (length content) <= max_chunk ->
    is_connected env || connect_result env = true ->
    well_named (whole_file_manifest env file_path content) = true ->
    forallb tame pre = true ->
    let fid := generate_file_id env file_path content in
    let w0 := fst (run config pre empty_world) in
    states w0 fid = None ->
    files w0 fid (basename file_path) = None ->
    let topics := mk_topics (TOPIC_PREFIX config) fid in
    let q := sender_qos config qos_arg in
    let sent := send_file config env file_path (-1) qos_arg in
    let r := run config (map (deliver now) (snd sent)) w0 in
    sent = (inr fid,
            [{| topic := meta topics;
                payload := PManifest (whole_file_manifest env file_path content);
                qos := q |};
             chunk_pub topics fid q 0 content;
             {| topic := status topics; payload := PStatusRequest; qos := q |}])
    /\ files (fst r) fid (basename file_path) = Some content
    /\ received (state_of fid (fst r)) = [0]
    /\ complete (state_of fid (fst r)) = true
    /\ ack_sent (state_of fid (fst r)) = true
    /\ count_acks fid (snd r) = 1%nat.
Proof.
  intros config env file_path qos_arg content now pre Hfs Hne _ Hconn Hwn _ fid w0 Hst Hfi
         topics q sent r.
  assert (Hpl : plain fid = true)
    by (unfold well_named in Hwn; apply andb_prop in Hwn as [Hwn _];
        apply andb_prop in Hwn as [Hwn _]; exact Hwn).
  pose proof (send_file_whole config env file_path qos_arg content Hfs Hne Hconn) as Hs.
  cbv zeta in Hs. fold fid topics q sent in Hs. split; [exact Hs|].
  subst r. rewrite Hs. cbn [snd map]. clear Hs sent.
  set (m := whole_file_manifest env file_path content).
  set (nm := basename file_path) in *.
  change (deliver now {| topic := meta topics; payload := PManifest m; qos := q |})
    with (meta_delivery (TOPIC_PREFIX config) now m).
  set (c := {| c_file_id := fid; c_chunk_index := Z.of_nat 0;
               c_sha256 := SHA256.hexdigest content; c_data := content |}).
  change (deliver now (chunk_pub topics fid q 0 content))
    with (chunk_delivery (TOPIC_PREFIX config) now c).
  change (deliver now {| topic := status topics; payload := PStatusRequest; qos := q |})
    with {| in_topic := status (mk_topics (TOPIC_PREFIX config) fid);
            in_payload := Some PStatusRequest; in_time := now |}.
  cbn [run]. rewrite on_message_meta_delivery.
  set (r1 := _handle_meta config m w0).
  assert (Hload1 : state_of fid (world r1) = tracking m [] false)
    by (exact (handle_meta_fresh config m w0 Hst)).
  assert (Hna1 : no_ack (pubs r1))
    by (subst r1; rewrite handle_meta_pubs; apply status_pubs_no_ack).
  rewrite on_message_chunk_delivery.
  set (rc := _handle_chunk config now c (world r1)).
  assert (Hchunk : state_of fid (world rc) = tracking m [0] true
                   /\ files (world rc) fid nm = Some content
                   /\ pubs rc = [ack_pub config now fid]).
  { set (w1 := _state_dir fid (_state_dir fid (world r1))).
    set (w3 := _save_state (tracking m [0] false)
                 (write_file fid nm content (write_file fid nm [] w1))).
    assert (Hrc : rc = completion_check config now fid nm (tracking m [0] false) w3).
    { subst rc. unfold _handle_chunk. cbn [_load_state _data_path fst snd].
      cbn [c_file_id c_chunk_index c_data c Z.of_nat]. rewrite Hload1.
      cbn [name tracking chunk_size received or_int Z.eqb Z.mul].
      change (m_name m) with nm. fold w1.
      replace (files w1 fid nm) with (@None (list byte)) by (symmetry; exact Hfi).
      destruct (Z.ltb_spec 0 0); [lia|].
      destruct (Z.ltb_spec max_offset 0); [unfold max_offset in *; lia|].
      cbn [Z.to_nat]. rewrite write_at_empty_file.
      replace (check_chunk (tracking m [] false) 0 content) with CheckPassed.
      2: { unfold check_chunk.
           cbn [chunk_sha256 tracking m whole_file_manifest m_chunk_sha256
                is_empty negb length Z.of_nat Z.ltb Z.compare andb
                py_index Z.leb Z.to_nat nth_error truthy Pos.of_succ_nat].
           now rewrite String.eqb_refl, andb_false_r. }
      cbn [mem existsb app].
      change (set_received [0] (tracking m [] false)) with (tracking m [0] false).
      reflexivity. }
    destruct (completion_check_acks config now fid nm (tracking m [0] false) w3
                (2 - Z.of_nat (length content)) content)
      as (H1 & _ & H3 & H4 & _).
    - reflexivity.
    - reflexivity.
    - cbn [received tracking length]. destruct content; [congruence | simpl length; lia].
    - reflexivity.
    - reflexivity.
    - change (-1 <= -1 <= max_read). unfold max_read. lia.
    - subst w3. cbn [files _save_state write_file]. now rewrite !String.eqb_refl.
    - reflexivity.
    - rewrite <- Hrc in H1, H3, H4. split; [exact H1|]. split; [|exact H4].
      rewrite H3. subst w3. cbn [files _save_state write_file].
      now rewrite !String.eqb_refl. }
  destruct Hchunk as (Hsc & Hfc & Hpc).
  rewrite (on_message_status_plain config (TOPIC_PREFIX config) fid PStatusRequest now
             (world rc) Hpl).
  cbn [world pubs fst snd]. rewrite state_of_state_dir, Hsc.
  cbn [received complete ack_sent tracking].
  rewrite !count_acks_app, (no_ack_count _ _ Hna1), Hpc.
  rewrite (no_ack_count _ _ (status_pubs_no_ack _ _ _)).
  rewrite count_acks_ack_pub, String.eqb_refl.
  split; [exact Hfc|]. repeat split; reflexivity.
Qed.

Lemma chunk_size_minus_one_witness :
  let content := bytes_of "hello" in
  let fid := "a.bin-5-01234567"%string in
  let sent := send_file example_config (example_env content) "/tmp/a.bin" (-1) None in
  let r := run example_config (map (deliver 5) (snd sent)) empty_world in
  flat_map pub_chunk_data (snd sent) = [content]
  /\ files (fst r) fid "a.bin" = Some content
  /\ count_acks fid (snd r) = 1%nat.
Proof.
  intros content fid sent r.
  destruct (chunk_size_minus_one_sends_one_chunk example_config (example_env content)
              "/tmp/a.bin" None content 5 [])
    as (H1 & H2 & _ & _ & _ & H6).
  - reflexivity.
  - discriminate.
  - vm_compute. discriminate.
  - reflexivity.
  - reflexivity.
  - reflexivity.
  - reflexivity.
  - reflexivity.
  - split; [|split; [exact H2 | exact H6]].
    unfold sent. rewrite H1. reflexivity.
Defined.
